(** * hasty-paste: the paste storage engine

    A shallow embedding of [paste_bin/helpers.py] and
    [paste_bin/core/models.py], and the properties of the storage engine
    proved over it.

    Conventions.
    - A Python [str] is a Rocq [string], a sequence of characters up to
      U+00FF; a Python [bytes] is a [list byte].
    - A function that may raise returns a [result]: [Return v] or [Raise e],
      with [e] the exception object (class and message).
    - [datetime.utcnow()] reads a clock: the reading is an explicit argument.
    - [secrets.token_bytes] reads the system's random source: the source is an
      explicit argument, a stream of bytes.
    - The file system is an explicit state, threaded through the
      operations that touch it. *)

From Stdlib Require Import ZArith NArith List String Ascii Bool Lia.
From Stdlib Require Import DecimalFacts DecimalPos DecimalN.
From Stdlib.Strings Require Import Byte.
From stdpp Require Import gmap strings.

Import ListNotations.
Local Open Scope string_scope.
Local Open Scope list_scope.

(** ** Python values *)

Abbreviation str := string.
Abbreviation bytes := (list byte).

(** The exceptions of [helpers.py] and [core/models.py], and the built-in
    ones that the modelled code can raise; the last four are the [OSError]s
    of the file system, each with its [strerror]. [PasteIdException],
    [PasteDoesNotExistException] and [PasteExpiredException] derive from
    [PasteException]; [PasteMetaUnprocessable] and [PasteMetaVersionInvalid]
    from [PasteMetaException]. The two modules declare the last three
    classes each on its own, under the same names: one constructor stands
    for both. *)
Inductive exn : Type :=
  | PasteIdException (msg : str)
  | PasteDoesNotExistException (msg : str)
  | PasteExpiredException (msg : str)
  | PasteMetaUnprocessable (msg : str)
  | PasteMetaVersionInvalid (msg : str)
  | TypeError (msg : str)
  | ValueError (msg : str)
  | FileNotFoundError (msg : str)
  | FileExistsError (msg : str)
  | NotADirectoryError (msg : str)
  | IsADirectoryError (msg : str).

Inductive result (A : Type) : Type :=
  | Return (a : A)
  | Raise (e : exn).
Arguments Return {A} a.
Arguments Raise {A} e.

Definition bind {A B} (r : result A) (k : A -> result B) : result B :=
  match r with
  | Return a => k a
  | Raise e => Raise e
  end.

Notation "'let!' x ':=' r 'in' k" := (bind r (fun x => k))
  (at level 10, x name, r at level 100, k at level 200).

Definition CURRENT_PASTE_META_VERSION : Z := 1.

(** ** [datetime]

    The seven fields of a [datetime.datetime] and its [tzinfo], which is
    [None] for a naive value and otherwise carries the offset from UTC: a
    [timedelta], in microseconds. *)
Record datetime : Type := mk_datetime {
  year : N; month : N; day : N;
  hour : N; minute : N; second : N; microsecond : N;
  tzinfo : option Z
}.

(** [timedelta(minutes=k)] *)
Definition minutes (k : Z) : Z := (k * 60000000)%Z.

(** [dt.replace(tzinfo=None)] *)
Definition replace_tzinfo_None (d : datetime) : datetime :=
  mk_datetime (year d) (month d) (day d) (hour d) (minute d) (second d)
    (microsecond d) None.

(** A clock reading: the fields of the current UTC time. *)
Record clock : Type := mk_clock {
  c_year : N; c_month : N; c_day : N;
  c_hour : N; c_minute : N; c_second : N; c_microsecond : N
}.

(** [datetime.utcnow()]: the current UTC time as a naive [datetime]. *)
Definition utcnow (c : clock) : datetime :=
  mk_datetime (c_year c) (c_month c) (c_day c) (c_hour c) (c_minute c)
    (c_second c) (c_microsecond c) None.

(** Tuple comparison, as Python compares
    [(year, month, day, hour, minute, second, microsecond)]. *)
Fixpoint cmp_tuple (a b : list N) : comparison :=
  match a, b with
  | [], [] => Eq
  | [], _ :: _ => Lt
  | _ :: _, [] => Gt
  | x :: a', y :: b' =>
      match N.compare x y with
      | Eq => cmp_tuple a' b'
      | c => c
      end
  end.

Definition fields (d : datetime) : list N :=
  [year d; month d; day d; hour d; minute d; second d; microsecond d].

(** Days before the first of January of [y], and before the first of month
    [m] of year [y] ([_days_before_year], [_days_before_month] of
    [datetime.py]). *)
Definition is_leap (y : N) : bool :=
  ((y mod 4 =? 0) && (negb (y mod 100 =? 0) || (y mod 400 =? 0)))%N.

Definition days_in_month (y m : N) : N :=
  (if m =? 2 then (if is_leap y then 29 else 28)
   else if (m =? 4) || (m =? 6) || (m =? 9) || (m =? 11) then 30
   else 31)%N.

Definition days_before_year (y : N) : N :=
  (let y' := y - 1 in y' * 365 + y' / 4 - y' / 100 + y' / 400)%N.

Fixpoint days_before_month_aux (y : N) (n : nat) : N :=
  match n with
  | O => 0
  | S n' => (days_before_month_aux y n' + days_in_month y (N.of_nat n))%N
  end.

Definition days_before_month (y m : N) : N :=
  days_before_month_aux y (N.to_nat m - 1).

(** The instant of an aware [datetime], in microseconds: the fields read
    as UTC fields, minus the offset. *)
Definition utc_microseconds (d : datetime) (offset : Z) : Z :=
  let ord := Z.of_N (days_before_year (year d) + days_before_month (year d) (month d) + day d) in
  ((((ord * 24 + Z.of_N (hour d)) * 60 + Z.of_N (minute d)) * 60
     + Z.of_N (second d)) * 1000000 + Z.of_N (microsecond d) - offset)%Z.

(** [a < b] on [datetime]: field by field between two naive values, by
    instant between two aware ones, and a [TypeError] between a naive and
    an aware one. *)
Definition datetime_lt (a b : datetime) : result bool :=
  match tzinfo a, tzinfo b with
  | None, None =>
      Return (match cmp_tuple (fields a) (fields b) with Lt => true | _ => false end)
  | Some oa, Some ob =>
      if (oa =? ob)%Z
      then Return (match cmp_tuple (fields a) (fields b) with Lt => true | _ => false end)
      else Return (utc_microseconds a oa <? utc_microseconds b ob)%Z
  | _, _ => Raise (TypeError "can't compare offset-naive and offset-aware datetimes")
  end.

(** [a < b] between two naive values: [a] is earlier than [b]. *)
Definition earlier (a b : datetime) : bool :=
  match cmp_tuple (fields a) (fields b) with Lt => true | _ => false end.

(** ** [pathlib]

    A [PurePosixPath] is its tuple of parts; the first part of an absolute
    path is its root, ["/"] or ["//"]. *)
Abbreviation Path := (list string).

(** Split at each ["/"]. *)
Fixpoint split_sep (s : string) : list string :=
  match s with
  | EmptyString => [EmptyString]
  | String c s' =>
      if Ascii.eqb c "/" then EmptyString :: split_sep s'
      else match split_sep s' with
           | [] => [String c EmptyString]
           | w :: ws => String c w :: ws
           end
  end.

Fixpoint lstrip_sep (s : string) : string :=
  match s with
  | String c s' => if Ascii.eqb c "/" then lstrip_sep s' else s
  | EmptyString => s
  end.

(** The root of a path string: two leading slashes, no more and no less,
    make the root ["//"]; any other number makes it ["/"]. *)
Definition splitroot (s : string) : string * string :=
  match s with
  | String c _ =>
      if Ascii.eqb c "/" then
        let rest := lstrip_sep s in
        if (String.length s - String.length rest =? 2)%nat then ("//", rest) else ("/", rest)
      else (EmptyString, s)
  | EmptyString => (EmptyString, s)
  end.

(** The parts of a path string: the root, if any, then the components
    between slashes, without the empty ones and the ["."] ones. *)
Definition parse_parts (s : string) : Path :=
  let '(root, rel) := splitroot s in
  let comps := List.filter (fun w => negb (String.eqb w EmptyString || String.eqb w ".")) (split_sep rel) in
  if String.eqb root EmptyString then comps else root :: comps.

Definition is_absolute_str (s : string) : bool :=
  negb (String.eqb (fst (splitroot s)) EmptyString).

(** [p / s]: an absolute [s] replaces [p]. *)
Definition joinpath (p : Path) (s : string) : Path :=
  if is_absolute_str s then parse_parts s else p ++ parse_parts s.

Notation "p // s" := (joinpath p s) (at level 40, left associativity).

(** ** The file system

    Regular files with their contents, and directories; the roots and the
    current directory are directories. An operation on a path walks down
    the directories above it: it fails with [NotADirectoryError] at a
    regular file and with [FileNotFoundError] where nothing is. *)
Record FS : Type := mk_FS {
  files : gmap Path bytes;
  dirs : gset Path
}.

(** The non-empty prefixes of a path: the path and its ancestors. *)
Fixpoint ancestors (p : Path) : list Path :=
  match p with
  | [] => []
  | x :: p' => [x] :: List.map (cons x) (ancestors p')
  end.

(** The paths that are their own parent: the current directory and the
    roots. *)
Definition is_root (p : Path) : bool :=
  match p with
  | [] => true
  | [r] => String.eqb r "/" || String.eqb r "//"
  | _ => false
  end.

(** [p.parent] *)
Definition parent (p : Path) : Path :=
  if is_root p then p else removelast p.

(** [aio_ospath.isfile(p)] *)
Definition isfile (p : Path) (fs : FS) : bool :=
  bool_decide (is_Some (files fs !! p)).

(** [p.is_dir()] *)
Definition isdir (p : Path) (fs : FS) : bool :=
  negb (isfile p fs) && (is_root p || bool_decide (p ∈ dirs fs)).

(** The walk down the directories [l], from the highest. *)
Fixpoint walk (l : list Path) (fs : FS) : option exn :=
  match l with
  | [] => None
  | a :: l' =>
      if isfile a fs then Some (NotADirectoryError "Not a directory")
      else if isdir a fs then walk l' fs
      else Some (FileNotFoundError "No such file or directory")
  end.

(** The walk down to the directory of [p]: the error it ends with, if
    any. *)
Definition resolve (p : Path) (fs : FS) : option exn :=
  walk (ancestors (removelast p)) fs.

(** The error of an operation that needs a regular file at [p], where
    there is none. *)
Definition no_file (p : Path) (fs : FS) : exn :=
  match resolve p fs with
  | Some e => e
  | None =>
      if isdir p fs then IsADirectoryError "Is a directory"
      else FileNotFoundError "No such file or directory"
  end.

(** [os.mkdir(p)] *)
Definition os_mkdir (p : Path) (fs : FS) : result unit * FS :=
  if isfile p fs || isdir p fs then (Raise (FileExistsError "File exists"), fs)
  else
    match resolve p fs with
    | Some e => (Raise e, fs)
    | None => (Return tt, mk_FS (files fs) (dirs fs ∪ {[p]}))
    end.

(** [p.mkdir(exist_ok=True)]: an [OSError] other than
    [FileNotFoundError] is dropped when [p] is a directory. *)
Definition mkdir_exist_ok (p : Path) (fs : FS) : result unit * FS :=
  match os_mkdir p fs with
  | (Raise (FileNotFoundError msg), fs') => (Raise (FileNotFoundError msg), fs')
  | (Raise e, fs') => if isdir p fs' then (Return tt, fs') else (Raise e, fs')
  | (Return _, fs') => (Return tt, fs')
  end.

(** [Path.mkdir] with [parents] and [exist_ok]: on a
    [FileNotFoundError] the parent is made in the same way, and then the
    directory; [n] bounds the depth of the calls. *)
Fixpoint mkdir_parents_from (n : nat) (p : Path) (fs : FS) : result unit * FS :=
  match os_mkdir p fs with
  | (Raise (FileNotFoundError msg), fs') =>
      match n with
      | S n' =>
          if is_root p then (Raise (FileNotFoundError msg), fs')
          else
            match mkdir_parents_from n' (parent p) fs' with
            | (Return _, fs1) => mkdir_exist_ok p fs1
            | (Raise e, fs1) => (Raise e, fs1)
            end
      | O => (Raise (FileNotFoundError msg), fs')
      end
  | (Raise e, fs') => if isdir p fs' then (Return tt, fs') else (Raise e, fs')
  | (Return _, fs') => (Return tt, fs')
  end.

(** [p.mkdir(parents=True, exist_ok=True)] *)
Definition mkdir_parents (p : Path) (fs : FS) : result unit * FS :=
  mkdir_parents_from (List.length p) p fs.

(** [aio_os.remove(p)] *)
Definition remove (p : Path) (fs : FS) : result unit * FS :=
  match files fs !! p with
  | Some _ => (Return tt, mk_FS (delete p (files fs)) (dirs fs))
  | None => (Raise (no_file p fs), fs)
  end.

(** Python slices [s[:n]] and [s[n:]]. *)
Definition slice_to (n : nat) (s : string) : string := String.substring 0 n s.
Definition slice_from (n : nat) (s : string) : string :=
  String.substring n (String.length s - n) s.

(** ** [json]

    The decoder and encoder of Python's [json] module, on the values the
    model covers: [None], booleans, integers, strings, lists and
    dictionaries with string keys. The decoder is strict: floating-point
    literals and strings with a character beyond U+00FF are outside the
    model, and where the decoder meets one it reports a failure. What it
    reads, [json.loads] reads to the same value. *)
Module json.

Local Open Scope string_scope.

#[local] Unset Elimination Schemes.
Inductive value : Type :=
  | Null
  | Bool (b : bool)
  | Int (z : Z)
  | Str (s : string)
  | Arr (l : list value)
  | Obj (l : list (string * value)).
#[local] Set Elimination Schemes.

(** *** Encoding *)

Definition digit_char (d : N) : ascii := ascii_of_N (48 + d).

Fixpoint string_of_uint (u : Decimal.uint) : string :=
  match u with
  | Decimal.Nil => EmptyString
  | Decimal.D0 u => String "0" (string_of_uint u)
  | Decimal.D1 u => String "1" (string_of_uint u)
  | Decimal.D2 u => String "2" (string_of_uint u)
  | Decimal.D3 u => String "3" (string_of_uint u)
  | Decimal.D4 u => String "4" (string_of_uint u)
  | Decimal.D5 u => String "5" (string_of_uint u)
  | Decimal.D6 u => String "6" (string_of_uint u)
  | Decimal.D7 u => String "7" (string_of_uint u)
  | Decimal.D8 u => String "8" (string_of_uint u)
  | Decimal.D9 u => String "9" (string_of_uint u)
  end.

(** [str(z)] for an [int]. *)
Definition str_of_int (z : Z) : string :=
  match z with
  | Zneg p => String "-" (string_of_uint (Pos.to_uint p))
  | _ => string_of_uint (N.to_uint (Z.to_N z))
  end.

Definition hex_char (d : N) : ascii :=
  if (d <? 10)%N then ascii_of_N (48 + d) else ascii_of_N (87 + d).

Definition dquote : ascii := Eval cbv in ascii_of_N 34.
Definition backslash : ascii := Eval cbv in ascii_of_N 92.

(** A backslash and a character. *)
Definition esc (c : ascii) : string := String backslash (String c EmptyString).

(** [ESCAPE_ASCII]: the two-character escapes, the character itself for
    a printable ASCII one, and a [\u00xx] escape for any other. *)
Definition escape_char (c : ascii) : string :=
  let n := N_of_ascii c in
  if (n =? 34)%N then esc dquote
  else if (n =? 92)%N then esc backslash
  else if (n =? 10)%N then esc "n"
  else if (n =? 13)%N then esc "r"
  else if (n =? 9)%N then esc "t"
  else if (n =? 12)%N then esc "f"
  else if (n =? 8)%N then esc "b"
  else if ((32 <=? n) && (n <=? 126))%N then String c EmptyString
  else String backslash (String "u" (String "0" (String "0"
         (String (hex_char (n / 16)) (String (hex_char (n mod 16)) EmptyString))))).

Fixpoint escape (s : string) : string :=
  match s with
  | EmptyString => EmptyString
  | String c s' => escape_char c ++ escape s'
  end.

(** [encode_basestring_ascii] *)
Definition quote (s : string) : string :=
  String dquote (escape s ++ String dquote EmptyString).

Fixpoint join (sep : string) (l : list string) : string :=
  match l with
  | [] => EmptyString
  | [x] => x
  | x :: l' => x ++ sep ++ join sep l'
  end.

(** [json.dumps(v)], with the default separators. *)
Fixpoint dumps (v : value) : string :=
  match v with
  | Null => "null"
  | Bool true => "true"
  | Bool false => "false"
  | Int z => str_of_int z
  | Str s => quote s
  | Arr l => "[" ++ join ", " (List.map dumps l) ++ "]"
  | Obj l => "{" ++ join ", " (List.map (fun kv => quote (fst kv) ++ ": " ++ dumps (snd kv)) l) ++ "}"
  end.

(** *** Decoding *)

Definition is_ws (c : ascii) : bool :=
  let n := N_of_ascii c in
  ((n =? 32) || (n =? 9) || (n =? 10) || (n =? 13))%N.

Fixpoint skip_ws (s : string) : string :=
  match s with
  | String c s' => if is_ws c then skip_ws s' else s
  | EmptyString => EmptyString
  end.

Definition hex_val (c : ascii) : option N :=
  let n := N_of_ascii c in
  if ((48 <=? n) && (n <=? 57))%N then Some (n - 48)%N
  else if ((97 <=? n) && (n <=? 102))%N then Some (n - 87)%N
  else if ((65 <=? n) && (n <=? 70))%N then Some (n - 55)%N
  else None.

(** The code point of [\uXXXX]. *)
Definition hex4 (a b c d : ascii) : option N :=
  match hex_val a, hex_val b, hex_val c, hex_val d with
  | Some a, Some b, Some c, Some d => Some (((a * 16 + b) * 16 + c) * 16 + d)%N
  | _, _, _, _ => None
  end.

(** The [BACKSLASH] table. *)
Definition unescape (e : ascii) : option ascii :=
  let n := N_of_ascii e in
  if (n =? 34)%N then Some dquote
  else if (n =? 92)%N then Some backslash
  else if (n =? 47)%N then Some "/"%char
  else if (n =? 98)%N then Some (ascii_of_N 8)
  else if (n =? 102)%N then Some (ascii_of_N 12)
  else if (n =? 110)%N then Some (ascii_of_N 10)
  else if (n =? 114)%N then Some (ascii_of_N 13)
  else if (n =? 116)%N then Some (ascii_of_N 9)
  else None.

Definition prepend (c : ascii) (r : option (string * string)) : option (string * string) :=
  match r with
  | Some (x, rest) => Some (String c x, rest)
  | None => None
  end.

(** [scanstring], strict: the text after an opening quote, up to the
    closing one; the result is the string and the text that follows. *)
Fixpoint scanstring (s : string) : option (string * string) :=
  match s with
  | EmptyString => None
  | String c s' =>
      if Ascii.eqb c dquote then Some (EmptyString, s')
      else if Ascii.eqb c backslash then
        match s' with
        | String e s'' =>
            if Ascii.eqb e "u" then
              match s'' with
              | String h1 (String h2 (String h3 (String h4 s3))) =>
                  match hex4 h1 h2 h3 h4 with
                  | Some n => if (n <? 256)%N then prepend (ascii_of_N n) (scanstring s3) else None
                  | None => None
                  end
              | _ => None
              end
            else
              match unescape e with
              | Some ch => prepend ch (scanstring s'')
              | None => None
              end
        | EmptyString => None
        end
      else if (N_of_ascii c <? 32)%N then None
      else prepend c (scanstring s')
  end.

Definition digit_of (c : ascii) : option (Decimal.uint -> Decimal.uint) :=
  let n := N_of_ascii c in
  if (n =? 48)%N then Some Decimal.D0
  else if (n =? 49)%N then Some Decimal.D1
  else if (n =? 50)%N then Some Decimal.D2
  else if (n =? 51)%N then Some Decimal.D3
  else if (n =? 52)%N then Some Decimal.D4
  else if (n =? 53)%N then Some Decimal.D5
  else if (n =? 54)%N then Some Decimal.D6
  else if (n =? 55)%N then Some Decimal.D7
  else if (n =? 56)%N then Some Decimal.D8
  else if (n =? 57)%N then Some Decimal.D9
  else None.

(** The longest prefix of digits. *)
Fixpoint scan_digits (s : string) : Decimal.uint * string :=
  match s with
  | String c s' =>
      match digit_of c with
      | Some d => let '(u, rest) := scan_digits s' in (d u, rest)
      | None => (Decimal.Nil, s)
      end
  | EmptyString => (Decimal.Nil, EmptyString)
  end.

(** The text goes on with a fraction or an exponent. *)
Definition starts_float (s : string) : bool :=
  match s with
  | String c _ => Ascii.eqb c "." || Ascii.eqb c "e" || Ascii.eqb c "E"
  | EmptyString => false
  end.

(** [NUMBER_RE]: an optional sign, then a zero or a digit other than
    zero and all the digits after it. *)
Definition scan_number (s : string) : option (value * string) :=
  let '(neg, s1) :=
    match s with
    | String c s' => if Ascii.eqb c "-" then (true, s') else (false, s)
    | EmptyString => (false, s)
    end in
  match s1 with
  | String c s2 =>
      match digit_of c with
      | Some _ =>
          let '(u, rest) := if Ascii.eqb c "0" then (Decimal.D0 Decimal.Nil, s2) else scan_digits s1 in
          if starts_float rest then None
          else
            let n := Z.of_N (N.of_uint u) in
            Some (Int (if neg then (- n)%Z else n), rest)
      | None => None
      end
  | EmptyString => None
  end.

Fixpoint strip_prefix (p s : string) : option string :=
  match p, s with
  | EmptyString, _ => Some s
  | String a p', String b s' => if Ascii.eqb a b then strip_prefix p' s' else None
  | String _ _, EmptyString => None
  end.

(** [scan_once] on a text with no white space in front, [JSONObject]
    after the opening quote of a key, and [JSONArray] at an element. *)
Fixpoint parse_value (fuel : nat) (s : string) : option (value * string) :=
  match fuel with
  | O => None
  | S fuel =>
      match s with
      | EmptyString => None
      | String c s' =>
          if Ascii.eqb c dquote then
            match scanstring s' with
            | Some (x, rest) => Some (Str x, rest)
            | None => None
            end
          else if Ascii.eqb c "{" then
            match skip_ws s' with
            | String d r =>
                if Ascii.eqb d "}" then Some (Obj [], r)
                else if Ascii.eqb d dquote then
                  match parse_members fuel r with
                  | Some (l, rest) => Some (Obj l, rest)
                  | None => None
                  end
                else None
            | EmptyString => None
            end
          else if Ascii.eqb c "[" then
            match skip_ws s' with
            | String d r =>
                if Ascii.eqb d "]" then Some (Arr [], r)
                else
                  match parse_elements fuel (String d r) with
                  | Some (l, rest) => Some (Arr l, rest)
                  | None => None
                  end
            | EmptyString => None
            end
          else
            match strip_prefix "null" s, strip_prefix "true" s, strip_prefix "false" s with
            | Some rest, _, _ => Some (Null, rest)
            | _, Some rest, _ => Some (Bool true, rest)
            | _, _, Some rest => Some (Bool false, rest)
            | None, None, None => scan_number s
            end
      end
  end
with parse_members (fuel : nat) (s : string) : option (list (string * value) * string) :=
  match fuel with
  | O => None
  | S fuel =>
      match scanstring s with
      | Some (key, r1) =>
          match skip_ws r1 with
          | String c r2 =>
              if Ascii.eqb c ":" then
                match parse_value fuel (skip_ws r2) with
                | Some (v, r3) =>
                    match skip_ws r3 with
                    | String d r4 =>
                        if Ascii.eqb d "}" then Some ([(key, v)], r4)
                        else if Ascii.eqb d "," then
                          match skip_ws r4 with
                          | String q r5 =>
                              if Ascii.eqb q dquote then
                                match parse_members fuel r5 with
                                | Some (l, rest) => Some ((key, v) :: l, rest)
                                | None => None
                                end
                              else None
                          | EmptyString => None
                          end
                        else None
                    | EmptyString => None
                    end
                | None => None
                end
              else None
          | EmptyString => None
          end
      | None => None
      end
  end
with parse_elements (fuel : nat) (s : string) : option (list value * string) :=
  match fuel with
  | O => None
  | S fuel =>
      match parse_value fuel s with
      | Some (v, r1) =>
          match skip_ws r1 with
          | String d r2 =>
              if Ascii.eqb d "]" then Some ([v], r2)
              else if Ascii.eqb d "," then
                match parse_elements fuel (skip_ws r2) with
                | Some (l, rest) => Some (v :: l, rest)
                | None => None
                end
              else None
          | EmptyString => None
          end
      | None => None
      end
  end.

(** [json.loads(s)]: one value, with white space around it and nothing
    else. *)
Definition loads (s : string) : option value :=
  match parse_value (S (String.length s)) (skip_ws s) with
  | Some (v, rest) =>
      match skip_ws rest with
      | EmptyString => Some v
      | String _ _ => None
      end
  | None => None
  end.

(** [d.get(k)] on the dictionary of an object: of two members with the
    same key the later one counts. *)
Fixpoint get (k : string) (l : list (string * value)) : option value :=
  match l with
  | [] => None
  | (k', v) :: l' =>
      match get k l' with
      | Some w => Some w
      | None => if String.eqb k k' then Some v else None
      end
  end.

End json.

(** ** [str.encode] and [bytes.decode]

    UTF-8, on the characters of the model: one byte below U+0080, two
    from there to U+00FF. A byte sequence that is not UTF-8, or that
    holds a character beyond U+00FF, does not decode. *)
Definition byte_of_N (n : N) : byte :=
  match Byte.of_N n with Some b => b | None => x00 end.

Fixpoint str_encode (s : string) : bytes :=
  match s with
  | EmptyString => []
  | String c s' =>
      let n := N_of_ascii c in
      if (n <? 128)%N then byte_of_N n :: str_encode s'
      else byte_of_N (192 + n / 64) :: byte_of_N (128 + n mod 64) :: str_encode s'
  end.

Fixpoint bytes_decode (b : bytes) : option string :=
  match b with
  | [] => Some EmptyString
  | x :: b' =>
      let n := Byte.to_N x in
      if (n <? 128)%N then
        match bytes_decode b' with
        | Some s => Some (String (ascii_of_N n) s)
        | None => None
        end
      else if ((n =? 194) || (n =? 195))%N then
        match b' with
        | y :: b'' =>
            let m := Byte.to_N y in
            if ((128 <=? m) && (m <? 192))%N then
              match bytes_decode b'' with
              | Some s => Some (String (ascii_of_N ((n - 192) * 64 + (m - 128))) s)
              | None => None
              end
            else None
        | [] => None
        end
      else None
  end.

(** ** [datetime.isoformat] and pydantic's [parse_datetime] *)
Module iso.

Local Open Scope string_scope.
Local Open Scope N_scope.

Definition pad2 (n : N) : string :=
  String (json.digit_char (n / 10)) (String (json.digit_char (n mod 10)) EmptyString).

Definition pad4 (n : N) : string := pad2 (n / 100) ++ pad2 (n mod 100).

Definition pad6 (n : N) : string :=
  pad2 (n / 10000) ++ pad2 ((n / 100) mod 100) ++ pad2 (n mod 100).

(** [_format_offset]: [utcoffset] as [+HH:MM], with [:SS] when the
    offset is not a whole number of minutes and [.ffffff] when it is not a
    whole number of seconds. *)
Definition format_offset (off : Z) : string :=
  let a := Z.to_N (Z.abs off) in
  let hh := a / 3600000000 in
  let mm := (a mod 3600000000) / 60000000 in
  let ss := a mod 60000000 in
  (if (off <? 0)%Z then "-" else "+") ++ pad2 hh ++ ":" ++ pad2 mm
  ++ (if ss =? 0 then EmptyString
      else ":" ++ pad2 (ss / 1000000)
           ++ (if ss mod 1000000 =? 0 then EmptyString else "." ++ pad6 (ss mod 1000000))).

(** [d.isoformat()], on the ranges of the fields of a [datetime]. *)
Definition isoformat (d : datetime) : string :=
  pad4 (year d) ++ "-" ++ pad2 (month d) ++ "-" ++ pad2 (day d) ++ "T"
  ++ pad2 (hour d) ++ ":" ++ pad2 (minute d) ++ ":" ++ pad2 (second d)
  ++ (if microsecond d =? 0 then EmptyString else "." ++ pad6 (microsecond d))
  ++ match tzinfo d with
     | None => EmptyString
     | Some off => format_offset off
     end.

Definition dec_val (c : ascii) : option N :=
  let n := N_of_ascii c in
  if (48 <=? n) && (n <=? 57) then Some (n - 48) else None.

(** At most [k] digits, as many as there are. *)
Fixpoint take_digits (k : nat) (s : string) : list N * string :=
  match k with
  | O => ([], s)
  | S k' =>
      match s with
      | String c s' =>
          match dec_val c with
          | Some d => let '(ds, r) := take_digits k' s' in (d :: ds, r)
          | None => ([], s)
          end
      | EmptyString => ([], s)
      end
  end.

Definition number_of (ds : list N) : N :=
  fold_left (fun a d => a * 10 + d) ds 0.

(** [\d{lo,hi}] *)
Definition digits (lo hi : nat) (s : string) : option (list N * string) :=
  let '(ds, r) := take_digits hi s in
  if (lo <=? List.length ds)%nat then Some (ds, r) else None.

Definition expect (c : ascii) (s : string) : option string :=
  match s with
  | String x s' => if Ascii.eqb x c then Some s' else None
  | EmptyString => None
  end.

(** The seconds and the microseconds, when the text has them:
    [(?::(\d{1,2})(?:\.(\d{1,6})\d{0,6})?)?] *)
Definition parse_seconds (s : string) : option (N * N * string) :=
  match expect ":" s with
  | Some s1 =>
      match digits 1 2 s1 with
      | Some (se, s2) =>
          match expect "." s2 with
          | Some s3 =>
              match digits 1 6 s3 with
              | Some (us, s4) =>
                  let '(_, s5) := take_digits 6 s4 in
                  Some (number_of se, number_of us * 10 ^ N.of_nat (6 - List.length us), s5)
              | None => None
              end
          | None => Some (number_of se, 0, s2)
          end
      | None => None
      end
  | None => Some (0, 0, s)
  end.

(** The time zone, when the text has one: [(Z|[+-]\d{2}(?::?\d{2})?)?];
    [_parse_timezone] makes the offset from the hours and the minutes. *)
Definition parse_tz (s : string) : option (option Z * string) :=
  match s with
  | String c s1 =>
      if Ascii.eqb c "Z" then Some (Some 0%Z, s1)
      else if Ascii.eqb c "+" || Ascii.eqb c "-" then
        match digits 2 2 s1 with
        | Some (hh, s2) =>
            let s3 := match expect ":" s2 with Some r => r | None => s2 end in
            let '(mm, s4) :=
              match digits 2 2 s3 with
              | Some (mm, r) => (number_of mm, r)
              | None => (0, s2)
              end in
            let off := Z.of_N (60 * number_of hh + mm) in
            Some (Some (minutes (if Ascii.eqb c "-" then (- off)%Z else off)), s4)
        | None => None
        end
      else Some (None, s)
  | EmptyString => Some (None, s)
  end.

(** [$]: the end of the text, or a line feed and the end. *)
Definition at_end (s : string) : bool :=
  match s with
  | EmptyString => true
  | String c EmptyString => (N_of_ascii c =? 10)
  | _ => false
  end.

(** The checks of the constructors of [timezone] and [datetime]. *)
Definition valid_datetime (d : datetime) : bool :=
  (1 <=? year d) && (year d <=? 9999)
  && (1 <=? month d) && (month d <=? 12)
  && (1 <=? day d) && (day d <=? days_in_month (year d) (month d))
  && (hour d <=? 23) && (minute d <=? 59) && (second d <=? 59)
  && (microsecond d <=? 999999)
  && match tzinfo d with
     | None => true
     | Some off => (- 86400000000 <? off)%Z && (off <? 86400000000)%Z
     end.

(** [parse_datetime(s)] for a string: [datetime_re], then the
    constructors. *)
Definition parse_datetime (s : string) : option datetime :=
  match digits 4 4 s with
  | Some (y, s) =>
  match expect "-" s with
  | Some s =>
  match digits 1 2 s with
  | Some (mo, s) =>
  match expect "-" s with
  | Some s =>
  match digits 1 2 s with
  | Some (dd, s) =>
  match (match expect "T" s with Some r => Some r | None => expect " " s end) with
  | Some s =>
  match digits 1 2 s with
  | Some (hh, s) =>
  match expect ":" s with
  | Some s =>
  match digits 1 2 s with
  | Some (mi, s) =>
  match parse_seconds s with
  | Some (se, us, s) =>
  match parse_tz s with
  | Some (tz, s) =>
      let d := mk_datetime (number_of y) (number_of mo) (number_of dd)
                 (number_of hh) (number_of mi) se us tz in
      if at_end s && valid_datetime d then Some d else None
  | None => None end
  | None => None end
  | None => None end
  | None => None end
  | None => None end
  | None => None end
  | None => None end
  | None => None end
  | None => None end
  | None => None end
  | None => None end.

End iso.

(** ** [pydantic]

    [BaseModel.parse_raw] decodes the line, reads it as JSON and validates
    the fields against the model; a failure at any of the three steps is a
    [ValidationError]. The model covers the strict reading of a field: an
    integer for an [int], a string for a [str] and for a [datetime];
    pydantic's conversions between them are outside it and reported as a
    [ValidationError]. A field that the model does not declare is
    ignored. So the answer [Valid] of a parser below is pydantic's answer
    on the line; the functions of the engine that call the parsers take
    them as parameters, and what is proved of a failure to decode is
    proved for every parser. *)
Module pydantic.

(** The outcome of [Model.parse_raw]: the model object, a
    [ValidationError], or another exception. *)
Inductive validated (A : Type) : Type :=
  | Valid (a : A)
  | ValidationError
  | OtherError (e : exn).
Arguments Valid {A} a.
Arguments ValidationError {A}.
Arguments OtherError {A} e.

Abbreviation dict := (list (string * json.value)).

(** A field [k: int = default]. *)
Definition int_field (o : dict) (k : string) (default : Z) : option Z :=
  match json.get k o with
  | Some (json.Int z) => Some z
  | Some _ => None
  | None => Some default
  end.

(** A field [k: str]. *)
Definition str_field (o : dict) (k : string) : option string :=
  match json.get k o with
  | Some (json.Str s) => Some s
  | _ => None
  end.

(** A field [k: str | None = None]. *)
Definition optional_str_field (o : dict) (k : string) : option (option string) :=
  match json.get k o with
  | Some (json.Str s) => Some (Some s)
  | Some json.Null | None => Some None
  | Some _ => None
  end.

(** A field [k: datetime]. *)
Definition datetime_field (o : dict) (k : string) : option datetime :=
  match json.get k o with
  | Some (json.Str s) => iso.parse_datetime s
  | _ => None
  end.

(** A field [k: datetime | None = None]. *)
Definition optional_datetime_field (o : dict) (k : string) : option (option datetime) :=
  match json.get k o with
  | Some (json.Str s) =>
      match iso.parse_datetime s with
      | Some d => Some (Some d)
      | None => None
      end
  | Some json.Null | None => Some None
  | Some _ => None
  end.

Definition parse_str {A} (validate : dict -> option A) (s : string) : validated A :=
  match json.loads s with
  | Some (json.Obj o) =>
      match validate o with
      | Some a => Valid a
      | None => ValidationError
      end
  | _ => ValidationError
  end.

(** [Model.parse_raw(b)] for [bytes]. *)
Definition parse_raw {A} (validate : dict -> option A) (b : bytes) : validated A :=
  match bytes_decode b with
  | Some s => parse_str validate s
  | None => ValidationError
  end.

(** The value of a [datetime | None] field in [Model.json()]. *)
Definition optional_datetime_value (d : option datetime) : json.value :=
  match d with
  | Some d => json.Str (iso.isoformat d)
  | None => json.Null
  end.

Definition optional_str_value (s : option string) : json.value :=
  match s with
  | Some s => json.Str s
  | None => json.Null
  end.

End pydantic.

(** ** Lines of a binary file *)

Definition LF : byte := x0a.

(** [fo.readline()]: the bytes up to the first line feed and with it, or
    all of them; and the bytes that follow. *)
Fixpoint readline (b : bytes) : bytes * bytes :=
  match b with
  | [] => ([], [])
  | x :: b' =>
      if Byte.eqb x LF then ([x], b')
      else let '(l, r) := readline b' in (x :: l, r)
  end.

(** [async for line in fo]: the lines, each with its line feed. *)
Fixpoint readlines (b : bytes) : list bytes :=
  match b with
  | [] => []
  | x :: b' =>
      if Byte.eqb x LF then [x] :: readlines b'
      else match readlines b' with
           | [] => [[x]]
           | l :: ls => (x :: l) :: ls
           end
  end.

(** [repr(b)] for [bytes]. *)
Definition repr_quote (b : bytes) : byte :=
  if existsb (Byte.eqb "'"%byte) b && negb (existsb (Byte.eqb x22) b) then x22 else "'"%byte.

Definition repr_byte (q : byte) (c : byte) : string :=
  let n := Byte.to_N c in
  if Byte.eqb c q || Byte.eqb c x5c then String json.backslash (String (ascii_of_byte c) EmptyString)
  else if (n =? 9)%N then json.esc "t"
  else if (n =? 10)%N then json.esc "n"
  else if (n =? 13)%N then json.esc "r"
  else if ((n <? 32) || (127 <=? n))%N then
    String json.backslash (String "x" (String (json.hex_char (n / 16))
      (String (json.hex_char (n mod 16)) EmptyString)))
  else String (ascii_of_byte c) EmptyString.

Definition repr_bytes (b : bytes) : string :=
  let q := repr_quote b in
  String "b" (String (ascii_of_byte q)
    (String.concat EmptyString (List.map (repr_byte q) b)
     ++ String (ascii_of_byte q) EmptyString)).

(** ** [secrets] and [base64] *)

(** [secrets.token_bytes(n)]: the next [n] bytes of the random source. *)
Definition token_bytes (rng : nat -> byte) (n : nat) : bytes :=
  List.map rng (seq 0 n).

Definition urlsafe_alphabet : bytes :=
  list_byte_of_string "ABCDEFGHIJKLMNOPQRSTUVWXYZabcdefghijklmnopqrstuvwxyz0123456789-_".

Definition b64_char (i : N) : byte :=
  nth (N.to_nat i) urlsafe_alphabet "A"%byte.

Definition pad_char : byte := "="%byte.

(** [base64.urlsafe_b64encode]: three bytes make four characters; a last
    group of one or two bytes is padded with ["="]. *)
Fixpoint urlsafe_b64encode (s : bytes) : bytes :=
  match s with
  | [] => []
  | [a] =>
      let a := Byte.to_N a in
      [b64_char (N.shiftr a 2); b64_char (N.shiftl (N.land a 3) 4); pad_char; pad_char]
  | [a; b] =>
      let a := Byte.to_N a in
      let b := Byte.to_N b in
      [b64_char (N.shiftr a 2);
       b64_char (N.lor (N.shiftl (N.land a 3) 4) (N.shiftr b 4));
       b64_char (N.shiftl (N.land b 15) 2); pad_char]
  | a :: b :: c :: rest =>
      let a := Byte.to_N a in
      let b := Byte.to_N b in
      let c := Byte.to_N c in
      b64_char (N.shiftr a 2)
      :: b64_char (N.lor (N.shiftl (N.land a 3) 4) (N.shiftr b 4))
      :: b64_char (N.lor (N.shiftl (N.land b 15) 2) (N.shiftr c 6))
      :: b64_char (N.land c 63)
      :: urlsafe_b64encode rest
  end.

Fixpoint lstrip_byte (c : byte) (s : bytes) : bytes :=
  match s with
  | x :: s' => if Byte.eqb x c then lstrip_byte c s' else s
  | [] => []
  end.

(** [s.rstrip(c)] *)
Definition rstrip_byte (c : byte) (s : bytes) : bytes :=
  rev (lstrip_byte c (rev s)).

(** [secrets.token_urlsafe(n)]; the bytes of the encoding are ASCII, and
    [decode('ascii')] reads each as the character of the same code. *)
Definition token_urlsafe (rng : nat -> byte) (n : nat) : str :=
  string_of_list_byte (rstrip_byte pad_char (urlsafe_b64encode (token_bytes rng n))).

(** The characters of a URL-safe token. *)
Definition is_urlsafe_char (c : ascii) : bool :=
  let n := nat_of_ascii c in
  ((65 <=? n) && (n <=? 90) || (97 <=? n) && (n <=? 122)
   || (48 <=? n) && (n <=? 57) || (n =? 45) || (n =? 95))%nat.

Fixpoint forallb_string (f : ascii -> bool) (s : string) : bool :=
  match s with
  | EmptyString => true
  | String c s' => f c && forallb_string f s'
  end.

(** ** [paste_bin/helpers.py] *)
Module helpers.

Import pydantic.
Local Open Scope string_scope.

(** [PasteMetaVersion]: the one field [version: int], with the current
    version for default. [PasteMetaVersion.parse_raw(b).version]: *)
Definition PasteMetaVersion_validate (o : dict) : option Z :=
  int_field o "version" CURRENT_PASTE_META_VERSION.

Definition PasteMetaVersion_parse_raw (b : bytes) : validated Z :=
  parse_raw PasteMetaVersion_validate b.

Record PasteMeta : Type := mk_PasteMeta {
  version : Z;
  paste_id : str;
  creation_dt : datetime;
  expire_dt : option datetime
}.

Definition PasteMeta_validate (o : dict) : option PasteMeta :=
  match int_field o "version" CURRENT_PASTE_META_VERSION,
        str_field o "paste_id",
        datetime_field o "creation_dt",
        optional_datetime_field o "expire_dt" with
  | Some v, Some i, Some c, Some e => Some (mk_PasteMeta v i c e)
  | _, _, _, _ => None
  end.

Definition PasteMeta_parse_raw (b : bytes) : validated PasteMeta :=
  parse_raw PasteMeta_validate b.

(** [paste_meta.json()] *)
Definition PasteMeta_json (m : PasteMeta) : str :=
  json.dumps (json.Obj [
    ("version", json.Int (version m));
    ("paste_id", json.Str (paste_id m));
    ("creation_dt", json.Str (iso.isoformat (creation_dt m)));
    ("expire_dt", optional_datetime_value (expire_dt m))]).

(** [PasteMeta.is_expired], at the time [now]. *)
Definition is_expired (self : PasteMeta) (now : clock) : result bool :=
  match expire_dt self with
  | Some e =>
      let! lt := datetime_lt e (utcnow now) in
      if lt then Return true else Return false
  | None => Return false
  end.

(** [get_paste_meta], over the two parsers of pydantic that it calls. *)
Section decode.
Variable parse_version : bytes -> validated Z.
Variable parse_meta : bytes -> validated PasteMeta.

Definition get_paste_meta_with (meta_line : bytes) : result PasteMeta :=
  match parse_version meta_line with
  | Valid version =>
      if negb (version =? CURRENT_PASTE_META_VERSION)%Z then
        Raise (PasteMetaVersionInvalid
                 ("paste is not a valid version number of '" ++ json.str_of_int version ++ "'"))
      else
        match parse_meta meta_line with
        | Valid m => Return m
        | ValidationError => Raise (PasteMetaUnprocessable "paste meta cannot be loaded")
        | OtherError e => Raise e
        end
  | ValidationError => Raise (PasteMetaUnprocessable "paste meta cannot be loaded")
  | OtherError e => Raise e
  end.
End decode.

Definition get_paste_meta (meta_line : bytes) : result PasteMeta :=
  get_paste_meta_with PasteMetaVersion_parse_raw PasteMeta_parse_raw meta_line.

Definition create_paste_id (long : bool) (rng : nat -> byte) : str :=
  if long then token_urlsafe rng 30 else token_urlsafe rng 7.

Definition create_paste_path (root_path : Path) (paste_id : str) (mkdir : bool)
    (fs : FS) : result Path * FS :=
  if (String.length paste_id <? 3)%nat then
    (Raise (PasteIdException "paste_id too short, must be at least 3 characters long"), fs)
  else
    let full_path := root_path // slice_to 2 paste_id in
    if mkdir then
      match mkdir_parents full_path fs with
      | (Return _, fs) => (Return (full_path // slice_from 2 paste_id), fs)
      | (Raise e, fs) => (Raise e, fs)
      end
    else (Return (full_path // slice_from 2 paste_id), fs).

(** The content given to [write_paste]: a buffer, or the chunks that an
    [AsyncGenerator] yields. *)
Inductive content : Type :=
  | Buffer (b : bytes)
  | Generator (chunks : list bytes).

Definition content_bytes (c : content) : bytes :=
  match c with
  | Buffer b => b
  | Generator chunks => List.concat chunks
  end.

(** [aio_open(p, "wb")]: the file is made, or emptied, in a directory
    that is there. *)
Definition open_wb (p : Path) (fs : FS) : result unit :=
  match files fs !! p with
  | Some _ => Return tt
  | None =>
      match resolve p fs with
      | Some e => Raise e
      | None => if isdir p fs then Raise (IsADirectoryError "Is a directory") else Return tt
      end
  end.

Definition write_paste (paste_path : Path) (paste_meta : PasteMeta) (c : content)
    (fs : FS) : result unit * FS :=
  match open_wb paste_path fs with
  | Return _ =>
      let header := (str_encode (PasteMeta_json paste_meta) ++ [LF])%list in
      let written :=
        match c with
        | Generator chunks => fold_left (fun fo chunk => fo ++ chunk)%list chunks header
        | Buffer b => (header ++ b)%list
        end in
      (Return tt, mk_FS (<[paste_path := written]> (files fs)) (dirs fs))
  | Raise e => (Raise e, fs)
  end.

(** [aio_open(p, "rb")] *)
Definition open_rb (p : Path) (fs : FS) : result bytes :=
  match files fs !! p with
  | Some b => Return b
  | None => Raise (no_file p fs)
  end.

(** The chunks that [read_paste_content] yields. *)
Definition read_paste_content (paste_path : Path) (fs : FS) : result (list bytes) :=
  let! fo := open_rb paste_path fs in
  let '(_, rest) := readline fo in
  Return (readlines rest).

(** [read_paste_meta] and [try_get_paste], over the two parsers of
    pydantic that [get_paste_meta] calls. *)
Section access.
Variable parse_version : bytes -> validated Z.
Variable parse_meta : bytes -> validated PasteMeta.

Definition read_paste_meta_with (paste_path : Path) (fs : FS) : result PasteMeta :=
  let! fo := open_rb paste_path fs in
  get_paste_meta_with parse_version parse_meta (fst (readline fo)).

(** [try_get_paste]. The function waits on the file system three
    times; [meanwhile] is what others do to the file system between
    the reading of the metadata and the removal. *)
Definition try_get_paste_with (root_path : Path) (paste_id : str) (auto_remove : bool)
    (now : clock) (meanwhile : FS -> FS) (fs : FS) : result (Path * PasteMeta) * FS :=
  match create_paste_path root_path paste_id false fs with
  | (Raise e, fs) => (Raise e, fs)
  | (Return paste_path, fs) =>
      if negb (isfile paste_path fs) then
        (Raise (PasteDoesNotExistException ("paste not found with id of " ++ paste_id)), fs)
      else
        match read_paste_meta_with paste_path fs with
        | Raise e => (Raise e, fs)
        | Return paste_meta =>
            match is_expired paste_meta now with
            | Raise e => (Raise e, fs)
            | Return true =>
                if auto_remove then
                  match remove paste_path (meanwhile fs) with
                  | (Return _, fs) | (Raise (FileNotFoundError _), fs) =>
                      (Raise (PasteExpiredException ("paste has expired with id of " ++ paste_id)), fs)
                  | (Raise e, fs) => (Raise e, fs)
                  end
                else
                  (Raise (PasteExpiredException ("paste has expired with id of " ++ paste_id)), fs)
            | Return false => (Return (paste_path, paste_meta), fs)
            end
        end
  end.

End access.

Definition read_paste_meta (paste_path : Path) (fs : FS) : result PasteMeta :=
  read_paste_meta_with PasteMetaVersion_parse_raw PasteMeta_parse_raw paste_path fs.

Definition try_get_paste (root_path : Path) (paste_id : str) (auto_remove : bool)
    (now : clock) (meanwhile : FS -> FS) (fs : FS) : result (Path * PasteMeta) * FS :=
  try_get_paste_with PasteMetaVersion_parse_raw PasteMeta_parse_raw
    root_path paste_id auto_remove now meanwhile fs.

End helpers.

(** ** [paste_bin/core/models.py] *)
Module models.

Import pydantic.
Local Open Scope string_scope.

Definition PasteMetaVersion_validate (o : dict) : option Z :=
  int_field o "version" CURRENT_PASTE_META_VERSION.

Record PasteMeta : Type := mk_PasteMeta {
  version : Z;
  paste_id : str;
  creation_dt : datetime;
  expire_dt : option datetime;
  lexer_name : option str;
  title : option str
}.

Definition PasteMeta_validate (o : dict) : option PasteMeta :=
  match int_field o "version" CURRENT_PASTE_META_VERSION,
        str_field o "paste_id",
        datetime_field o "creation_dt",
        optional_datetime_field o "expire_dt",
        optional_str_field o "lexer_name",
        optional_str_field o "title" with
  | Some v, Some i, Some c, Some e, Some l, Some t => Some (mk_PasteMeta v i c e l t)
  | _, _, _, _, _, _ => None
  end.

(** [PasteMeta.is_expired], at the time [now]. *)
Definition is_expired (self : PasteMeta) (now : clock) : result bool :=
  match expire_dt self with
  | Some e =>
      let! lt := datetime_lt (replace_tzinfo_None e) (utcnow now) in
      if lt then Return true else Return false
  | None => Return false
  end.

(** The argument of [extract_from_line]: [str | bytes]. *)
Inductive line : Type :=
  | LineStr (s : str)
  | LineBytes (b : bytes).

(** [Model.parse_raw(line)] *)
Definition parse_line {A} (validate : dict -> option A) (l : line) : validated A :=
  match l with
  | LineStr s => parse_str validate s
  | LineBytes b => parse_raw validate b
  end.

(** [f"{line}"] *)
Definition format_line (l : line) : str :=
  match l with
  | LineStr s => s
  | LineBytes b => repr_bytes b
  end.

(** [PasteMeta.extract_from_line], over the two parsers of pydantic
    that it calls. *)
Section decode.
Variable parse_version : line -> validated Z.
Variable parse_meta : line -> validated PasteMeta.

Definition extract_from_line_with (l : line) : result PasteMeta :=
  match parse_version l with
  | Valid version =>
      if negb (version =? CURRENT_PASTE_META_VERSION)%Z then
        Raise (PasteMetaVersionInvalid
                 ("paste is not a valid version number of '" ++ json.str_of_int version ++ "'"))
      else
        match parse_meta l with
        | Valid m => Return m
        | ValidationError =>
            Raise (PasteMetaUnprocessable
                     ("paste meta validation did not pass: '" ++ format_line l ++ "'"))
        | OtherError e => Raise e
        end
  | ValidationError =>
      Raise (PasteMetaUnprocessable
               ("paste meta validation did not pass: '" ++ format_line l ++ "'"))
  | OtherError e => Raise e
  end.
End decode.

Definition extract_from_line (l : line) : result PasteMeta :=
  extract_from_line_with (parse_line PasteMetaVersion_validate) (parse_line PasteMeta_validate) l.

(** [PasteMetaToCreate.into_meta] *)
Definition into_meta (expire_dt : option datetime) (lexer_name title : option str)
    (paste_id : str) (now : clock) : PasteMeta :=
  mk_PasteMeta CURRENT_PASTE_META_VERSION paste_id (utcnow now) expire_dt lexer_name title.

(** [PasteApiCreate.validate_title] *)
Definition validate_title (title : option str) : result (option str) :=
  match title with
  | Some t =>
      if (32 <? String.length t)%nat then Raise (ValueError "title must be < 32")
      else Return title
  | None => Return title
  end.

End models.

(** * Notions of the statements and of the proofs *)

(** The text after a number: not a digit, and not the start of a
    fraction or of an exponent. *)
Definition delimited (s : string) : Prop :=
  match s with
  | EmptyString => True
  | String c _ => json.digit_of c = None /\ json.starts_float s = false
  end.

(** A printable ASCII character: from the space to the tilde. *)
Definition printable (c : ascii) : bool :=
  ((32 <=? N_of_ascii c) && (N_of_ascii c <=? 126))%N.

(** The calls that the decoder nests to read a value back. *)
Fixpoint size (v : json.value) : nat :=
  match v with
  | json.Arr l => S (list_sum (List.map (fun x => S (size x)) l))
  | json.Obj l => S (list_sum (List.map (fun kv => S (size kv.2)) l))
  | _ => 1
  end.

(** The first character of a number. *)
Definition is_number_head (c : ascii) : bool :=
  match json.digit_of c with Some _ => true | None => Ascii.eqb c "-" end.

(** The first character of a value: not a white space, and none of the
    closing brackets. *)
Definition is_value_head (c : ascii) : bool :=
  negb (json.is_ws c) && negb (Ascii.eqb c "]") && negb (Ascii.eqb c "}").

(** A value is read back from its encoding, given fuel for its size and
    a text after it that does not go on with a number. *)
Definition reads_back (v : json.value) : Prop :=
  forall fuel rest,
    (size v <= fuel)%nat -> delimited rest ->
    json.parse_value fuel (json.dumps v ++ rest) = Some (v, rest).

(** The members of an object, as [dumps] writes them. *)
Definition dumps_member (kv : string * json.value) : string :=
  (json.quote kv.1 ++ ": " ++ json.dumps kv.2)%string.

(** The message of [PasteMetaVersionInvalid] for the version [v]. *)
Definition version_invalid_message (v : Z) : str :=
  ("paste is not a valid version number of '" ++ json.str_of_int v ++ "'")%string.

(** Second phase. The two ways to [PasteMetaUnprocessable]: the version
    does not parse, or it is the current one and the full record does not
    parse. *)
Definition fails_validation {L A} (parse_version : L -> pydantic.validated Z)
    (parse_meta : L -> pydantic.validated A) (l : L) : Prop :=
  parse_version l = pydantic.ValidationError
  \/ (parse_version l = pydantic.Valid CURRENT_PASTE_META_VERSION
      /\ parse_meta l = pydantic.ValidationError).

(** A white space after the line: none, or the line feed of the file. *)
Definition line_end (w : bytes) : Prop := w = [] \/ w = [LF].

(** A [datetime] that is naive, or whose offset from UTC is a whole
    number of minutes. *)
Definition minute_offset (d : datetime) : bool :=
  match tzinfo d with
  | Some off => (off mod 60000000 =? 0)%Z
  | None => true
  end.

(** A [datetime] that the constructors of [datetime] and [timezone]
    accept and whose offset, if any, is a whole number of minutes. *)
Definition minute_datetime (d : datetime) : bool :=
  iso.valid_datetime d && minute_offset d.

(** The [PasteMeta] values of the round trips: the current version, and
    dates that are naive or have an offset of whole minutes. *)
Definition valid_meta (m : helpers.PasteMeta) : Prop :=
  helpers.version m = CURRENT_PASTE_META_VERSION
  /\ minute_datetime (helpers.creation_dt m) = true
  /\ match helpers.expire_dt m with
     | Some e => minute_datetime e = true
     | None => True
     end.

(** The offset of whole minutes, as [isoformat] writes it: [+HH:MM]. *)
Definition format_minutes (k : Z) : string :=
  let a := Z.to_N (Z.abs k) in
  ((if (k <? 0)%Z then "-" else "+") ++ iso.pad2 (a / 60) ++ ":" ++ iso.pad2 (a mod 60))%string.

(** The dictionary of [PasteMeta.json()]. *)
Definition PasteMeta_dict (m : helpers.PasteMeta) : pydantic.dict :=
  [("version", json.Int (helpers.version m));
   ("paste_id", json.Str (helpers.paste_id m));
   ("creation_dt", json.Str (iso.isoformat (helpers.creation_dt m)));
   ("expire_dt", pydantic.optional_datetime_value (helpers.expire_dt m))].

Section iso_notions.
Local Open Scope string_scope.
Local Open Scope N_scope.

(** The text of a list of decimal digits. *)
Definition digit_chars (ds : list N) : string :=
  fold_right (fun d s => String (json.digit_char d) s) EmptyString ds.

(** No digit at the head of a text. *)
Definition no_digit (s : string) : Prop :=
  match s with
  | EmptyString => True
  | String c _ => iso.dec_val c = None
  end.

Definition digits2 (n : N) : list N := [n / 10; n mod 10].
Definition digits4 (n : N) : list N := digits2 (n / 100) ++ digits2 (n mod 100).
Definition digits6 (n : N) : list N :=
  digits2 (n / 10000) ++ digits2 ((n / 100) mod 100) ++ digits2 (n mod 100).

(** The text of a time zone starts with a sign, if it is not empty. *)
Definition sign_led (s : string) : Prop :=
  s = EmptyString \/ exists t, s = String "+" t \/ s = String "-" t.

(** The fraction of a second, as [isoformat] writes it. *)
Definition fraction (us : N) : string :=
  if us =? 0 then EmptyString else "." ++ iso.pad6 us.

End iso_notions.

(** ** Sample values *)

(** The first of January 2000, at midnight UTC, as an aware value. *)
Definition y2k_utc : datetime := mk_datetime 2000 1 1 0 0 0 0 (Some 0%Z).

(** A line that declares the version 99 and nothing else. *)
Definition line_version_99 : str := json.dumps (json.Obj [("version", json.Int 99)]).

(** Two lines that do not pass: one that is not JSON, and one with the
    version and no other field. *)
Definition line_not_json : str := "{version: 1".
Definition line_version_only : str := json.dumps (json.Obj [("version", json.Int 1)]).

(** The file system with one paste whose [expire_dt] is the aware
    2000-01-01T00:00:00+00:00. *)
Definition paste_expired_aware : helpers.PasteMeta :=
  helpers.mk_PasteMeta 1 "abcdef" (mk_datetime 1999 12 31 0 0 0 0 None) (Some y2k_utc).

Definition fs_expired_aware : FS :=
  (helpers.write_paste ["/"; "data"; "ab"; "cdef"] paste_expired_aware
     (helpers.Buffer (list_byte_of_string "hello"))
     (mk_FS ∅ {[ ["/"; "data"]; ["/"; "data"; "ab"] ]})).2.

(** A paste created on 2022-09-01 at 12:00:00.000123, to expire on
    2022-10-01 at midnight, five and a half hours east of UTC. *)
Definition paste_sample : helpers.PasteMeta :=
  helpers.mk_PasteMeta 1 "q7Zt_0-abc"
    (mk_datetime 2022 9 1 12 0 0 123 None)
    (Some (mk_datetime 2022 10 1 0 0 0 0 (Some (minutes 330)))).

(** A paste to expire at an instant given with the offset of 30 seconds
    from UTC, as [datetime.fromisoformat("2022-10-01T00:00:00+00:00:30")]
    gives it. *)
Definition paste_offset_30s : helpers.PasteMeta :=
  helpers.mk_PasteMeta 1 "q7Zt_0-abc"
    (mk_datetime 2022 9 1 12 0 0 123 None)
    (Some (mk_datetime 2022 10 1 0 0 0 0 (Some 30000000%Z))).

(** A paste with the version 99. *)
Definition paste_version_99 : helpers.PasteMeta :=
  helpers.mk_PasteMeta 99 "abcdef" (mk_datetime 2022 9 1 12 0 0 0 None) None.

(** * The rest of [paste_bin/helpers.py], and [PasteMeta.json()] of [core/models.py] *)

(** The outcome of a handler under [handle_paste_exceptions]: its value,
    the [HTTPException] that [abort(status)] raises, or an exception that
    the wrapper does not catch. *)
Inductive http_result (A : Type) : Type :=
  | Done (a : A)
  | Aborted (status : nat)
  | Uncaught (e : exn).
Arguments Done {A} a.
Arguments Aborted {A} status.
Arguments Uncaught {A} e.

(** [isinstance(e, PasteException)] and [isinstance(e, PasteMetaException)],
    for the classes of [helpers.py]. *)
Definition is_PasteException (e : exn) : bool :=
  match e with
  | PasteIdException _ | PasteDoesNotExistException _ | PasteExpiredException _ => true
  | _ => false
  end.

Definition is_PasteMetaException (e : exn) : bool :=
  match e with
  | PasteMetaUnprocessable _ | PasteMetaVersionInvalid _ => true
  | _ => false
  end.

(** The wrapper that [handle_paste_exceptions(func)] returns, on the
    outcome of the call of [func]. *)
Definition handle_paste_exceptions {A} (func : result A) : http_result A :=
  match func with
  | Return a => Done a
  | Raise e =>
      if is_PasteException e then Aborted 404
      else if is_PasteMetaException e then Aborted 500
      else Uncaught e
  end.

(** A [Response] whose body is an asynchronous generator: the generator
    runs when the response is sent, on the file system of that time. *)
Record Response : Type := mk_Response {
  body : FS -> result (list bytes);
  mimetype : str
}.

(** [make_response(gen)]: the default type of a response is [text/html]. *)
Definition make_response (gen : FS -> result (list bytes)) : Response :=
  mk_Response gen "text/html".

Definition try_get_paste_with_content_response (root_path : Path) (paste_id : str)
    (auto_remove : bool) (now : clock) (meanwhile : FS -> FS) (fs : FS)
    : result (Path * helpers.PasteMeta * Response) * FS :=
  match helpers.try_get_paste root_path paste_id auto_remove now meanwhile fs with
  | (Return (paste_path, paste_meta), fs) =>
      let response := make_response (helpers.read_paste_content paste_path) in
      let response := mk_Response (body response) "text/plain" in
      (Return (paste_path, paste_meta, response), fs)
  | (Raise e, fs) => (Raise e, fs)
  end.

(** [paste_meta.json()] for the [PasteMeta] of [core/models.py]. *)
Definition models_PasteMeta_dict (m : models.PasteMeta) : pydantic.dict :=
  [("version", json.Int (models.version m));
   ("paste_id", json.Str (models.paste_id m));
   ("creation_dt", json.Str (iso.isoformat (models.creation_dt m)));
   ("expire_dt", pydantic.optional_datetime_value (models.expire_dt m));
   ("lexer_name", pydantic.optional_str_value (models.lexer_name m));
   ("title", pydantic.optional_str_value (models.title m))].

Definition models_PasteMeta_json (m : models.PasteMeta) : str :=
  json.dumps (json.Obj (models_PasteMeta_dict m)).

(** The path of a paste under [root]. *)
Definition paste_path (root : Path) (paste_id : str) : Path :=
  root // slice_to 2 paste_id // slice_from 2 paste_id.

(** A clock reading that is not earlier than another. *)
Definition not_before (now' now : clock) : Prop :=
  cmp_tuple (fields (utcnow now)) (fields (utcnow now')) <> Gt.

(** The values of the [PasteMeta] of [core/models.py] that the engine
    writes. *)
Definition models_valid_meta (m : models.PasteMeta) : Prop :=
  models.version m = CURRENT_PASTE_META_VERSION
  /\ minute_datetime (models.creation_dt m) = true
  /\ match models.expire_dt m with
     | Some e => minute_datetime e = true
     | None => True
     end.

(** The record of [helpers.py] with the fields that the two records
    share, and the record of [core/models.py] with the two others
    absent. *)
Definition older (m : models.PasteMeta) : helpers.PasteMeta :=
  helpers.mk_PasteMeta (models.version m) (models.paste_id m) (models.creation_dt m)
    (models.expire_dt m).

Definition newer (h : helpers.PasteMeta) : models.PasteMeta :=
  models.mk_PasteMeta (helpers.version h) (helpers.paste_id h) (helpers.creation_dt h)
    (helpers.expire_dt h) None None.

(** A paste created on 2022-09-01, to expire on 2022-10-01 at midnight,
    both naive; a file system that holds it; and two clock readings, one
    before and one after the expiry. *)
Definition paste_live : helpers.PasteMeta :=
  helpers.mk_PasteMeta 1 "q7Zt_0-abc"
    (mk_datetime 2022 9 1 12 0 0 123 None)
    (Some (mk_datetime 2022 10 1 0 0 0 0 None)).

Definition fs_srv : FS := mk_FS ∅ {[ ["/"; "srv"]; ["/"; "srv"; "q7"] ]}.

Definition fs_live : FS :=
  (helpers.write_paste ["/"; "srv"; "q7"; "Zt_0-abc"] paste_live
     (helpers.Buffer (list_byte_of_string "hello")) fs_srv).2.

Definition clock_before : clock := mk_clock 2022 9 15 8 30 0 0.
Definition clock_after : clock := mk_clock 2022 10 2 8 30 0 0.

(** A chunk of [readlines]: not empty, with no line feed before its last
    byte. *)
Definition line_chunk (l : bytes) : Prop := l <> [] /\ ~ In LF (removelast l).

(** A paste of [core/models.py], with a title and a lexer name. *)
Definition paste_titled : models.PasteMeta :=
  models.mk_PasteMeta 1 "q7Zt_0-abc"
    (mk_datetime 2022 9 1 12 0 0 123 None)
    (Some (mk_datetime 2022 10 1 0 0 0 0 (Some (minutes 330))))
    (Some "python") (Some "notes").

(** The dictionary of a [PasteMeta] without its version. *)
Definition PasteMeta_dict_without_version (m : helpers.PasteMeta) : pydantic.dict :=
  [("paste_id", json.Str (helpers.paste_id m));
   ("creation_dt", json.Str (iso.isoformat (helpers.creation_dt m)));
   ("expire_dt", pydantic.optional_datetime_value (helpers.expire_dt m))].

(** The clock reading with the fields of a [datetime]. *)
Definition clock_of (d : datetime) : clock :=
  mk_clock (year d) (month d) (day d) (hour d) (minute d) (second d) (microsecond d).

(** The exception is one that a parser of pydantic raises on the line,
    other than [ValidationError]. *)
Definition raised_by_parser {L A} (parse_version : L -> pydantic.validated Z)
    (parse_meta : L -> pydantic.validated A) (l : L) (e : exn) : Prop :=
  parse_version l = pydantic.OtherError e
  \/ (parse_version l = pydantic.Valid CURRENT_PASTE_META_VERSION
      /\ parse_meta l = pydantic.OtherError e).



(** A string with no slash in it. *)
Definition no_slash (s : string) : bool :=
  forallb_string (fun c => negb (Ascii.eqb c "/")) s.

(** The [OSError]s of the file system. *)
Definition is_OSError (e : exn) : bool :=
  match e with
  | FileNotFoundError _ | FileExistsError _ | NotADirectoryError _ | IsADirectoryError _ => true
  | _ => false
  end.

(** What a call that makes directories keeps and gives. *)
Definition makes_dir (p : Path) (fs : FS) (out : result unit * FS) : Prop :=
  files out.2 = files fs
  /\ dirs fs ⊆ dirs out.2
  /\ (out.1 = Return tt -> isdir p out.2 = true)
  /\ (forall e, out.1 = Raise e -> is_OSError e = true).

(** The place of a character in the URL-safe alphabet. *)
Definition b64_index (c : byte) : N :=
  let n := Byte.to_N c in
  (if (65 <=? n) && (n <=? 90) then n - 65
   else if (97 <=? n) && (n <=? 122) then n - 71
   else if (48 <=? n) && (n <=? 57) then n + 4
   else if n =? 45 then 62
   else 63)%N.

(** * Properties *)

#[local] Arguments String.append : simpl nomatch.

(** ** The file system *)

Lemma walk_OSError (l : list Path) (fs : FS) (e : exn) :
  walk l fs = Some e -> is_OSError e = true.
Proof.
  induction l as [|a l IH]; [discriminate|]. cbn [walk].
  destruct (isfile a fs); [now intros [= <-]|].
  destruct (isdir a fs); [exact IH | now intros [= <-]].
Qed.

Lemma no_file_OSError (p : Path) (fs : FS) : is_OSError (no_file p fs) = true.
Proof.
  unfold no_file. destruct (resolve p fs) as [e|] eqn:E.
  - now apply (walk_OSError _ _ _ E).
  - now destruct (isdir p fs).
Qed.


Lemma os_mkdir_makes_dir (p : Path) (fs : FS) : makes_dir p fs (os_mkdir p fs).
Proof.
  unfold makes_dir, os_mkdir.
  destruct (isfile p fs || isdir p fs) eqn:Ex; cbn [fst snd].
  - repeat split; [set_solver | discriminate | now intros e [= <-]].
  - destruct (resolve p fs) as [e|] eqn:E; cbn [fst snd files dirs].
    + repeat split; [set_solver | discriminate |].
      intros e' [= <-]. now apply (walk_OSError _ _ _ E).
    + repeat split; [set_solver | | discriminate].
      intros _. apply orb_false_elim in Ex as [Hf _].
      unfold isdir, isfile in *. cbn [files dirs]. rewrite Hf. cbn [negb andb].
      apply orb_true_intro. right. apply bool_decide_eq_true. set_solver.
Qed.

Lemma isdir_makes_dir (p : Path) (fs : FS) :
  isdir p fs = true -> makes_dir p fs (Return tt, fs).
Proof. intros H. unfold makes_dir. cbn [fst snd]. repeat split; [set_solver | auto | discriminate]. Qed.

Lemma raise_makes_dir (p : Path) (fs : FS) (e : exn) :
  is_OSError e = true -> makes_dir p fs (Raise e, fs).
Proof.
  intros H. unfold makes_dir. cbn [fst snd].
  repeat split; [set_solver | discriminate | now intros e' [= <-]].
Qed.

Lemma makes_dir_trans (p q : Path) (fs fs1 : FS) (out : result unit * FS) :
  files fs1 = files fs -> dirs fs ⊆ dirs fs1 -> makes_dir p fs1 out -> makes_dir p fs out.
Proof.
  intros Hf Hd (H1 & H2 & H3 & H4).
  split; [congruence|]. split; [set_solver|]. split; assumption.
Qed.

Lemma mkdir_exist_ok_makes_dir (p : Path) (fs : FS) : makes_dir p fs (mkdir_exist_ok p fs).
Proof.
  unfold mkdir_exist_ok. pose proof (os_mkdir_makes_dir p fs) as H.
  destruct (os_mkdir p fs) as [[[]|e] fs']; [exact H|].
  destruct H as (H1 & H2 & H3 & H4). cbn [fst snd] in *.
  specialize (H4 e eq_refl).
  assert (Hraise : makes_dir p fs (Raise e, fs'))
    by (unfold makes_dir; cbn [fst snd]; split; [exact H1|]; split; [exact H2|];
        split; [discriminate | now intros e' [= <-]]).
  assert (Hret : isdir p fs' = true -> makes_dir p fs (Return tt, fs'))
    by (intros Hd; unfold makes_dir; cbn [fst snd]; split; [exact H1|]; split; [exact H2|];
        split; [auto | discriminate]).
  destruct e; try exact Hraise; destruct (isdir p fs') eqn:Hd; auto.
Qed.

Lemma mkdir_parents_from_makes_dir (n : nat) :
  forall (p : Path) (fs : FS), makes_dir p fs (mkdir_parents_from n p fs).
Proof.
  induction n as [|n IH]; intros p fs; cbn [mkdir_parents_from];
    pose proof (os_mkdir_makes_dir p fs) as H;
    destruct (os_mkdir p fs) as [[[]|e] fs'] eqn:Eos; try exact H;
    destruct H as (H1 & H2 & H3 & H4); cbn [fst snd] in *;
    specialize (H4 e eq_refl);
    assert (Hraise : makes_dir p fs (Raise e, fs'))
      by (unfold makes_dir; cbn [fst snd]; split; [exact H1|]; split; [exact H2|];
        split; [discriminate | now intros e' [= <-]]);
    assert (Hret : isdir p fs' = true -> makes_dir p fs (Return tt, fs'))
      by (intros Hd; unfold makes_dir; cbn [fst snd]; split; [exact H1|]; split; [exact H2|];
        split; [auto | discriminate]).
  - destruct e; try exact Hraise; destruct (isdir p fs') eqn:Hd; auto.
  - destruct e; try exact Hraise; try (destruct (isdir p fs') eqn:Hd; now auto).
    destruct (is_root p); [exact Hraise|].
    pose proof (IH (parent p) fs') as (P1 & P2 & P3 & P4).
    destruct (mkdir_parents_from n (parent p) fs') as [[[]|e'] fs1]; cbn [fst snd] in *.
    + apply (makes_dir_trans p p fs fs1); [congruence | set_solver |].
      apply mkdir_exist_ok_makes_dir.
    + unfold makes_dir. cbn [fst snd].
      split; [congruence|]. split; [set_solver|]. split; [discriminate|].
      intros e'' [= <-]. now apply P4.
Qed.

Lemma mkdir_parents_makes_dir (p : Path) (fs : FS) : makes_dir p fs (mkdir_parents p fs).
Proof. apply mkdir_parents_from_makes_dir. Qed.

(** Where a regular file is, no directory is made. *)
Lemma mkdir_parents_file (p : Path) (fs : FS) :
  isfile p fs = true -> mkdir_parents p fs = (Raise (FileExistsError "File exists"), fs).
Proof.
  intros Hf. unfold mkdir_parents.
  assert (Hos : os_mkdir p fs = (Raise (FileExistsError "File exists"), fs))
    by (unfold os_mkdir; now rewrite Hf).
  assert (Hd : isdir p fs = false) by (unfold isdir; now rewrite Hf).
  destruct (List.length p); cbn [mkdir_parents_from]; now rewrite Hos, Hd.
Qed.

(** Where the directory is, nothing is done. *)
Lemma mkdir_parents_dir (p : Path) (fs : FS) :
  isdir p fs = true -> mkdir_parents p fs = (Return tt, fs).
Proof.
  intros Hd. unfold mkdir_parents.
  assert (Hos : os_mkdir p fs = (Raise (FileExistsError "File exists"), fs))
    by (unfold os_mkdir; rewrite Hd; now rewrite orb_true_r).
  destruct (List.length p); cbn [mkdir_parents_from]; now rewrite Hos, Hd.
Qed.

(** ** Slices and the path of a paste *)

Lemma substring_all (s : string) : String.substring 0 (String.length s) s = s.
Proof. induction s as [|c s IH]; simpl; [reflexivity | now rewrite IH]. Qed.

Lemma slice_split (s : string) :
  (2 <= String.length s)%nat ->
  (slice_to 2 s ++ slice_from 2 s)%string = s
  /\ String.length (slice_to 2 s) = 2%nat
  /\ String.length (slice_from 2 s) = (String.length s - 2)%nat.
Proof.
  destruct s as [|a [|b s]]; simpl; try lia. intros _.
  unfold slice_to, slice_from. simpl. rewrite Nat.sub_0_r.
  rewrite substring_all.
  destruct s; auto.
Qed.

Lemma create_paste_path_short (root : Path) (paste_id : str) (mkdir : bool) (fs : FS) :
  (String.length paste_id < 3)%nat ->
  helpers.create_paste_path root paste_id mkdir fs
  = (Raise (PasteIdException "paste_id too short, must be at least 3 characters long"), fs).
Proof.
  intros H. apply Nat.ltb_lt in H. unfold helpers.create_paste_path. now rewrite H.
Qed.

Lemma create_paste_path_no_mkdir (root : Path) (paste_id : str) (fs : FS) :
  (3 <= String.length paste_id)%nat ->
  helpers.create_paste_path root paste_id false fs = (Return (paste_path root paste_id), fs).
Proof.
  intros H. unfold helpers.create_paste_path.
  assert (Hlt : (String.length paste_id <? 3)%nat = false) by (apply Nat.ltb_ge; lia).
  now rewrite Hlt.
Qed.

Lemma create_paste_path_with_mkdir (root : Path) (paste_id : str) (fs : FS) :
  (3 <= String.length paste_id)%nat ->
  helpers.create_paste_path root paste_id true fs
  = match mkdir_parents (root // slice_to 2 paste_id) fs with
    | (Return _, fs') => (Return (paste_path root paste_id), fs')
    | (Raise e, fs') => (Raise e, fs')
    end.
Proof.
  intros H. unfold helpers.create_paste_path.
  assert (Hlt : (String.length paste_id <? 3)%nat = false) by (apply Nat.ltb_ge; lia).
  now rewrite Hlt.
Qed.

(** With three characters or more, [create_paste_path] returns the
    path, or raises what the making of the directory raises. *)
Lemma create_paste_path_outcome (root : Path) (paste_id : str) (mkdir : bool) (fs : FS) :
  (3 <= String.length paste_id)%nat ->
  (helpers.create_paste_path root paste_id mkdir fs).1 = Return (paste_path root paste_id)
  \/ (mkdir = true
      /\ exists e, (helpers.create_paste_path root paste_id mkdir fs).1 = Raise e
                   /\ is_OSError e = true).
Proof.
  intros H. destruct mkdir.
  - rewrite create_paste_path_with_mkdir by exact H.
    destruct (mkdir_parents_makes_dir (root // slice_to 2 paste_id) fs) as (_ & _ & _ & He).
    destruct (mkdir_parents (root // slice_to 2 paste_id) fs) as [[[]|e] fs']; cbn [fst snd] in *.
    + now left.
    + right. split; [reflexivity|]. exists e. split; [reflexivity | now apply He].
  - rewrite create_paste_path_no_mkdir by exact H. now left.
Qed.

(** When [create_paste_path] returns, the path is the one of the
    identifier. *)
Lemma create_paste_path_returns (root : Path) (paste_id : str) (mkdir : bool) (fs : FS)
    (p : Path) :
  (helpers.create_paste_path root paste_id mkdir fs).1 = Return p ->
  (3 <= String.length paste_id)%nat /\ p = paste_path root paste_id.
Proof.
  intros H. destruct (Nat.lt_ge_cases (String.length paste_id) 3) as [Hs|Hl].
  - rewrite create_paste_path_short in H by exact Hs. discriminate H.
  - split; [exact Hl|].
    destruct (create_paste_path_outcome root paste_id mkdir fs Hl) as [E|(_ & e & E & _)];
      rewrite E in H; [now injection H | discriminate H].
Qed.

Lemma urlsafe_not_separator (c : ascii) :
  is_urlsafe_char c = true -> Ascii.eqb c "/" = false /\ Ascii.eqb c "." = false.
Proof.
  destruct c as [[] [] [] [] [] [] [] []]; intros H; try discriminate H; now split.
Qed.

Lemma split_sep_urlsafe (s : string) :
  forallb_string is_urlsafe_char s = true -> split_sep s = [s].
Proof.
  induction s as [|c s IH]; [reflexivity|]. cbn [forallb_string split_sep].
  intros H. apply andb_prop in H as [Hc Hs].
  destruct (urlsafe_not_separator c Hc) as [-> _]. now rewrite IH.
Qed.

(** A non-empty URL-safe string is one relative path component. *)
Lemma joinpath_urlsafe (p : Path) (s : string) :
  forallb_string is_urlsafe_char s = true -> s <> EmptyString -> p // s = p ++ [s].
Proof.
  intros Hs Hne. destruct s as [|c s]; [contradiction|].
  pose proof (split_sep_urlsafe _ Hs) as Hsplit.
  cbn [forallb_string] in Hs. apply andb_prop in Hs as [Hc _].
  destruct (urlsafe_not_separator c Hc) as [Hslash Hdot].
  assert (Hkeep : negb (String.eqb (String c s) EmptyString || String.eqb (String c s) ".") = true).
  { cbn [String.eqb]. now rewrite Hdot. }
  unfold joinpath, is_absolute_str, parse_parts, splitroot. rewrite Hslash.
  cbn [fst]. change (String.eqb EmptyString EmptyString) with true. cbn [negb].
  rewrite Hsplit. cbn [List.filter]. now rewrite Hkeep.
Qed.

Lemma slices_urlsafe (s : string) :
  forallb_string is_urlsafe_char s = true -> (3 <= String.length s)%nat ->
  forallb_string is_urlsafe_char (slice_to 2 s) = true
  /\ forallb_string is_urlsafe_char (slice_from 2 s) = true
  /\ slice_to 2 s <> EmptyString /\ slice_from 2 s <> EmptyString.
Proof.
  destruct s as [|a [|b [|c s]]]; cbn [String.length]; try lia. intros H _.
  unfold slice_to, slice_from. cbn [String.length Nat.sub String.substring].
  rewrite substring_all. cbn [forallb_string] in *.
  apply andb_prop in H as [Ha H]. apply andb_prop in H as [Hb H].
  rewrite Ha, Hb, H. repeat split; discriminate.
Qed.

Lemma paste_path_urlsafe (root : Path) (paste_id : str) :
  forallb_string is_urlsafe_char paste_id = true -> (3 <= String.length paste_id)%nat ->
  paste_path root paste_id = root ++ [slice_to 2 paste_id; slice_from 2 paste_id].
Proof.
  intros Hs Hlen. destruct (slices_urlsafe _ Hs Hlen) as (H1 & H2 & N1 & N2).
  unfold paste_path. rewrite !joinpath_urlsafe by assumption.
  now rewrite <- app_assoc.
Qed.

Lemma paste_path_urlsafe_inj (root : Path) (a b : str) :
  forallb_string is_urlsafe_char a = true -> (3 <= String.length a)%nat ->
  forallb_string is_urlsafe_char b = true -> (3 <= String.length b)%nat ->
  paste_path root a = paste_path root b -> a = b.
Proof.
  intros Ha La Hb Lb H. rewrite !paste_path_urlsafe in H by assumption.
  apply app_inv_head in H. injection H as H1 H2.
  destruct (slice_split a) as [<- _]; [lia|]. destruct (slice_split b) as [<- _]; [lia|].
  now rewrite H1, H2.
Qed.




(** ** Expiry *)

(** C7. A paste with no [expire_dt] is not expired, whatever the time, in
    [helpers.py] and in [core/models.py]. *)
Theorem is_expired_never_without_expire_dt
    (h : helpers.PasteMeta) (m : models.PasteMeta) (now : clock) :
  helpers.expire_dt h = None ->
  models.expire_dt m = None ->
  helpers.is_expired h now = Return false /\ models.is_expired m now = Return false.
Proof.
  intros Hh Hm. unfold helpers.is_expired, models.is_expired.
  now rewrite Hh, Hm.
Qed.

Lemma is_expired_never_without_expire_dt_witness :
  helpers.is_expired
    (helpers.mk_PasteMeta 1 "abcdef" (mk_datetime 2022 9 1 12 0 0 0 None) None)
    (mk_clock 2099 1 1 0 0 0 0) = Return false
  /\ models.is_expired
       (models.mk_PasteMeta 1 "abcdef" (mk_datetime 2022 9 1 12 0 0 0 None) None None None)
       (mk_clock 2099 1 1 0 0 0 0) = Return false.
Proof.
  apply (is_expired_never_without_expire_dt
           (helpers.mk_PasteMeta 1 "abcdef" (mk_datetime 2022 9 1 12 0 0 0 None) None)
           (models.mk_PasteMeta 1 "abcdef" (mk_datetime 2022 9 1 12 0 0 0 None) None None None));
    reflexivity.
Defined.

(** In [core/models.py] the comparison is between two naive values: it
    never raises, and says whether the fields of [expire_dt] come before
    those of the current UTC time. *)
Lemma models_is_expired_total (m : models.PasteMeta) (e : datetime) (now : clock) :
  models.expire_dt m = Some e ->
  models.is_expired m now = Return (earlier (replace_tzinfo_None e) (utcnow now)).
Proof.
  intros He. unfold models.is_expired. rewrite He.
  unfold datetime_lt, earlier. cbn [tzinfo replace_tzinfo_None utcnow bind].
  match goal with |- context [cmp_tuple ?a ?b] => now destruct (cmp_tuple a b) end.
Qed.

(** In [helpers.py] the comparison is with [expire_dt] as it is: of a
    naive one it says the same, and with an aware one it raises. *)
Lemma helpers_is_expired_naive (m : helpers.PasteMeta) (e : datetime) (now : clock) :
  helpers.expire_dt m = Some e ->
  tzinfo e = None ->
  helpers.is_expired m now = Return (earlier e (utcnow now)).
Proof.
  intros He Htz. unfold helpers.is_expired. rewrite He.
  unfold datetime_lt, earlier. rewrite Htz. cbn [tzinfo utcnow bind].
  match goal with |- context [cmp_tuple ?a ?b] => now destruct (cmp_tuple a b) end.
Qed.

Lemma helpers_is_expired_aware (m : helpers.PasteMeta) (e : datetime) (off : Z) (now : clock) :
  helpers.expire_dt m = Some e ->
  tzinfo e = Some off ->
  helpers.is_expired m now
  = Raise (TypeError "can't compare offset-naive and offset-aware datetimes").
Proof.
  intros He Htz. unfold helpers.is_expired. rewrite He.
  unfold datetime_lt. now rewrite Htz.
Qed.

(** C8. With the aware [expire_dt] 2000-01-01T00:00:00+00:00 and the
    clock at 2022-09-01 12:00, [is_expired] of [helpers.py] raises a
    [TypeError], where that of [core/models.py] answers [True]. *)
Theorem helpers_is_expired_raises_on_aware_expire_dt :
  helpers.is_expired
    (helpers.mk_PasteMeta 1 "abcdef" (mk_datetime 1999 12 31 0 0 0 0 None) (Some y2k_utc))
    (mk_clock 2022 9 1 12 0 0 0)
  = Raise (TypeError "can't compare offset-naive and offset-aware datetimes")
  /\ models.is_expired
       (models.mk_PasteMeta 1 "abcdef" (mk_datetime 1999 12 31 0 0 0 0 None) (Some y2k_utc) None None)
       (mk_clock 2022 9 1 12 0 0 0)
     = Return true.
Proof. split; reflexivity. Qed.

(** ** The title *)

Lemma validate_title_accepts (title : option str) :
  models.validate_title title = Return title
  <-> match title with Some t => (String.length t <= 32)%nat | None => True end.
Proof.
  unfold models.validate_title. destruct title as [t|]; [|tauto].
  destruct (32 <? String.length t)%nat eqn:E.
  - apply Nat.ltb_lt in E. split; [discriminate | lia].
  - apply Nat.ltb_ge in E. tauto.
Qed.

Lemma validate_title_rejects (t : str) :
  (32 < String.length t)%nat ->
  models.validate_title (Some t) = Raise (ValueError "title must be < 32").
Proof.
  intros H. unfold models.validate_title. apply Nat.ltb_lt in H. now rewrite H.
Qed.

(** C9. A title of 32 characters passes [validate_title], whose message
    asks for fewer than 32. *)
Theorem validate_title_accepts_32_characters :
  String.length "0123456789abcdef0123456789abcdef" = 32%nat
  /\ models.validate_title (Some "0123456789abcdef0123456789abcdef")
     = Return (Some "0123456789abcdef0123456789abcdef").
Proof. split; reflexivity. Qed.

(** ** Identifiers *)

Lemma list_ind3 {A} (P : list A -> Prop) :
  P [] -> (forall a, P [a]) -> (forall a b, P [a; b]) ->
  (forall a b c l, P l -> P (a :: b :: c :: l)) ->
  forall l, P l.
Proof.
  intros H0 H1 H2 H3.
  assert (H : forall l, P l /\ (forall a, P (a :: l)) /\ (forall a b, P (a :: b :: l))).
  { induction l as [|x l (IH0 & IH1 & IH2)]; auto. }
  intros l. apply H.
Qed.

Lemma b64_char_in_alphabet (i : N) : In (b64_char i) urlsafe_alphabet.
Proof.
  unfold b64_char.
  destruct (nth_in_or_default (N.to_nat i) urlsafe_alphabet "A"%byte) as [H|H]; [exact H|].
  rewrite H. vm_compute. auto.
Qed.

Lemma alphabet_not_pad (c : byte) : In c urlsafe_alphabet -> Byte.eqb c pad_char = false.
Proof.
  intros H. vm_compute in H.
  repeat (destruct H as [<-|H]; [reflexivity|]). contradiction.
Qed.

Lemma alphabet_urlsafe (c : byte) :
  In c urlsafe_alphabet -> is_urlsafe_char (ascii_of_byte c) = true.
Proof.
  intros H. vm_compute in H.
  repeat (destruct H as [<-|H]; [reflexivity|]). contradiction.
Qed.

Lemma lstrip_byte_snoc (c x : byte) (l : bytes) :
  Byte.eqb x c = false -> lstrip_byte c (l ++ [x]) = lstrip_byte c l ++ [x].
Proof.
  intros Hx. induction l as [|y l IH]; simpl.
  - now rewrite Hx.
  - destruct (Byte.eqb y c); [exact IH | reflexivity].
Qed.

Lemma rstrip_byte_cons (c x : byte) (l : bytes) :
  Byte.eqb x c = false -> rstrip_byte c (x :: l) = x :: rstrip_byte c l.
Proof.
  intros Hx. unfold rstrip_byte. simpl.
  rewrite lstrip_byte_snoc by exact Hx.
  now rewrite rev_app_distr.
Qed.

(** Without its padding, the encoding of [n] bytes has
    [(4 * n + 2) / 3] characters, all of the URL-safe alphabet. *)
Lemma urlsafe_b64encode_unpadded (s : bytes) :
  length (rstrip_byte pad_char (urlsafe_b64encode s)) = ((4 * length s + 2) / 3)%nat
  /\ Forall (fun c => In c urlsafe_alphabet) (rstrip_byte pad_char (urlsafe_b64encode s)).
Proof.
  induction s as [|a|a b|a b c s [IHlen IHin]] using list_ind3.
  - split; [reflexivity | constructor].
  - cbn [urlsafe_b64encode].
    rewrite !rstrip_byte_cons by (apply alphabet_not_pad, b64_char_in_alphabet).
    change (rstrip_byte pad_char [pad_char; pad_char]) with (@nil byte).
    split; [reflexivity|].
    repeat (constructor; [apply b64_char_in_alphabet|]). constructor.
  - cbn [urlsafe_b64encode].
    rewrite !rstrip_byte_cons by (apply alphabet_not_pad, b64_char_in_alphabet).
    change (rstrip_byte pad_char [pad_char]) with (@nil byte).
    split; [reflexivity|].
    repeat (constructor; [apply b64_char_in_alphabet|]). constructor.
  - cbn [urlsafe_b64encode].
    rewrite !rstrip_byte_cons by (apply alphabet_not_pad, b64_char_in_alphabet).
    split.
    + cbn [length]. rewrite IHlen.
      replace (4 * S (S (S (length s))) + 2)%nat with ((4 * length s + 2) + 4 * 3)%nat by lia.
      rewrite Nat.div_add by lia. lia.
    + repeat (constructor; [apply b64_char_in_alphabet|]). exact IHin.
Qed.

Lemma length_string_of_list_byte (l : bytes) :
  String.length (string_of_list_byte l) = length l.
Proof. induction l as [|x l IH]; simpl; [reflexivity | now rewrite <- IH]. Qed.

Lemma urlsafe_string_of_list_byte (l : bytes) :
  Forall (fun c => In c urlsafe_alphabet) l ->
  forallb_string is_urlsafe_char (string_of_list_byte l) = true.
Proof.
  induction 1 as [|x l Hx _ IH]; [reflexivity|].
  change (string_of_list_byte (x :: l)) with (String (ascii_of_byte x) (string_of_list_byte l)).
  cbn [forallb_string]. now rewrite (alphabet_urlsafe x Hx), IH.
Qed.

Lemma token_urlsafe_shape (rng : nat -> byte) (n : nat) :
  String.length (token_urlsafe rng n) = ((4 * n + 2) / 3)%nat
  /\ forallb_string is_urlsafe_char (token_urlsafe rng n) = true.
Proof.
  unfold token_urlsafe.
  destruct (urlsafe_b64encode_unpadded (token_bytes rng n)) as [Hlen Hin].
  split.
  - rewrite length_string_of_list_byte, Hlen. unfold token_bytes.
    now rewrite length_map, length_seq.
  - now apply urlsafe_string_of_list_byte.
Qed.

(** C10. Whatever the random source gives, a generated identifier has 10
    characters, or 40 when [long] is set, all of them URL-safe; so it has
    at least three, and [create_paste_path] never raises
    [PasteIdException] on it, whatever the root, [mkdir] and the file
    system; without [mkdir] it returns. *)
Theorem create_paste_id_well_formed (long : bool) (rng : nat -> byte) :
  String.length (helpers.create_paste_id long rng) = (if long then 40 else 10)%nat
  /\ forallb_string is_urlsafe_char (helpers.create_paste_id long rng) = true
  /\ (3 <= String.length (helpers.create_paste_id long rng))%nat
  /\ (forall root mkdir fs msg,
        (helpers.create_paste_path root (helpers.create_paste_id long rng) mkdir fs).1
        <> Raise (PasteIdException msg))
  /\ (forall root fs,
        exists p, helpers.create_paste_path root (helpers.create_paste_id long rng) false fs
                  = (Return p, fs)).
Proof.
  assert (Hlen : String.length (helpers.create_paste_id long rng) = (if long then 40 else 10)%nat).
  { unfold helpers.create_paste_id.
    destruct long; rewrite (proj1 (token_urlsafe_shape rng _)); reflexivity. }
  assert (H3 : (3 <= String.length (helpers.create_paste_id long rng))%nat).
  { rewrite Hlen. destruct long; lia. }
  split; [exact Hlen|]. split.
  { unfold helpers.create_paste_id. destruct long; apply token_urlsafe_shape. }
  split; [exact H3|]. split.
  - intros root mkdir fs msg.
    destruct (create_paste_path_outcome root _ mkdir fs H3) as [E|(_ & e & E & He)];
      rewrite E; [discriminate|].
    intros [= ->]. discriminate He.
  - intros root fs. eexists. now apply create_paste_path_no_mkdir.
Qed.

(** ** Decoding the metadata line *)

Lemma get_paste_meta_with_other_version
    (parse_version : bytes -> pydantic.validated Z)
    (parse_meta : bytes -> pydantic.validated helpers.PasteMeta)
    (meta_line : bytes) (v : Z) :
  parse_version meta_line = pydantic.Valid v ->
  v <> CURRENT_PASTE_META_VERSION ->
  helpers.get_paste_meta_with parse_version parse_meta meta_line
  = Raise (PasteMetaVersionInvalid (version_invalid_message v)).
Proof.
  intros Hv Hne. unfold helpers.get_paste_meta_with. rewrite Hv.
  destruct (Z.eqb_spec v CURRENT_PASTE_META_VERSION); [contradiction | reflexivity].
Qed.

Lemma extract_from_line_with_other_version
    (parse_version : models.line -> pydantic.validated Z)
    (parse_meta : models.line -> pydantic.validated models.PasteMeta)
    (l : models.line) (v : Z) :
  parse_version l = pydantic.Valid v ->
  v <> CURRENT_PASTE_META_VERSION ->
  models.extract_from_line_with parse_version parse_meta l
  = Raise (PasteMetaVersionInvalid (version_invalid_message v)).
Proof.
  intros Hv Hne. unfold models.extract_from_line_with. rewrite Hv.
  destruct (Z.eqb_spec v CURRENT_PASTE_META_VERSION); [contradiction | reflexivity].
Qed.

(** C3. First phase of the decoding. [parse_version] and [parse_meta]
    stand for [PasteMetaVersion.parse_raw] and [PasteMeta.parse_raw] of
    pydantic, whatever they are: on every line from which
    [PasteMetaVersion.parse_raw] reads a version other than the current
    one, however it reads it, [get_paste_meta] raises
    [PasteMetaVersionInvalid] with that version in its message, and not
    [PasteMetaUnprocessable]; it does so whatever the parser of the full
    record would answer on the line, which is not asked. The same holds
    of [PasteMeta.extract_from_line]. *)
Theorem other_version_is_version_invalid
    (parse_version : bytes -> pydantic.validated Z)
    (parse_meta : bytes -> pydantic.validated helpers.PasteMeta)
    (parse_line_version : models.line -> pydantic.validated Z)
    (parse_line_meta : models.line -> pydantic.validated models.PasteMeta)
    (meta_line : bytes) (l : models.line) (v w : Z) :
  parse_version meta_line = pydantic.Valid v ->
  v <> CURRENT_PASTE_META_VERSION ->
  parse_line_version l = pydantic.Valid w ->
  w <> CURRENT_PASTE_META_VERSION ->
  (helpers.get_paste_meta_with parse_version parse_meta meta_line
   = Raise (PasteMetaVersionInvalid (version_invalid_message v))
   /\ forall parse_other,
        helpers.get_paste_meta_with parse_version parse_other meta_line
        = helpers.get_paste_meta_with parse_version parse_meta meta_line)
  /\ (models.extract_from_line_with parse_line_version parse_line_meta l
      = Raise (PasteMetaVersionInvalid (version_invalid_message w))
      /\ forall parse_other,
           models.extract_from_line_with parse_line_version parse_other l
           = models.extract_from_line_with parse_line_version parse_line_meta l).
Proof.
  intros Hv Hne Hw Hnew. split; split.
  - now apply get_paste_meta_with_other_version.
  - intros parse_other. now rewrite !(get_paste_meta_with_other_version _ _ _ v).
  - now apply extract_from_line_with_other_version.
  - intros parse_other. now rewrite !(extract_from_line_with_other_version _ _ _ w).
Qed.

Lemma other_version_is_version_invalid_witness :
  helpers.get_paste_meta (str_encode line_version_99 ++ [LF])
  = Raise (PasteMetaVersionInvalid "paste is not a valid version number of '99'")
  /\ models.extract_from_line (models.LineStr line_version_99)
     = Raise (PasteMetaVersionInvalid "paste is not a valid version number of '99'").
Proof.
  destruct (other_version_is_version_invalid
              helpers.PasteMetaVersion_parse_raw helpers.PasteMeta_parse_raw
              (models.parse_line models.PasteMetaVersion_validate)
              (models.parse_line models.PasteMeta_validate)
              (str_encode line_version_99 ++ [LF]) (models.LineStr line_version_99) 99 99)
    as [[H1 _] [H2 _]]; try reflexivity; try discriminate.
  split; [exact H1 | exact H2].
Defined.

Lemma get_paste_meta_with_unprocessable
    (parse_version : bytes -> pydantic.validated Z)
    (parse_meta : bytes -> pydantic.validated helpers.PasteMeta)
    (meta_line : bytes) :
  fails_validation parse_version parse_meta meta_line ->
  helpers.get_paste_meta_with parse_version parse_meta meta_line
  = Raise (PasteMetaUnprocessable "paste meta cannot be loaded").
Proof.
  unfold helpers.get_paste_meta_with. intros [H|[H1 H2]].
  - now rewrite H.
  - now rewrite H1, H2.
Qed.

(** [PasteMeta.extract_from_line] puts the line in the message. *)
Lemma extract_from_line_with_unprocessable
    (parse_version : models.line -> pydantic.validated Z)
    (parse_meta : models.line -> pydantic.validated models.PasteMeta)
    (l : models.line) :
  fails_validation parse_version parse_meta l ->
  models.extract_from_line_with parse_version parse_meta l
  = Raise (PasteMetaUnprocessable
             ("paste meta validation did not pass: '" ++ models.format_line l ++ "'")%string).
Proof.
  unfold models.extract_from_line_with. intros [H|[H1 H2]].
  - now rewrite H.
  - now rewrite H1, H2.
Qed.

(** C4. On the two lines, [get_paste_meta] of [helpers.py] raises one
    and the same [PasteMetaUnprocessable], with a message that has no
    part of the line; [PasteMeta.extract_from_line] of [core/models.py]
    raises it with the line in the message. *)
Theorem get_paste_meta_unprocessable_without_line :
  str_encode line_not_json <> str_encode line_version_only
  /\ helpers.get_paste_meta (str_encode line_not_json)
     = Raise (PasteMetaUnprocessable "paste meta cannot be loaded")
  /\ helpers.get_paste_meta (str_encode line_version_only)
     = Raise (PasteMetaUnprocessable "paste meta cannot be loaded")
  /\ models.extract_from_line (models.LineStr line_not_json)
     = Raise (PasteMetaUnprocessable
                ("paste meta validation did not pass: '" ++ line_not_json ++ "'")%string)
  /\ models.extract_from_line (models.LineStr line_version_only)
     = Raise (PasteMetaUnprocessable
                ("paste meta validation did not pass: '" ++ line_version_only ++ "'")%string).
Proof.
  split; [discriminate|]. repeat split; reflexivity.
Qed.

(** ** Guarded access *)

(** An expired paste, with a naive [expire_dt]: [try_get_paste] raises
    [PasteExpiredException] and, with [auto_remove], leaves no file at
    the path, whatever others do to the file system before the removal;
    if they have removed the file, the [FileNotFoundError] of the removal
    is not raised. *)
Lemma read_paste_meta_unfold (p : Path) (fs : FS) :
  helpers.read_paste_meta p fs
  = let! fo := helpers.open_rb p fs in helpers.get_paste_meta (readline fo).1.
Proof. reflexivity. Qed.

Lemma try_get_paste_unfold (root : Path) (paste_id : str) (auto_remove : bool) (now : clock)
    (meanwhile : FS -> FS) (fs : FS) :
  helpers.try_get_paste root paste_id auto_remove now meanwhile fs
  = match helpers.create_paste_path root paste_id false fs with
    | (Raise e, fs) => (Raise e, fs)
    | (Return paste_path, fs) =>
        if negb (isfile paste_path fs) then
          (Raise (PasteDoesNotExistException ("paste not found with id of " ++ paste_id)%string), fs)
        else
          match helpers.read_paste_meta paste_path fs with
          | Raise e => (Raise e, fs)
          | Return paste_meta =>
              match helpers.is_expired paste_meta now with
              | Raise e => (Raise e, fs)
              | Return true =>
                  if auto_remove then
                    match remove paste_path (meanwhile fs) with
                    | (Return _, fs) | (Raise (FileNotFoundError _), fs) =>
                        (Raise (PasteExpiredException
                                  ("paste has expired with id of " ++ paste_id)%string), fs)
                    | (Raise e, fs) => (Raise e, fs)
                    end
                  else
                    (Raise (PasteExpiredException
                              ("paste has expired with id of " ++ paste_id)%string), fs)
              | Return false => (Return (paste_path, paste_meta), fs)
              end
          end
    end.
Proof. reflexivity. Qed.

(** The naive [expire_dt] in the past: the paste is refused as expired
    and its file is gone, also when others have removed it in the
    meantime, as long as what they leave at the path is a regular file or
    nothing. *)
Lemma try_get_paste_expired_naive (root : Path) (paste_id : str) (now : clock)
    (meanwhile : FS -> FS) (fs : FS) (stored : bytes) (m : helpers.PasteMeta) (e : datetime) :
  (3 <= String.length paste_id)%nat ->
  files fs !! (root // slice_to 2 paste_id // slice_from 2 paste_id) = Some stored ->
  helpers.get_paste_meta (readline stored).1 = Return m ->
  helpers.expire_dt m = Some e ->
  tzinfo e = None ->
  earlier e (utcnow now) = true ->
  (files (meanwhile fs) !! (root // slice_to 2 paste_id // slice_from 2 paste_id) = None ->
   exists msg,
     no_file (root // slice_to 2 paste_id // slice_from 2 paste_id) (meanwhile fs)
     = FileNotFoundError msg) ->
  (helpers.try_get_paste root paste_id true now meanwhile fs).1
  = Raise (PasteExpiredException ("paste has expired with id of " ++ paste_id)%string)
  /\ files (helpers.try_get_paste root paste_id true now meanwhile fs).2
       !! (root // slice_to 2 paste_id // slice_from 2 paste_id) = None.
Proof.
  intros Hlen Hfile Hmeta He Htz Hlt Hgone.
  rewrite try_get_paste_unfold, create_paste_path_no_mkdir by exact Hlen.
  unfold paste_path.
  set (p := root // slice_to 2 paste_id // slice_from 2 paste_id) in *.
  assert (Hisfile : isfile p fs = true).
  { unfold isfile. apply bool_decide_eq_true. rewrite Hfile. eauto. }
  rewrite Hisfile. cbn [negb].
  rewrite read_paste_meta_unfold. unfold helpers.open_rb. rewrite Hfile. cbn [bind].
  rewrite Hmeta, (helpers_is_expired_naive m e now He Htz), Hlt.
  unfold remove.
  destruct (files (meanwhile fs) !! p) eqn:Hrace; cbn [fst snd files].
  - split; [reflexivity | apply lookup_delete_eq].
  - destruct (Hgone eq_refl) as [msg ->]. cbn [fst snd]. split; [reflexivity | exact Hrace].
Qed.

(** C6. The paste expired in 2000, the clock is at 2022-09-01 12:00:
    [try_get_paste] with [auto_remove] raises a [TypeError], not
    [PasteExpiredException], and the file is still there. *)
Theorem try_get_paste_aware_expire_dt_raises_type_error :
  helpers.read_paste_meta ["/"; "data"; "ab"; "cdef"] fs_expired_aware = Return paste_expired_aware
  /\ (helpers.try_get_paste ["/"; "data"] "abcdef" true (mk_clock 2022 9 1 12 0 0 0) id fs_expired_aware).1
     = Raise (TypeError "can't compare offset-naive and offset-aware datetimes")
  /\ isfile ["/"; "data"; "ab"; "cdef"]
       (helpers.try_get_paste ["/"; "data"] "abcdef" true (mk_clock 2022 9 1 12 0 0 0) id fs_expired_aware).2
     = true.
Proof. vm_compute. repeat split; reflexivity. Qed.

(** ** The JSON codec *)

Section strings.
Local Open Scope string_scope.

Lemma append_assoc (a b c : string) : (a ++ b) ++ c = a ++ (b ++ c).
Proof. induction a as [|x a IH]; simpl; [reflexivity | now rewrite IH]. Qed.

Lemma append_nil_r (a : string) : a ++ EmptyString = a.
Proof. induction a as [|x a IH]; simpl; [reflexivity | now rewrite IH]. Qed.

Lemma length_append (a b : string) :
  String.length (a ++ b) = (String.length a + String.length b)%nat.
Proof. induction a as [|x a IH]; simpl; [reflexivity | now rewrite IH]. Qed.

Lemma forallb_string_append (f : ascii -> bool) (a b : string) :
  forallb_string f (a ++ b) = forallb_string f a && forallb_string f b.
Proof.
  induction a as [|x a IH]; simpl; [reflexivity|].
  now rewrite IH, andb_assoc.
Qed.
End strings.

(** *** Integers *)

Lemma scan_digits_string_of_uint (u : Decimal.uint) (rest : string) :
  delimited rest ->
  json.scan_digits (json.string_of_uint u ++ rest) = (u, rest).
Proof.
  intros Hrest. induction u; cbn; try (now rewrite IHu).
  destruct rest as [|c rest]; [reflexivity|].
  cbn. destruct Hrest as [-> _]. reflexivity.
Qed.

Lemma nzhead_not_D0 (d d' : Decimal.uint) : Decimal.nzhead d <> Decimal.D0 d'.
Proof. induction d; simpl; try discriminate. exact IHd. Qed.

Lemma pos_to_uint_head (p : positive) (u : Decimal.uint) :
  Pos.to_uint p <> Decimal.D0 u /\ Pos.to_uint p <> Decimal.Nil.
Proof.
  split; [|apply DecimalPos.Unsigned.to_uint_nonnil].
  intros H.
  pose proof (DecimalPos.Unsigned.to_of (Pos.to_uint p)) as Hn.
  rewrite DecimalPos.Unsigned.of_to in Hn. simpl in Hn.
  rewrite H in Hn at 1. unfold Decimal.unorm in Hn.
  destruct (Decimal.nzhead (Pos.to_uint p)) eqn:E;
    try (apply (nzhead_not_D0 (Pos.to_uint p) u); congruence).
  apply (DecimalPos.Unsigned.to_uint_nonzero p). rewrite H. exact Hn.
Qed.

(** The digits of a positive number, read back. *)
Lemma scan_number_pos (p : positive) (rest : string) :
  delimited rest ->
  exists c s,
    json.string_of_uint (Pos.to_uint p) = String c s
    /\ json.digit_of c <> None
    /\ Ascii.eqb c "0" = false /\ Ascii.eqb c "-" = false
    /\ json.scan_digits (String c s ++ rest) = (Pos.to_uint p, rest).
Proof.
  intros Hrest.
  pose proof (scan_digits_string_of_uint (Pos.to_uint p) rest Hrest) as Hscan.
  pose proof (proj2 (pos_to_uint_head p Decimal.Nil)) as Hnil.
  assert (H0 : forall u, Pos.to_uint p <> Decimal.D0 u) by (intros u; apply pos_to_uint_head).
  revert Hscan Hnil H0.
  destruct (Pos.to_uint p) as [|u|u|u|u|u|u|u|u|u|u]; intros Hscan Hnil H0;
    try contradiction;
    try (eexists _, _; repeat split; [discriminate | exact Hscan]).
  exfalso. now apply (H0 u).
Qed.

Lemma starts_float_delimited (rest : string) : delimited rest -> json.starts_float rest = false.
Proof. destruct rest; [reflexivity | intros [_ H]; exact H]. Qed.

Lemma scan_number_str_of_int (z : Z) (rest : string) :
  delimited rest ->
  json.scan_number (json.str_of_int z ++ rest) = Some (json.Int z, rest).
Proof.
  intros Hrest. pose proof (starts_float_delimited rest Hrest) as Hfl.
  destruct z as [|p|p].
  - cbn. now rewrite Hfl.
  - destruct (scan_number_pos p rest Hrest) as (c & s & Hs & Hd & H0 & Hm & Hscan).
    unfold json.str_of_int. cbn [Z.to_N N.to_uint]. rewrite Hs.
    unfold json.scan_number. cbn [String.append]. rewrite Hm.
    destruct (json.digit_of c); [|contradiction]. rewrite H0.
    change (String c (s ++ rest)%string) with (String c s ++ rest)%string.
    rewrite Hscan, Hfl.
    change (N.of_uint (Pos.to_uint p)) with (Pos.of_uint (Pos.to_uint p)).
    now rewrite DecimalPos.Unsigned.of_to.
  - destruct (scan_number_pos p rest Hrest) as (c & s & Hs & Hd & H0 & Hm & Hscan).
    unfold json.str_of_int. rewrite Hs.
    unfold json.scan_number. cbn [String.append]. cbn [Ascii.eqb Bool.eqb].
    destruct (json.digit_of c); [|contradiction]. rewrite H0.
    change (String c (s ++ rest)%string) with (String c s ++ rest)%string.
    rewrite Hscan, Hfl.
    change (N.of_uint (Pos.to_uint p)) with (Pos.of_uint (Pos.to_uint p)).
    now rewrite DecimalPos.Unsigned.of_to.
Qed.

(** [str(z)] determines [z], and so does the message of
    [PasteMetaVersionInvalid]. *)
Lemma str_of_int_inj (z w : Z) (rest : string) :
  delimited rest ->
  (json.str_of_int z ++ rest)%string = (json.str_of_int w ++ rest)%string -> z = w.
Proof.
  intros Hrest H.
  pose proof (scan_number_str_of_int z rest Hrest) as Hz.
  rewrite H, (scan_number_str_of_int w rest Hrest) in Hz. congruence.
Qed.

Lemma version_invalid_message_inj (v w : Z) :
  version_invalid_message v = version_invalid_message w -> v = w.
Proof.
  unfold version_invalid_message. intros H.
  apply (str_of_int_inj v w "'"); [now split|].
  cbn [String.append] in H. congruence.
Qed.

(** *** Strings *)

Lemma scanstring_escape_char (c : ascii) (t : string) :
  json.scanstring (json.escape_char c ++ t) = json.prepend c (json.scanstring t).
Proof.
  destruct c as [[] [] [] [] [] [] [] []]; reflexivity.
Qed.

Lemma scanstring_escape (s rest : string) :
  json.scanstring (json.escape s ++ String json.dquote rest) = Some (s, rest).
Proof.
  induction s as [|c s IH]; [reflexivity|].
  cbn [json.escape]. rewrite append_assoc, scanstring_escape_char, IH. reflexivity.
Qed.

Lemma printable_escape_char (c : ascii) :
  forallb_string printable (json.escape_char c) = true.
Proof.
  destruct c as [[] [] [] [] [] [] [] []]; reflexivity.
Qed.

Lemma printable_escape (s : string) : forallb_string printable (json.escape s) = true.
Proof.
  induction s as [|c s IH]; [reflexivity|].
  cbn [json.escape]. now rewrite forallb_string_append, printable_escape_char, IH.
Qed.

Lemma printable_quote (s : string) : forallb_string printable (json.quote s) = true.
Proof.
  unfold json.quote. cbn [forallb_string].
  now rewrite forallb_string_append, printable_escape.
Qed.

Lemma printable_string_of_uint (u : Decimal.uint) :
  forallb_string printable (json.string_of_uint u) = true.
Proof. induction u; cbn; auto. Qed.

Lemma printable_str_of_int (z : Z) : forallb_string printable (json.str_of_int z) = true.
Proof.
  destruct z; unfold json.str_of_int; cbn [forallb_string];
    apply printable_string_of_uint.
Qed.

(** *** Values *)

Lemma value_ind' (P : json.value -> Prop) :
  P json.Null ->
  (forall b, P (json.Bool b)) ->
  (forall z, P (json.Int z)) ->
  (forall s, P (json.Str s)) ->
  (forall l, Forall P l -> P (json.Arr l)) ->
  (forall l, Forall (fun kv => P kv.2) l -> P (json.Obj l)) ->
  forall v, P v.
Proof.
  intros HN HB HI HS HA HO. fix IH 1. intros [|b|z|s|l|l].
  - exact HN.
  - apply HB.
  - apply HI.
  - apply HS.
  - apply HA. induction l as [|x l IHl]; constructor; [apply IH | exact IHl].
  - apply HO. induction l as [|x l IHl]; constructor; [apply IH | exact IHl].
Qed.

Lemma parse_value_number (fuel : nat) (c : ascii) (t : string) :
  is_number_head c = true ->
  json.parse_value (S fuel) (String c t) = json.scan_number (String c t).
Proof.
  destruct c as [[] [] [] [] [] [] [] []]; intros H; try discriminate H; reflexivity.
Qed.

Lemma number_head_value_head (c : ascii) :
  is_number_head c = true -> is_value_head c = true.
Proof.
  destruct c as [[] [] [] [] [] [] [] []]; intros H; try discriminate H; reflexivity.
Qed.

Lemma str_of_int_head (z : Z) :
  exists c s, json.str_of_int z = String c s /\ is_number_head c = true.
Proof.
  destruct z as [|p|p].
  - now exists "0"%char, EmptyString.
  - destruct (scan_number_pos p EmptyString I) as (c & s & Hs & Hd & _).
    exists c, s. split; [exact Hs|]. unfold is_number_head.
    destruct (json.digit_of c); [reflexivity | contradiction].
  - now eexists "-"%char, _.
Qed.

Lemma quote_append (s rest : string) :
  (json.quote s ++ rest)%string = String json.dquote (json.escape s ++ String json.dquote rest).
Proof. unfold json.quote. cbn [String.append]. now rewrite append_assoc. Qed.

Lemma dumps_head (v : json.value) (rest : string) :
  exists c t, (json.dumps v ++ rest)%string = String c t /\ is_value_head c = true.
Proof.
  destruct v as [|[]|z|s|l|l]; try (now eexists _, _).
  destruct (str_of_int_head z) as (c & s & Hs & Hc).
  cbn [json.dumps]. rewrite Hs. exists c, (s ++ rest)%string.
  split; [reflexivity | now apply number_head_value_head].
Qed.

Lemma skip_ws_value_head (c : ascii) (t : string) :
  is_value_head c = true -> json.skip_ws (String c t) = String c t.
Proof.
  unfold is_value_head. cbn [json.skip_ws].
  destruct (json.is_ws c); [discriminate | reflexivity].
Qed.

Lemma skip_ws_dumps (v : json.value) (rest : string) :
  json.skip_ws (json.dumps v ++ rest) = (json.dumps v ++ rest)%string.
Proof.
  destruct (dumps_head v rest) as (c & t & -> & Hc). now apply skip_ws_value_head.
Qed.

Lemma reads_back_atoms :
  reads_back json.Null /\ (forall b, reads_back (json.Bool b))
  /\ (forall z, reads_back (json.Int z)) /\ (forall s, reads_back (json.Str s)).
Proof.
  unfold reads_back. repeat split.
  - intros [|fuel] rest Hf _; [simpl in Hf; lia | reflexivity].
  - intros b [|fuel] rest Hf _; [simpl in Hf; lia | destruct b; reflexivity].
  - intros z [|fuel] rest Hf Hrest; [simpl in Hf; lia|].
    destruct (str_of_int_head z) as (c & s & Hs & Hc).
    cbn [json.dumps]. pose proof (scan_number_str_of_int z rest Hrest) as Hn.
    rewrite Hs in *. cbn [String.append] in *.
    now rewrite parse_value_number.
  - intros s [|fuel] rest Hf _; [simpl in Hf; lia|].
    cbn [json.dumps]. rewrite quote_append.
    cbn [json.parse_value]. change (Ascii.eqb json.dquote json.dquote) with true.
    cbn iota. now rewrite scanstring_escape.
Qed.

Lemma delimited_punctuation (c : ascii) (t : string) :
  In c [","%char; "]"%char; "}"%char; " "%char; "010"%char] -> delimited (String c t).
Proof.
  intros H. simpl in H. unfold delimited.
  repeat (destruct H as [<-|H]; [now split|]). contradiction.
Qed.

#[local] Arguments json.join : simpl never.

Lemma join_one (sep a : string) : json.join sep [a] = a.
Proof. reflexivity. Qed.

Lemma join_cons (sep a b : string) (l : list string) :
  json.join sep (a :: b :: l) = (a ++ sep ++ json.join sep (b :: l))%string.
Proof. reflexivity. Qed.

Lemma join_dumps_head (x : json.value) (l : list json.value) (rest : string) :
  exists c t,
    (json.join ", " (List.map json.dumps (x :: l)) ++ rest)%string = String c t
    /\ is_value_head c = true.
Proof.
  destruct l; cbn [List.map]; rewrite ?join_one, ?join_cons, ?append_assoc; apply dumps_head.
Qed.

Lemma parse_elements_join (l : list json.value) :
  l <> [] -> Forall reads_back l ->
  forall fuel rest,
    (list_sum (List.map (fun x => S (size x)) l) <= fuel)%nat ->
    json.parse_elements fuel (json.join ", " (List.map json.dumps l) ++ String "]" rest)
    = Some (l, rest).
Proof.
  induction l as [|x l IH]; [contradiction|]. intros _ Hall fuel rest Hfuel.
  apply Forall_cons_1 in Hall as [Hx Hl].
  destruct fuel as [|fuel]; [simpl in Hfuel; lia|].
  cbn [json.parse_elements].
  destruct l as [|y l]; simpl in Hfuel.
  - cbn [List.map]. rewrite join_one.
    rewrite Hx; [reflexivity | lia | apply delimited_punctuation; simpl; auto].
  - destruct (join_dumps_head y l (String "]" rest)) as (c & t & Heq & Hc).
    specialize (IH ltac:(discriminate) Hl fuel rest ltac:(simpl; lia)).
    rewrite Heq in IH.
    cbn [List.map] in *. rewrite join_cons, !append_assoc.
    rewrite Hx; [| lia | apply delimited_punctuation; simpl; auto].
    simpl. rewrite Heq.
    rewrite skip_ws_value_head by exact Hc. now rewrite IH.
Qed.

Lemma parse_members_join (l : list (string * json.value)) :
  l <> [] -> Forall (fun kv => reads_back kv.2) l ->
  forall fuel rest,
    (list_sum (List.map (fun kv => S (size kv.2)) l) <= fuel)%nat ->
    exists t,
      (json.join ", " (List.map dumps_member l) ++ String "}" rest)%string = String json.dquote t
      /\ json.parse_members fuel t = Some (l, rest).
Proof.
  induction l as [|[k v] l IH]; [contradiction|]. intros _ Hall fuel rest Hfuel.
  apply Forall_cons_1 in Hall as [Hv Hl]. cbn [snd] in Hv.
  destruct fuel as [|fuel]; [simpl in Hfuel; lia|].
  destruct l as [|kv l]; simpl in Hfuel.
  - cbn [List.map]. rewrite join_one. unfold dumps_member. cbn [fst snd].
    rewrite append_assoc, quote_append. eexists. split; [reflexivity|].
    cbn [json.parse_members]. rewrite scanstring_escape, append_assoc. simpl.
    rewrite skip_ws_dumps.
    rewrite Hv; [reflexivity | lia | apply delimited_punctuation; simpl; auto].
  - destruct (IH ltac:(discriminate) Hl fuel rest ltac:(simpl; lia)) as (t & Ht & Hparse).
    cbn [List.map] in *. rewrite join_cons. unfold dumps_member at 1. cbn [fst snd].
    rewrite !append_assoc, quote_append. eexists. split; [reflexivity|].
    cbn [json.parse_members]. rewrite scanstring_escape. simpl.
    rewrite skip_ws_dumps.
    rewrite Hv; [| lia | apply delimited_punctuation; simpl; auto].
    rewrite Ht. simpl. now rewrite Hparse.
Qed.

Lemma dumps_Arr (l : list json.value) :
  json.dumps (json.Arr l) = ("[" ++ json.join ", " (List.map json.dumps l) ++ "]")%string.
Proof. reflexivity. Qed.

Lemma dumps_Obj (l : list (string * json.value)) :
  json.dumps (json.Obj l) = ("{" ++ json.join ", " (List.map dumps_member l) ++ "}")%string.
Proof. reflexivity. Qed.

(** Every value is read back from its encoding. *)
Lemma parse_value_dumps (v : json.value) : reads_back v.
Proof.
  induction v as [|b|z|s|l IH|l IH] using value_ind'; try apply reads_back_atoms.
  - intros [|fuel] rest Hfuel _; [simpl in Hfuel; lia|].
    rewrite dumps_Arr.
    destruct l as [|x l]; [reflexivity|]. simpl in Hfuel.
    pose proof (parse_elements_join (x :: l) ltac:(discriminate) IH fuel rest ltac:(simpl; lia)) as Hparse.
    destruct (join_dumps_head x l (String "]" rest)) as (c & t & Heq & Hc).
    rewrite !append_assoc. cbn [String.append json.parse_value].
    change (Ascii.eqb "[" json.dquote) with false. change (Ascii.eqb "[" "{") with false.
    change (Ascii.eqb "[" "[") with true. cbn iota.
    rewrite Heq in *.
    rewrite skip_ws_value_head by exact Hc.
    unfold is_value_head in Hc.
    destruct (Ascii.eqb c "]"); [now rewrite andb_false_r in Hc|].
    now rewrite Hparse.
  - intros [|fuel] rest Hfuel _; [simpl in Hfuel; lia|].
    rewrite dumps_Obj.
    destruct l as [|kv l]; [reflexivity|]. simpl in Hfuel.
    destruct (parse_members_join (kv :: l) ltac:(discriminate) IH fuel rest ltac:(simpl; lia))
      as (t & Ht & Hparse).
    rewrite !append_assoc. cbn [String.append]. rewrite Ht. simpl. now rewrite Hparse.
Qed.

Lemma length_join_elements (l : list json.value) :
  Forall (fun x => (size x <= String.length (json.dumps x))%nat) l ->
  (list_sum (List.map (fun x => S (size x)) l)
   <= S (String.length (json.join ", " (List.map json.dumps l))))%nat.
Proof.
  induction 1 as [|x l Hx Hl IH]; [simpl; lia|].
  destruct l as [|y l]; cbn [List.map] in *.
  - rewrite join_one. simpl. lia.
  - rewrite join_cons, !length_append. simpl in *. lia.
Qed.

Lemma length_join_members (l : list (string * json.value)) :
  Forall (fun kv => (size kv.2 <= String.length (json.dumps kv.2))%nat) l ->
  (list_sum (List.map (fun kv => S (size kv.2)) l)
   <= S (String.length (json.join ", " (List.map dumps_member l))))%nat.
Proof.
  induction 1 as [|[k v] l Hx Hl IH]; [simpl; lia|].
  destruct l as [|y l]; cbn [List.map] in *.
  - rewrite join_one. unfold dumps_member. rewrite !length_append. simpl in *. lia.
  - rewrite join_cons. unfold dumps_member at 1. rewrite !length_append. simpl in *. lia.
Qed.

Lemma size_le_length (v : json.value) : (size v <= String.length (json.dumps v))%nat.
Proof.
  induction v as [|b|z|s|l IH|l IH] using value_ind'.
  - simpl. lia.
  - destruct b; simpl; lia.
  - destruct (str_of_int_head z) as (c & s & Hs & _). cbn [json.dumps]. rewrite Hs. simpl. lia.
  - simpl. lia.
  - rewrite dumps_Arr, !length_append. pose proof (length_join_elements l IH). simpl in *. lia.
  - rewrite dumps_Obj, !length_append. pose proof (length_join_members l IH). simpl in *. lia.
Qed.

Lemma ws_delimited (w : string) : json.skip_ws w = EmptyString -> delimited w.
Proof.
  destruct w as [|c w]; [exact (fun _ => I)|].
  cbn [json.skip_ws]. destruct (json.is_ws c) eqn:E; [|discriminate]. intros _.
  revert E. unfold delimited.
  destruct c as [[] [] [] [] [] [] [] []]; intros E; try discriminate E; now split.
Qed.

(** [json.loads(json.dumps(v))] is [v], also with white space after the
    encoding. *)
Lemma loads_dumps (v : json.value) (w : string) :
  json.skip_ws w = EmptyString -> json.loads (json.dumps v ++ w) = Some v.
Proof.
  intros Hw. unfold json.loads. rewrite skip_ws_dumps.
  rewrite parse_value_dumps; [now rewrite Hw | | now apply ws_delimited].
  rewrite length_append. pose proof (size_le_length v). lia.
Qed.

(** *** UTF-8 *)

Lemma str_encode_printable (c : ascii) (s : string) :
  printable c = true -> str_encode (String c s) = byte_of_ascii c :: str_encode s.
Proof.
  destruct c as [[] [] [] [] [] [] [] []]; intros H; try discriminate H; reflexivity.
Qed.

Lemma bytes_decode_printable (c : ascii) (b : bytes) :
  printable c = true ->
  bytes_decode (byte_of_ascii c :: b)
  = match bytes_decode b with Some t => Some (String c t) | None => None end.
Proof.
  destruct c as [[] [] [] [] [] [] [] []]; intros H; try discriminate H; reflexivity.
Qed.

Lemma printable_not_LF (c : ascii) : printable c = true -> byte_of_ascii c <> LF.
Proof.
  destruct c as [[] [] [] [] [] [] [] []]; intros H; try discriminate H; discriminate.
Qed.

Lemma bytes_decode_str_encode (s : string) (b : bytes) :
  forallb_string printable s = true ->
  bytes_decode (str_encode s ++ b)
  = match bytes_decode b with Some t => Some (s ++ t)%string | None => None end.
Proof.
  induction s as [|c s IH]; cbn [forallb_string]; intros H.
  - cbn. now destruct (bytes_decode b).
  - apply andb_prop in H as [Hc Hs].
    rewrite str_encode_printable by exact Hc.
    change ((byte_of_ascii c :: str_encode s) ++ b) with (byte_of_ascii c :: (str_encode s ++ b)).
    rewrite bytes_decode_printable, IH by assumption.
    now destruct (bytes_decode b).
Qed.

Lemma str_encode_no_LF (s : string) :
  forallb_string printable s = true -> ~ In LF (str_encode s).
Proof.
  induction s as [|c s IH]; cbn [forallb_string]; intros H; [exact (fun x => x)|].
  apply andb_prop in H as [Hc Hs].
  rewrite str_encode_printable by exact Hc.
  intros [E|E]; [now apply (printable_not_LF c) | now apply IH].
Qed.

(** ** The ISO format of a [datetime] *)

Section iso_format.
Local Open Scope string_scope.
Local Open Scope N_scope.

Lemma dec_val_digit_char (d : N) : d < 10 -> iso.dec_val (json.digit_char d) = Some d.
Proof.
  intros H.
  assert (E : d = 0 \/ d = 1 \/ d = 2 \/ d = 3 \/ d = 4 \/ d = 5 \/ d = 6 \/ d = 7 \/ d = 8 \/ d = 9)
    by lia.
  repeat (destruct E as [->|E]; [reflexivity|]). now subst.
Qed.

Lemma take_digits_chars (ds : list N) (rest : string) :
  Forall (fun d => d < 10) ds ->
  iso.take_digits (List.length ds) (digit_chars ds ++ rest) = (ds, rest).
Proof.
  induction 1 as [|d ds Hd _ IH]; [reflexivity|].
  cbn [List.length digit_chars fold_right String.append iso.take_digits].
  rewrite dec_val_digit_char by exact Hd.
  fold (digit_chars ds). now rewrite IH.
Qed.

Lemma digits_chars (lo : nat) (ds : list N) (rest : string) :
  Forall (fun d => d < 10) ds -> (lo <= List.length ds)%nat ->
  iso.digits lo (List.length ds) (digit_chars ds ++ rest) = Some (ds, rest).
Proof.
  intros Hds Hlo. unfold iso.digits. rewrite take_digits_chars by exact Hds.
  apply Nat.leb_le in Hlo. now rewrite Hlo.
Qed.

Lemma take_digits_no_digit (k : nat) (s : string) :
  no_digit s -> iso.take_digits k s = ([], s).
Proof.
  destruct k as [|k]; [reflexivity|]. destruct s as [|c s]; [reflexivity|].
  cbn. now intros ->.
Qed.

Lemma pad2_chars n : iso.pad2 n = digit_chars (digits2 n).
Proof. reflexivity. Qed.
Lemma pad4_chars n : iso.pad4 n = digit_chars (digits4 n).
Proof. reflexivity. Qed.
Lemma pad6_chars n : iso.pad6 n = digit_chars (digits6 n).
Proof. reflexivity. Qed.

Lemma digits2_ok n :
  n < 100 -> Forall (fun d => d < 10) (digits2 n) /\ iso.number_of (digits2 n) = n.
Proof.
  intros H. unfold digits2, iso.number_of. cbn [fold_left]. split.
  - repeat constructor; [apply N.Div0.div_lt_upper_bound; lia | apply N.mod_lt; lia].
  - pose proof (N.div_mod n 10). lia.
Qed.

Lemma digits4_ok n :
  n < 10000 -> Forall (fun d => d < 10) (digits4 n) /\ iso.number_of (digits4 n) = n.
Proof.
  intros H. unfold digits4.
  assert (H1 : n / 100 < 100) by (apply N.Div0.div_lt_upper_bound; lia).
  assert (H2 : n mod 100 < 100) by (apply N.mod_lt; lia).
  destruct (digits2_ok _ H1) as [F1 E1], (digits2_ok _ H2) as [F2 E2]. split.
  - apply Forall_app; now split.
  - unfold digits2, iso.number_of in *. cbn [fold_left app] in *.
    pose proof (N.div_mod n 100). lia.
Qed.

Lemma digits6_ok n :
  n < 1000000 -> Forall (fun d => d < 10) (digits6 n) /\ iso.number_of (digits6 n) = n.
Proof.
  intros H. unfold digits6.
  assert (H1 : n / 10000 < 100) by (apply N.Div0.div_lt_upper_bound; lia).
  assert (H2 : (n / 100) mod 100 < 100) by (apply N.mod_lt; lia).
  assert (H3 : n mod 100 < 100) by (apply N.mod_lt; lia).
  destruct (digits2_ok _ H1) as [F1 E1], (digits2_ok _ H2) as [F2 E2],
    (digits2_ok _ H3) as [F3 E3]. split.
  - repeat (apply Forall_app; split); assumption.
  - unfold digits2, iso.number_of in *. cbn [fold_left app] in *.
    pose proof (N.div_mod n 100). pose proof (N.div_mod (n / 100) 100).
    assert (n / 100 / 100 = n / 10000) by (rewrite N.Div0.div_div; reflexivity).
    lia.
Qed.

End iso_format.

Section iso_parse.
Local Open Scope string_scope.
Local Open Scope N_scope.

Lemma expect_head (c : ascii) (t : string) : iso.expect c (String c t) = Some t.
Proof. cbn [iso.expect]. now rewrite Ascii.eqb_refl. Qed.

Lemma sign_led_no_digit s : sign_led s -> no_digit s.
Proof. intros [->|[t [->| ->]]]; reflexivity. Qed.

Lemma sign_led_no_dot s : sign_led s -> iso.expect "." s = None.
Proof. intros [->|[t [->| ->]]]; reflexivity. Qed.

Lemma sign_led_no_colon s : sign_led s -> iso.expect ":" s = None.
Proof. intros [->|[t [->| ->]]]; reflexivity. Qed.

Lemma parse_seconds_iso (se us : N) (tz : string) :
  se < 100 -> us < 1000000 -> sign_led tz ->
  iso.parse_seconds (String ":" (iso.pad2 se ++ fraction us ++ tz)) = Some (se, us, tz).
Proof.
  intros Hse Hus Htz.
  destruct (digits2_ok se Hse) as [F2 E2]. destruct (digits6_ok us Hus) as [F6 E6].
  unfold iso.parse_seconds. rewrite expect_head.
  rewrite pad2_chars.
  rewrite (digits_chars 1 (digits2 se)) by (auto; simpl; lia).
  rewrite E2. unfold fraction. destruct (N.eqb_spec us 0) as [->|Hne].
  - cbn [String.append]. now rewrite sign_led_no_dot.
  - cbn [String.append]. rewrite expect_head. rewrite pad6_chars.
    rewrite (digits_chars 1 (digits6 us)) by (auto; simpl; lia).
    rewrite take_digits_no_digit by now apply sign_led_no_digit.
    rewrite E6. cbn [List.length digits6 digits2 app Nat.sub N.of_nat].
    now rewrite N.pow_0_r, N.mul_1_r.
Qed.

Lemma parse_seconds_iso_end (se us : N) :
  se < 100 -> us < 1000000 ->
  iso.parse_seconds (String ":" (iso.pad2 se ++ fraction us)) = Some (se, us, EmptyString).
Proof.
  intros Hse Hus.
  rewrite <- (append_nil_r (fraction us)).
  apply parse_seconds_iso; auto. now left.
Qed.

Lemma format_offset_sign_led off : sign_led (iso.format_offset off).
Proof.
  right. unfold iso.format_offset. destruct (off <? 0)%Z; eexists; cbn [String.append]; eauto.
Qed.

(** An offset of whole minutes is written as [+HH:MM]. *)
Lemma format_offset_minutes (k : Z) : iso.format_offset (minutes k) = format_minutes k.
Proof.
  unfold iso.format_offset, format_minutes, minutes.
  assert (Ea : Z.to_N (Z.abs (k * 60000000)) = Z.to_N (Z.abs k) * 60000000) by lia.
  rewrite Ea. set (a := Z.to_N (Z.abs k)).
  assert (Es : (k * 60000000 <? 0)%Z = (k <? 0)%Z).
  { destruct (Z.ltb_spec k 0), (Z.ltb_spec (k * 60000000) 0); lia || reflexivity. }
  rewrite Es.
  change 3600000000 with (60 * 60000000).
  rewrite N.Div0.div_mul_cancel_r by lia.
  rewrite N.Div0.mul_mod_distr_r, N.div_mul by lia.
  rewrite N.Div0.mod_mul. cbn [N.eqb].
  now rewrite append_nil_r.
Qed.

Lemma parse_tz_minutes (k : Z) :
  (-1440 < k < 1440)%Z ->
  iso.parse_tz (format_minutes k) = Some (Some (minutes k), EmptyString).
Proof.
  intros Hoff. unfold format_minutes.
  set (a := Z.to_N (Z.abs k)).
  assert (Ha : a < 1440) by (unfold a; lia).
  assert (Hh : a / 60 < 100) by (apply N.Div0.div_lt_upper_bound; lia).
  assert (Hm : a mod 60 < 100) by (pose proof (N.mod_lt a 60); lia).
  destruct (digits2_ok _ Hh) as [Fh Eh]. destruct (digits2_ok _ Hm) as [Fm Em].
  assert (Hval : Z.of_N (60 * (a / 60) + a mod 60) = Z.abs k).
  { rewrite <- N.div_mod by lia. unfold a. lia. }
  unfold iso.parse_tz.
  destruct (Z.ltb_spec k 0) as [Hneg|Hpos]; cbn [String.append];
    cbn [Ascii.eqb Bool.eqb andb orb];
    rewrite pad2_chars, (digits_chars 2 (digits2 (a / 60))) by (auto; simpl; lia);
    cbn [String.append]; rewrite expect_head;
    rewrite pad2_chars, <- (append_nil_r (digit_chars (digits2 (a mod 60))));
    rewrite (digits_chars 2 (digits2 (a mod 60))) by (auto; simpl; lia);
    rewrite Eh, Em, Hval; do 4 f_equal; lia.
Qed.

(** The offsets of whole minutes that [timezone] accepts. *)
Lemma minute_offset_minutes (off : Z) :
  (- 86400000000 < off < 86400000000)%Z -> (off mod 60000000 = 0)%Z ->
  exists k, off = minutes k /\ (-1440 < k < 1440)%Z.
Proof.
  intros Hr Hm. exists (off / 60000000)%Z. unfold minutes.
  pose proof (Z.div_mod off 60000000 ltac:(lia)) as E. rewrite Hm in E.
  split; lia.
Qed.

Lemma valid_datetime_bounds (d : datetime) :
  iso.valid_datetime d = true ->
  year d < 10000 /\ month d < 100 /\ day d < 100 /\ hour d < 100 /\ minute d < 100
  /\ second d < 100 /\ microsecond d < 1000000
  /\ match tzinfo d with
     | Some off => (- 86400000000 < off < 86400000000)%Z
     | None => True
     end.
Proof.
  unfold iso.valid_datetime. intros H.
  apply andb_prop in H as [H Htz].
  repeat (apply andb_prop in H as [H ?]).
  repeat match goal with
         | H : (_ <=? _) = true |- _ => apply N.leb_le in H
         end.
  assert (Hd : days_in_month (year d) (month d) <= 31).
  { unfold days_in_month.
    repeat match goal with |- context [if ?b then _ else _] => destruct b end; lia. }
  repeat split; try lia.
  destruct (tzinfo d); [|exact I].
  apply andb_prop in Htz as [Hlo Hhi]. lia.
Qed.

(** [parse_datetime] reads back what [isoformat] writes, for a
    [datetime] that is naive or has an offset of whole minutes. *)
Lemma parse_datetime_isoformat (d : datetime) :
  minute_datetime d = true -> iso.parse_datetime (iso.isoformat d) = Some d.
Proof.
  intros Hmd. apply andb_prop in Hmd as [Hvalid Hmin].
  destruct (valid_datetime_bounds d Hvalid) as (Hy & Hmo & Hd & Hh & Hmi & Hs & Hus & Htz).
  destruct (digits4_ok _ Hy) as [Fy Ey]. destruct (digits2_ok _ Hmo) as [Fmo Emo].
  destruct (digits2_ok _ Hd) as [Fd Ed]. destruct (digits2_ok _ Hh) as [Fh Eh].
  destruct (digits2_ok _ Hmi) as [Fmi Emi].
  unfold iso.parse_datetime, iso.isoformat.
  rewrite pad4_chars, (digits_chars 4 (digits4 (year d))) by (auto; simpl; lia).
  cbn [String.append]. rewrite expect_head.
  rewrite pad2_chars, (digits_chars 1 (digits2 (month d))) by (auto; simpl; lia).
  cbn [String.append]. rewrite expect_head.
  rewrite pad2_chars, (digits_chars 1 (digits2 (day d))) by (auto; simpl; lia).
  cbn [String.append]. rewrite expect_head.
  rewrite pad2_chars, (digits_chars 1 (digits2 (hour d))) by (auto; simpl; lia).
  cbn [String.append]. rewrite expect_head.
  rewrite pad2_chars, (digits_chars 1 (digits2 (minute d))) by (auto; simpl; lia).
  rewrite Ey, Emo, Ed, Eh, Emi.
  destruct d as [y mo dd hh mi se us [off|]];
    cbn [year month day hour minute second microsecond tzinfo String.append] in *;
    change (if us =? 0 then EmptyString else String "." (iso.pad6 us)) with (fraction us).
  - unfold minute_offset in Hmin. cbn [tzinfo] in Hmin. apply Z.eqb_eq in Hmin.
    destruct (minute_offset_minutes off Htz Hmin) as (k & -> & Hk).
    rewrite parse_seconds_iso by (auto using format_offset_sign_led).
    rewrite format_offset_minutes, parse_tz_minutes by exact Hk.
    cbn [iso.at_end andb]. now rewrite Hvalid.
  - rewrite parse_seconds_iso by (auto; now left).
    cbn [iso.parse_tz iso.at_end andb]. now rewrite Hvalid.
Qed.

End iso_parse.

(** ** The metadata codec *)

Lemma printable_join (l : list string) :
  Forall (fun s => forallb_string printable s = true) l ->
  forallb_string printable (json.join ", " l) = true.
Proof.
  induction 1 as [|x l Hx Hl IH]; [reflexivity|].
  destruct l as [|y l]; [now rewrite join_one|].
  rewrite join_cons, !forallb_string_append, Hx, IH. reflexivity.
Qed.

Lemma printable_dumps (v : json.value) : forallb_string printable (json.dumps v) = true.
Proof.
  induction v as [|b|z|s|l IH|l IH] using value_ind'.
  - reflexivity.
  - now destruct b.
  - apply printable_str_of_int.
  - apply printable_quote.
  - rewrite dumps_Arr, !forallb_string_append, printable_join; [reflexivity|].
    now apply Forall_map.
  - rewrite dumps_Obj, !forallb_string_append, printable_join; [reflexivity|].
    apply Forall_map. eapply Forall_impl; [exact IH|].
    intros [k v] Hv. unfold dumps_member. cbn [fst snd] in *.
    now rewrite !forallb_string_append, printable_quote, Hv.
Qed.

Lemma parse_raw_dumps {A} (validate : pydantic.dict -> option A) (o : pydantic.dict)
    (a : A) (w : bytes) :
  line_end w -> validate o = Some a ->
  pydantic.parse_raw validate (str_encode (json.dumps (json.Obj o)) ++ w) = pydantic.Valid a.
Proof.
  intros Hw Ha. unfold pydantic.parse_raw, pydantic.parse_str.
  rewrite bytes_decode_str_encode by apply printable_dumps.
  destruct Hw as [-> | ->].
  - cbn [bytes_decode]. rewrite loads_dumps by reflexivity. now rewrite Ha.
  - change (bytes_decode [LF]) with (Some (String "010" EmptyString)). cbn iota.
    rewrite loads_dumps by reflexivity. now rewrite Ha.
Qed.

Lemma PasteMeta_validate_dict (m : helpers.PasteMeta) :
  minute_datetime (helpers.creation_dt m) = true ->
  match helpers.expire_dt m with Some e => minute_datetime e = true | None => True end ->
  helpers.PasteMeta_validate (PasteMeta_dict m) = Some m
  /\ helpers.PasteMetaVersion_validate (PasteMeta_dict m) = Some (helpers.version m).
Proof.
  intros Hc He. destruct m as [v i c e]. cbn [helpers.version helpers.paste_id
    helpers.creation_dt helpers.expire_dt] in *.
  split; [|reflexivity].
  set (D := PasteMeta_dict (helpers.mk_PasteMeta v i c e)).
  assert (G1 : json.get "version" D = Some (json.Int v)) by reflexivity.
  assert (G2 : json.get "paste_id" D = Some (json.Str i)) by reflexivity.
  assert (G3 : json.get "creation_dt" D = Some (json.Str (iso.isoformat c))) by reflexivity.
  assert (G4 : json.get "expire_dt" D = Some (pydantic.optional_datetime_value e)) by reflexivity.
  unfold helpers.PasteMeta_validate, pydantic.int_field, pydantic.str_field,
    pydantic.datetime_field, pydantic.optional_datetime_field.
  rewrite G1, G2, G3, G4, parse_datetime_isoformat by exact Hc.
  destruct e as [e|]; cbn [pydantic.optional_datetime_value]; [|reflexivity].
  now rewrite parse_datetime_isoformat by exact He.
Qed.

Lemma PasteMetaVersion_validate_dict (m : helpers.PasteMeta) :
  helpers.PasteMetaVersion_validate (PasteMeta_dict m) = Some (helpers.version m).
Proof. now destruct m. Qed.

(** With another version, the encoding of any [PasteMeta] is refused for
    its version. *)
Lemma get_paste_meta_json_other_version (m : helpers.PasteMeta) (w : bytes) :
  line_end w -> helpers.version m <> CURRENT_PASTE_META_VERSION ->
  helpers.get_paste_meta (str_encode (helpers.PasteMeta_json m) ++ w)
  = Raise (PasteMetaVersionInvalid (version_invalid_message (helpers.version m))).
Proof.
  intros Hw Hv. apply get_paste_meta_with_other_version; [|exact Hv].
  unfold helpers.PasteMetaVersion_parse_raw.
  change (helpers.PasteMeta_json m) with (json.dumps (json.Obj (PasteMeta_dict m))).
  apply parse_raw_dumps; [exact Hw | apply PasteMetaVersion_validate_dict].
Qed.

Lemma get_paste_meta_json (m : helpers.PasteMeta) (w : bytes) :
  line_end w -> valid_meta m ->
  helpers.get_paste_meta (str_encode (helpers.PasteMeta_json m) ++ w) = Return m.
Proof.
  intros Hw (Hv & Hc & He).
  destruct (PasteMeta_validate_dict m Hc He) as [Hfull Hver].
  unfold helpers.get_paste_meta, helpers.get_paste_meta_with,
    helpers.PasteMetaVersion_parse_raw, helpers.PasteMeta_parse_raw.
  change (helpers.PasteMeta_json m) with (json.dumps (json.Obj (PasteMeta_dict m))).
  rewrite (parse_raw_dumps _ _ _ w Hw Hver), (parse_raw_dumps _ _ _ w Hw Hfull).
  rewrite Hv. reflexivity.
Qed.

Lemma PasteMeta_json_no_LF (m : helpers.PasteMeta) :
  ~ In LF (str_encode (helpers.PasteMeta_json m)).
Proof. apply str_encode_no_LF, printable_dumps. Qed.

(** C5, as stated, fails. The [PasteMeta] whose [expire_dt] is
    2022-10-01T00:00:00+00:00:30 is valid: the constructors of [datetime]
    and [timezone] accept it. [isoformat] writes the offset as
    [+00:00:30], the parser of pydantic does not read it, and
    [get_paste_meta] on the encoding raises [PasteMetaUnprocessable]. *)
Lemma get_paste_meta_offset_30s :
  helpers.version paste_offset_30s = CURRENT_PASTE_META_VERSION
  /\ iso.valid_datetime (helpers.creation_dt paste_offset_30s) = true
  /\ option_map iso.valid_datetime (helpers.expire_dt paste_offset_30s) = Some true
  /\ option_map iso.isoformat (helpers.expire_dt paste_offset_30s)
     = Some "2022-10-01T00:00:00+00:00:30"
  /\ helpers.get_paste_meta (str_encode (helpers.PasteMeta_json paste_offset_30s))
     = Raise (PasteMetaUnprocessable "paste meta cannot be loaded")
  /\ helpers.get_paste_meta (str_encode (helpers.PasteMeta_json paste_offset_30s) ++ [LF])
     = Raise (PasteMetaUnprocessable "paste meta cannot be loaded").
Proof. vm_compute. repeat split; reflexivity. Qed.

(** C5, amended. The codec of the metadata. For a [PasteMeta] with the
    current version and dates that are naive or have an offset from UTC
    of whole minutes, [get_paste_meta] on the encoding
    [paste_meta.json().encode()], with or without the line feed that
    ends the line in the file, gives the [PasteMeta] back; and the
    encoding is made of printable ASCII characters: it has no line
    feed. *)
Theorem metadata_codec_round_trip (m : helpers.PasteMeta) :
  valid_meta m ->
  helpers.get_paste_meta (str_encode (helpers.PasteMeta_json m)) = Return m
  /\ helpers.get_paste_meta (str_encode (helpers.PasteMeta_json m) ++ [LF]) = Return m
  /\ forallb_string printable (helpers.PasteMeta_json m) = true
  /\ ~ In LF (str_encode (helpers.PasteMeta_json m)).
Proof.
  intros Hm. repeat split.
  - rewrite <- (app_nil_r (str_encode _)). apply get_paste_meta_json; [now left | exact Hm].
  - apply get_paste_meta_json; [now right | exact Hm].
  - apply printable_dumps.
  - apply PasteMeta_json_no_LF.
Qed.

Lemma metadata_codec_round_trip_witness :
  helpers.get_paste_meta (str_encode (helpers.PasteMeta_json paste_sample) ++ [LF])
  = Return paste_sample.
Proof.
  apply (metadata_codec_round_trip paste_sample).
  repeat split; reflexivity.
Defined.

(** ** The stored file *)

Lemma readline_header (header rest : bytes) :
  ~ In LF header -> readline (header ++ LF :: rest) = (header ++ [LF], rest).
Proof.
  induction header as [|x header IH]; intros Hno; [reflexivity|].
  cbn [app readline].
  destruct (Byte.eqb x LF) eqn:E.
  - apply Byte.byte_dec_bl in E. exfalso. apply Hno. now left.
  - rewrite IH; [reflexivity|]. intros H. apply Hno. now right.
Qed.

Lemma concat_readlines (b : bytes) : List.concat (readlines b) = b.
Proof.
  induction b as [|x b IH]; [reflexivity|].
  cbn [readlines]. destruct (Byte.eqb x LF).
  - cbn. now rewrite IH.
  - destruct (readlines b) as [|l ls]; cbn in *; now rewrite <- IH.
Qed.

Lemma fold_left_write (chunks : list bytes) (fo : bytes) :
  fold_left (fun fo chunk => fo ++ chunk) chunks fo = fo ++ List.concat chunks.
Proof.
  revert fo. induction chunks as [|c chunks IH]; intros fo; cbn.
  - now rewrite app_nil_r.
  - now rewrite IH, <- app_assoc.
Qed.

(** The bytes that [write_paste] writes: the encoded metadata, a line
    feed, and the content. *)
Lemma write_paste_unfold (p : Path) (m : helpers.PasteMeta) (c : helpers.content) (fs : FS) :
  helpers.write_paste p m c fs
  = match helpers.open_wb p fs with
    | Return _ =>
        (Return tt,
         mk_FS (<[p := str_encode (helpers.PasteMeta_json m) ++ LF :: helpers.content_bytes c]>
                  (files fs)) (dirs fs))
    | Raise e => (Raise e, fs)
    end.
Proof.
  unfold helpers.write_paste. destruct (helpers.open_wb p fs); [|reflexivity].
  do 3 f_equal. destruct c as [b|chunks]; cbn [helpers.content_bytes].
  - now rewrite <- app_assoc.
  - now rewrite fold_left_write, <- app_assoc.
Qed.

(** [aio_open(p, "wb")] raises an [OSError] or nothing. *)
Lemma open_wb_raises (p : Path) (fs : FS) (e : exn) :
  helpers.open_wb p fs = Raise e -> is_OSError e = true /\ files fs !! p = None.
Proof.
  unfold helpers.open_wb. destruct (files fs !! p); [discriminate|].
  destruct (resolve p fs) as [e'|] eqn:E.
  - intros [= <-]. split; [now apply (walk_OSError _ _ _ E) | reflexivity].
  - destruct (isdir p fs); [|discriminate]. now intros [= <-].
Qed.

(** It opens the file where the directory is there and the path is not
    one of a directory. *)
Lemma open_wb_returns (p : Path) (fs : FS) :
  resolve p fs = None -> isdir p fs = false -> helpers.open_wb p fs = Return tt.
Proof.
  intros Hr Hd. unfold helpers.open_wb. rewrite Hr, Hd. now destruct (files fs !! p).
Qed.

Lemma write_paste_returns (p : Path) (m : helpers.PasteMeta) (c : helpers.content) (fs : FS) :
  (helpers.write_paste p m c fs).1 = Return tt ->
  (helpers.write_paste p m c fs).2
  = mk_FS (<[p := str_encode (helpers.PasteMeta_json m) ++ LF :: helpers.content_bytes c]>
             (files fs)) (dirs fs).
Proof.
  rewrite write_paste_unfold. destruct (helpers.open_wb p fs); [reflexivity | discriminate].
Qed.

Lemma write_paste_raises (p : Path) (m : helpers.PasteMeta) (c : helpers.content) (fs : FS)
    (e : exn) :
  (helpers.write_paste p m c fs).1 = Raise e ->
  (helpers.write_paste p m c fs).2 = fs /\ is_OSError e = true /\ files fs !! p = None.
Proof.
  rewrite write_paste_unfold. destruct (helpers.open_wb p fs) as [[]|e'] eqn:E; [discriminate|].
  intros [= <-]. split; [reflexivity|]. now apply open_wb_raises.
Qed.

Lemma write_paste_file (p : Path) (m : helpers.PasteMeta) (c : helpers.content) (fs : FS) :
  (helpers.write_paste p m c fs).1 = Return tt ->
  files (helpers.write_paste p m c fs).2 !! p
  = Some (str_encode (helpers.PasteMeta_json m) ++ LF :: helpers.content_bytes c).
Proof.
  intros H. rewrite (write_paste_returns _ _ _ _ H). cbn [files]. apply lookup_insert_eq.
Qed.

Lemma read_paste_content_written (p : Path) (m : helpers.PasteMeta) (c : helpers.content)
    (fs : FS) :
  (helpers.write_paste p m c fs).1 = Return tt ->
  helpers.read_paste_content p (helpers.write_paste p m c fs).2
  = Return (readlines (helpers.content_bytes c)).
Proof.
  intros H. unfold helpers.read_paste_content, helpers.open_rb.
  rewrite (write_paste_file _ _ _ _ H). cbn [bind].
  now rewrite readline_header by apply PasteMeta_json_no_LF.
Qed.

Lemma read_paste_meta_written (p : Path) (m : helpers.PasteMeta) (c : helpers.content)
    (fs : FS) :
  (helpers.write_paste p m c fs).1 = Return tt ->
  helpers.read_paste_meta p (helpers.write_paste p m c fs).2
  = helpers.get_paste_meta (str_encode (helpers.PasteMeta_json m) ++ [LF]).
Proof.
  intros H. rewrite read_paste_meta_unfold. unfold helpers.open_rb.
  rewrite (write_paste_file _ _ _ _ H). cbn [bind].
  now rewrite readline_header by apply PasteMeta_json_no_LF.
Qed.

(** C1, as stated, fails: the paste whose [expire_dt] has the offset of
    30 seconds from UTC is written, into a directory that is there, and
    reading the metadata back raises [PasteMetaUnprocessable]. *)
Lemma read_paste_meta_offset_30s :
  (helpers.write_paste ["/"; "srv"; "q7"; "Zt_0-abc"] paste_offset_30s
     (helpers.Buffer (list_byte_of_string "hello")) fs_srv).1 = Return tt
  /\ helpers.read_paste_meta ["/"; "srv"; "q7"; "Zt_0-abc"]
       (helpers.write_paste ["/"; "srv"; "q7"; "Zt_0-abc"] paste_offset_30s
          (helpers.Buffer (list_byte_of_string "hello")) fs_srv).2
     = Raise (PasteMetaUnprocessable "paste meta cannot be loaded")
  /\ helpers.read_paste_meta ["/"; "srv"; "q7"; "Zt_0-abc"]
       (helpers.write_paste ["/"; "srv"; "q7"; "Zt_0-abc"] paste_offset_30s
          (helpers.Buffer (list_byte_of_string "hello")) fs_srv).2
     <> Return paste_offset_30s.
Proof.
  assert (H : (helpers.write_paste ["/"; "srv"; "q7"; "Zt_0-abc"] paste_offset_30s
                 (helpers.Buffer (list_byte_of_string "hello")) fs_srv).1 = Return tt)
    by reflexivity.
  rewrite (read_paste_meta_written _ _ _ _ H).
  split; [exact H|]. split; [vm_compute; reflexivity | discriminate].
Qed.

(** C1, amended. [write_paste] opens the file where its directory is
    there and the path is not one of a directory; otherwise it raises an
    [OSError] and leaves the file system as it is. When it returns, the
    file is the encoded metadata, which has no line feed, then a line
    feed and the content; the chunks of [read_paste_content] are the
    lines of the content, and make it up; [read_paste_meta] gives the
    metadata back when it has the current version and dates that are
    naive or have an offset of whole minutes, and raises
    [PasteMetaVersionInvalid] when it has another version. *)
Theorem storage_round_trip (p : Path) (m : helpers.PasteMeta) (c : helpers.content) (fs : FS) :
  let out := helpers.write_paste p m c fs in
  (resolve p fs = None -> isdir p fs = false -> out.1 = Return tt)
  /\ (forall e, out.1 = Raise e -> out.2 = fs /\ is_OSError e = true)
  /\ ~ In LF (str_encode (helpers.PasteMeta_json m))
  /\ (out.1 = Return tt ->
      files out.2 !! p
      = Some (str_encode (helpers.PasteMeta_json m) ++ LF :: helpers.content_bytes c)
      /\ (exists chunks,
            helpers.read_paste_content p out.2 = Return chunks
            /\ List.concat chunks = helpers.content_bytes c)
      /\ (valid_meta m -> helpers.read_paste_meta p out.2 = Return m)
      /\ (helpers.version m <> CURRENT_PASTE_META_VERSION ->
          helpers.read_paste_meta p out.2
          = Raise (PasteMetaVersionInvalid (version_invalid_message (helpers.version m))))).
Proof.
  intros out. subst out. split.
  { intros Hr Hd. rewrite write_paste_unfold. now rewrite (open_wb_returns p fs Hr Hd). }
  split.
  { intros e He. destruct (write_paste_raises _ _ _ _ _ He) as (H1 & H2 & _). now split. }
  split; [apply PasteMeta_json_no_LF|]. intros Hret.
  split; [now apply write_paste_file|]. split; [|split].
  - exists (readlines (helpers.content_bytes c)).
    split; [now apply read_paste_content_written | apply concat_readlines].
  - intros Hm. rewrite read_paste_meta_written by exact Hret.
    apply get_paste_meta_json; [now right | exact Hm].
  - intros Hv. rewrite read_paste_meta_written by exact Hret.
    apply get_paste_meta_json_other_version; [now right | exact Hv].
Qed.

Lemma storage_round_trip_witness :
  helpers.read_paste_meta ["/"; "srv"; "q7"; "Zt_0-abc"]
    (helpers.write_paste ["/"; "srv"; "q7"; "Zt_0-abc"] paste_sample
       (helpers.Generator [list_byte_of_string "hel"; list_byte_of_string "lo"]) fs_srv).2
  = Return paste_sample.
Proof.
  destruct (storage_round_trip ["/"; "srv"; "q7"; "Zt_0-abc"] paste_sample
              (helpers.Generator [list_byte_of_string "hel"; list_byte_of_string "lo"]) fs_srv)
    as (_ & _ & _ & H).
  destruct (H eq_refl) as (_ & _ & Hmeta & _).
  apply Hmeta. repeat split; reflexivity.
Defined.

(** * More properties *)

(** ** Paths *)

Lemma split_sep_no_slash (s : string) : no_slash s = true -> split_sep s = [s].
Proof.
  unfold no_slash. induction s as [|c s IH]; [reflexivity|]. cbn [forallb_string split_sep].
  intros H. apply andb_prop in H as [Hc Hs]. apply negb_true_iff in Hc.
  now rewrite Hc, IH.
Qed.

(** A string with no slash, neither empty nor [.], is one relative path
    component; the string [.] is none. *)
Lemma joinpath_component (p : Path) (s : string) :
  no_slash s = true -> s <> EmptyString ->
  p // s = if String.eqb s "." then p else p ++ [s].
Proof.
  intros Hs Hne. destruct s as [|c s]; [contradiction|].
  pose proof (split_sep_no_slash _ Hs) as Hsplit.
  unfold no_slash in Hs. cbn [forallb_string] in Hs. apply andb_prop in Hs as [Hc _].
  apply negb_true_iff in Hc.
  unfold joinpath, is_absolute_str, parse_parts, splitroot. rewrite Hc.
  cbn [fst]. change (String.eqb EmptyString EmptyString) with true. cbn [negb].
  rewrite Hsplit. cbn [List.filter].
  change (String.eqb (String c s) EmptyString) with false. cbn [orb].
  destruct (String.eqb (String c s) "."); cbn [negb]; [now rewrite app_nil_r | reflexivity].
Qed.

Lemma slices_no_slash (s : string) :
  no_slash s = true -> (3 <= String.length s)%nat ->
  no_slash (slice_to 2 s) = true /\ no_slash (slice_from 2 s) = true
  /\ slice_to 2 s <> EmptyString /\ slice_from 2 s <> EmptyString
  /\ String.eqb (slice_to 2 s) "." = false.
Proof.
  unfold no_slash.
  destruct s as [|a [|b [|c s]]]; cbn [String.length]; try lia. intros H _.
  unfold slice_to, slice_from. cbn [String.length Nat.sub String.substring].
  rewrite substring_all. cbn [forallb_string] in *.
  apply andb_prop in H as [Ha H]. apply andb_prop in H as [Hb H].
  rewrite Ha, Hb, H. repeat split; try discriminate.
  cbn [String.eqb]. destruct (Ascii.eqb a "."); [|reflexivity].
  now destruct b as [[] [] [] [] [] [] [] []].
Qed.

(** X1. The layout below the root. An identifier of three characters or
    more with no slash in it resolves to the file [paste_id[2:]] in the
    directory [paste_id[:2]] of the root, two levels below the root; but
    for the one rest that is [.]: then the path of the paste is the
    directory [paste_id[:2]] itself. Without [mkdir] the call returns
    and leaves the file system as it is; and whenever a call returns, it
    returns this path. *)
Theorem create_paste_path_of_plain_id (root : Path) (paste_id : str) (fs : FS) :
  no_slash paste_id = true ->
  (3 <= String.length paste_id)%nat ->
  let path :=
    if String.eqb (slice_from 2 paste_id) "." then root ++ [slice_to 2 paste_id]
    else root ++ [slice_to 2 paste_id; slice_from 2 paste_id] in
  helpers.create_paste_path root paste_id false fs = (Return path, fs)
  /\ (forall mkdir fs' p,
        (helpers.create_paste_path root paste_id mkdir fs').1 = Return p -> p = path).
Proof.
  intros Hs Hlen path.
  destruct (slices_no_slash _ Hs Hlen) as (H1 & H2 & N1 & N2 & Hdot).
  assert (E : paste_path root paste_id = path).
  { unfold paste_path, path. rewrite !joinpath_component by assumption. rewrite Hdot.
    destruct (String.eqb (slice_from 2 paste_id) "."); [reflexivity|].
    now rewrite <- app_assoc. }
  rewrite <- E. split; [now apply create_paste_path_no_mkdir|].
  intros mkdir fs' p Hp. now apply create_paste_path_returns in Hp.
Qed.

Lemma create_paste_path_of_plain_id_witness :
  helpers.create_paste_path ["/"; "srv"; "pastes"] "q7.Zt_0~abc" false (mk_FS ∅ ∅)
  = (Return ["/"; "srv"; "pastes"; "q7"; ".Zt_0~abc"], mk_FS ∅ ∅).
Proof.
  apply (create_paste_path_of_plain_id ["/"; "srv"; "pastes"] "q7.Zt_0~abc" (mk_FS ∅ ∅));
    [reflexivity | simpl; lia].
Defined.

Lemma create_paste_id_urlsafe (long : bool) (rng : nat -> byte) :
  forallb_string is_urlsafe_char (helpers.create_paste_id long rng) = true
  /\ (3 <= String.length (helpers.create_paste_id long rng))%nat.
Proof.
  unfold helpers.create_paste_id.
  destruct long; destruct (token_urlsafe_shape rng 30) as [L30 U30];
    destruct (token_urlsafe_shape rng 7) as [L7 U7]; split; auto.
  - rewrite L30. simpl. lia.
  - rewrite L7. simpl. lia.
Qed.

(** X2. Two generated identifiers that resolve to the same path under
    the same root are the same identifier: pastes with different
    identifiers are kept in different files. *)
Theorem generated_ids_resolve_to_distinct_paths (root : Path)
    (long long' : bool) (rng rng' : nat -> byte) (mkdir mkdir' : bool) (fs fs' : FS) (p : Path) :
  (helpers.create_paste_path root (helpers.create_paste_id long rng) mkdir fs).1 = Return p ->
  (helpers.create_paste_path root (helpers.create_paste_id long' rng') mkdir' fs').1 = Return p ->
  helpers.create_paste_id long rng = helpers.create_paste_id long' rng'.
Proof.
  destruct (create_paste_id_urlsafe long rng) as [U L].
  destruct (create_paste_id_urlsafe long' rng') as [U' L'].
  intros H H'. apply create_paste_path_returns in H as [_ ->].
  apply create_paste_path_returns in H' as [_ H'].
  now apply (paste_path_urlsafe_inj root).
Qed.

Lemma generated_ids_resolve_to_distinct_paths_witness :
  helpers.create_paste_id false (fun _ => x41) = helpers.create_paste_id false (fun _ => x41).
Proof.
  apply (generated_ids_resolve_to_distinct_paths ["/"; "srv"] false false
           (fun _ => x41) (fun _ => x41) false false (mk_FS ∅ ∅) (mk_FS ∅ ∅)
           ["/"; "srv"; "QU"; "FBQUFBQQ"]); reflexivity.
Defined.

Lemma is_absolute_joinpath (p : Path) (s : string) :
  is_absolute_str s = true -> p // s = parse_parts s.
Proof. intros H. unfold joinpath. now rewrite H. Qed.

(** X3. The path is not confined to the root: when [paste_id[2:]]
    starts with a slash, the path is that of [paste_id[2:]] alone, an
    absolute path, the same for every root. Without [mkdir] the call
    returns it and leaves the file system as it is; and whenever a call
    returns, it returns this path. *)
Theorem create_paste_path_absolute_tail (root : Path) (paste_id : str) (fs : FS) :
  (3 <= String.length paste_id)%nat ->
  is_absolute_str (slice_from 2 paste_id) = true ->
  helpers.create_paste_path root paste_id false fs
  = (Return (parse_parts (slice_from 2 paste_id)), fs)
  /\ (forall mkdir fs' p,
        (helpers.create_paste_path root paste_id mkdir fs').1 = Return p ->
        p = parse_parts (slice_from 2 paste_id)).
Proof.
  intros Hlen Habs.
  assert (E : paste_path root paste_id = parse_parts (slice_from 2 paste_id))
    by now apply is_absolute_joinpath.
  rewrite <- E. split; [now apply create_paste_path_no_mkdir|].
  intros mkdir fs' p Hp. now apply create_paste_path_returns in Hp.
Qed.

Lemma create_paste_path_absolute_tail_witness :
  helpers.create_paste_path ["/"; "srv"; "pastes"] "zz/root/.ssh/id_rsa" false (mk_FS ∅ ∅)
  = (Return ["/"; "root"; ".ssh"; "id_rsa"], mk_FS ∅ ∅).
Proof.
  apply (create_paste_path_absolute_tail ["/"; "srv"; "pastes"] "zz/root/.ssh/id_rsa" (mk_FS ∅ ∅));
    [simpl; lia | reflexivity].
Defined.

(** ** Guarded access, case by case *)

(** [try_get_paste] up to the test of expiry, for a paste that is there
    and whose metadata line decodes. *)
Lemma try_get_paste_stored (root : Path) (paste_id : str) (auto_remove : bool) (now : clock)
    (meanwhile : FS -> FS) (fs : FS) (stored : bytes) (m : helpers.PasteMeta) :
  (3 <= String.length paste_id)%nat ->
  files fs !! paste_path root paste_id = Some stored ->
  helpers.get_paste_meta (readline stored).1 = Return m ->
  helpers.try_get_paste root paste_id auto_remove now meanwhile fs
  = match helpers.is_expired m now with
    | Raise e => (Raise e, fs)
    | Return true =>
        if auto_remove then
          match remove (paste_path root paste_id) (meanwhile fs) with
          | (Return _, fs) | (Raise (FileNotFoundError _), fs) =>
              (Raise (PasteExpiredException ("paste has expired with id of " ++ paste_id)%string), fs)
          | (Raise e, fs) => (Raise e, fs)
          end
        else (Raise (PasteExpiredException ("paste has expired with id of " ++ paste_id)%string), fs)
    | Return false => (Return (paste_path root paste_id, m), fs)
    end.
Proof.
  intros Hlen Hfile Hmeta.
  rewrite try_get_paste_unfold, create_paste_path_no_mkdir by exact Hlen.
  assert (Hisfile : isfile (paste_path root paste_id) fs = true).
  { unfold isfile. apply bool_decide_eq_true. rewrite Hfile. eauto. }
  rewrite Hisfile. cbn [negb].
  rewrite read_paste_meta_unfold. unfold helpers.open_rb. rewrite Hfile. cbn [bind].
  now rewrite Hmeta.
Qed.

Lemma remove_files (p : Path) (fs : FS) :
  files (remove p fs).2 = delete p (files fs) /\ dirs (remove p fs).2 = dirs fs.
Proof.
  unfold remove. destruct (files fs !! p) eqn:E; cbn [fst snd files dirs].
  - now split.
  - split; [|reflexivity]. symmetry. now apply delete_id.
Qed.

(** X4. An identifier of fewer than three characters is refused with
    [PasteIdException] before the file system is looked at: it is left
    as it was, and the wrapper of [handle_paste_exceptions] answers
    404. *)
Theorem try_get_paste_short_id (root : Path) (paste_id : str) (auto_remove : bool)
    (now : clock) (meanwhile : FS -> FS) (fs : FS) :
  (String.length paste_id < 3)%nat ->
  helpers.try_get_paste root paste_id auto_remove now meanwhile fs
  = (Raise (PasteIdException "paste_id too short, must be at least 3 characters long"), fs)
  /\ handle_paste_exceptions (helpers.try_get_paste root paste_id auto_remove now meanwhile fs).1
     = Aborted 404.
Proof.
  intros H.
  assert (E : helpers.try_get_paste root paste_id auto_remove now meanwhile fs
              = (Raise (PasteIdException "paste_id too short, must be at least 3 characters long"), fs)).
  { now rewrite try_get_paste_unfold, create_paste_path_short by exact H. }
  now rewrite E.
Qed.

Lemma try_get_paste_short_id_witness :
  handle_paste_exceptions
    (helpers.try_get_paste ["/"; "srv"] "ab" true (mk_clock 2022 9 1 12 0 0 0) id fs_expired_aware).1
  = Aborted 404.
Proof.
  apply (try_get_paste_short_id ["/"; "srv"] "ab" true (mk_clock 2022 9 1 12 0 0 0) id fs_expired_aware).
  simpl. lia.
Defined.

(** X5. When no file is at the path of the identifier, [try_get_paste]
    raises [PasteDoesNotExistException] with the identifier in the
    message and leaves the file system as it was; the wrapper answers
    404. *)
Theorem try_get_paste_missing_file (root : Path) (paste_id : str) (auto_remove : bool)
    (now : clock) (meanwhile : FS -> FS) (fs : FS) :
  (3 <= String.length paste_id)%nat ->
  files fs !! paste_path root paste_id = None ->
  helpers.try_get_paste root paste_id auto_remove now meanwhile fs
  = (Raise (PasteDoesNotExistException ("paste not found with id of " ++ paste_id)%string), fs)
  /\ handle_paste_exceptions (helpers.try_get_paste root paste_id auto_remove now meanwhile fs).1
     = Aborted 404.
Proof.
  intros Hlen Hnone.
  assert (E : helpers.try_get_paste root paste_id auto_remove now meanwhile fs
              = (Raise (PasteDoesNotExistException ("paste not found with id of " ++ paste_id)%string), fs)).
  { rewrite try_get_paste_unfold, create_paste_path_no_mkdir by exact Hlen.
    assert (Hisfile : isfile (paste_path root paste_id) fs = false).
    { unfold isfile. apply bool_decide_eq_false. rewrite Hnone. now intros [x Hx]. }
    now rewrite Hisfile. }
  now rewrite E.
Qed.

Lemma try_get_paste_missing_file_witness :
  (helpers.try_get_paste ["/"; "srv"] "abcdef" true (mk_clock 2022 9 1 12 0 0 0) id (mk_FS ∅ ∅)).1
  = Raise (PasteDoesNotExistException "paste not found with id of abcdef").
Proof.
  refine (f_equal fst (proj1 (try_get_paste_missing_file ["/"; "srv"] "abcdef" true
            (mk_clock 2022 9 1 12 0 0 0) id (mk_FS ∅ ∅) _ _))); [simpl; lia | reflexivity].
Defined.

(** X6. A paste that is there, whose metadata line decodes and that is
    not expired, is returned with its path, and the file system is left
    as it was: a live paste is never removed, with or without
    [auto_remove]. *)
Theorem try_get_paste_live (root : Path) (paste_id : str) (auto_remove : bool) (now : clock)
    (meanwhile : FS -> FS) (fs : FS) (stored : bytes) (m : helpers.PasteMeta) :
  (3 <= String.length paste_id)%nat ->
  files fs !! paste_path root paste_id = Some stored ->
  helpers.get_paste_meta (readline stored).1 = Return m ->
  helpers.is_expired m now = Return false ->
  helpers.try_get_paste root paste_id auto_remove now meanwhile fs
  = (Return (paste_path root paste_id, m), fs).
Proof.
  intros Hlen Hfile Hmeta Hlive.
  rewrite (try_get_paste_stored _ _ _ _ _ _ stored m) by assumption.
  now rewrite Hlive.
Qed.

(** X7. An expired paste, with what others do to the file system
    between the test of expiry and the removal. Without [auto_remove]
    the paste is refused with [PasteExpiredException] and the file
    system is left as it was. With [auto_remove], no file is at the path
    afterwards and nothing else has changed in the file system that
    the others have left; the paste is refused with
    [PasteExpiredException] when the file is still there, and when the
    removal fails with [FileNotFoundError], as it does when the others
    have removed the file; any other error of the removal goes through:
    where the others have left a directory at the path, it is
    [IsADirectoryError], which the wrapper of [handle_paste_exceptions]
    does not catch. For [PasteExpiredException] the wrapper answers
    404. *)
Theorem try_get_paste_expired (root : Path) (paste_id : str) (auto_remove : bool) (now : clock)
    (meanwhile : FS -> FS) (fs : FS) (stored : bytes) (m : helpers.PasteMeta) :
  (3 <= String.length paste_id)%nat ->
  files fs !! paste_path root paste_id = Some stored ->
  helpers.get_paste_meta (readline stored).1 = Return m ->
  helpers.is_expired m now = Return true ->
  let p := paste_path root paste_id in
  let expired := PasteExpiredException ("paste has expired with id of " ++ paste_id)%string in
  let out := helpers.try_get_paste root paste_id auto_remove now meanwhile fs in
  (auto_remove = false -> out = (Raise expired, fs))
  /\ (auto_remove = true ->
      files out.2 = delete p (files (meanwhile fs))
      /\ dirs out.2 = dirs (meanwhile fs)
      /\ files out.2 !! p = None
      /\ (is_Some (files (meanwhile fs) !! p) -> out.1 = Raise expired)
      /\ (files (meanwhile fs) !! p = None ->
          out.1 = match no_file p (meanwhile fs) with
                  | FileNotFoundError _ => Raise expired
                  | e => Raise e
                  end)
      /\ (files (meanwhile fs) !! p = None ->
          resolve p (meanwhile fs) = None -> isdir p (meanwhile fs) = true ->
          out.1 = Raise (IsADirectoryError "Is a directory")
          /\ handle_paste_exceptions out.1 = Uncaught (IsADirectoryError "Is a directory")))
  /\ (out.1 = Raise expired -> handle_paste_exceptions out.1 = Aborted 404).
Proof.
  intros Hlen Hfile Hmeta Hexp p expired out. subst p expired out.
  rewrite (try_get_paste_stored _ _ _ _ _ _ stored m) by assumption.
  rewrite Hexp. split; [now intros ->|]. split; [|now intros ->].
  intros ->.
  destruct (remove_files (paste_path root paste_id) (meanwhile fs)) as (Hf & Hd).
  assert (Hgone : delete (paste_path root paste_id) (files (meanwhile fs))
                    !! paste_path root paste_id = None) by apply lookup_delete_eq.
  unfold remove in *.
  destruct (files (meanwhile fs) !! paste_path root paste_id) as [b|] eqn:Ef;
    cbn [fst snd files dirs] in *.
  - repeat split; try assumption; try discriminate.
  - assert (Hout : forall e : exn,
              (match e with
               | FileNotFoundError _ =>
                   (Raise (PasteExpiredException ("paste has expired with id of " ++ paste_id)%string),
                    meanwhile fs)
               | _ => (@Raise (Path * helpers.PasteMeta) e, meanwhile fs)
               end).2 = meanwhile fs) by (now intros []).
    rewrite Hout.
    split; [exact Hf|]. split; [reflexivity|]. split; [now rewrite Hf|].
    split; [now intros [x Hx]|]. split.
    + intros _. now destruct (no_file (paste_path root paste_id) (meanwhile fs)).
    + intros _ Hr Hdir. unfold no_file. now rewrite Hr, Hdir.
Qed.

Lemma try_get_paste_live_witness :
  helpers.try_get_paste ["/"; "srv"] "q7Zt_0-abc" true clock_before id fs_live
  = (Return (["/"; "srv"; "q7"; "Zt_0-abc"], paste_live), fs_live).
Proof.
  apply (try_get_paste_live ["/"; "srv"] "q7Zt_0-abc" true clock_before id fs_live
           (str_encode (helpers.PasteMeta_json paste_live) ++ LF :: list_byte_of_string "hello")
           paste_live); [simpl; lia | reflexivity | reflexivity | reflexivity].
Defined.

Lemma try_get_paste_expired_witness :
  (helpers.try_get_paste ["/"; "srv"] "q7Zt_0-abc" true clock_after id fs_live).1
  = Raise (PasteExpiredException "paste has expired with id of q7Zt_0-abc")
  /\ files (helpers.try_get_paste ["/"; "srv"] "q7Zt_0-abc" true clock_after id fs_live).2
       !! ["/"; "srv"; "q7"; "Zt_0-abc"] = None
  /\ (helpers.try_get_paste ["/"; "srv"] "q7Zt_0-abc" true clock_after
        (fun fs => mk_FS (delete ["/"; "srv"; "q7"; "Zt_0-abc"] (files fs))
                     (dirs fs ∪ {[ ["/"; "srv"; "q7"; "Zt_0-abc"] ]})) fs_live).1
     = Raise (IsADirectoryError "Is a directory").
Proof.
  destruct (try_get_paste_expired ["/"; "srv"] "q7Zt_0-abc" true clock_after id fs_live
              (str_encode (helpers.PasteMeta_json paste_live) ++ LF :: list_byte_of_string "hello")
              paste_live) as (_ & H & _);
    [simpl; lia | reflexivity | reflexivity | reflexivity |].
  destruct (H eq_refl) as (_ & _ & H2 & H1 & _).
  destruct (try_get_paste_expired ["/"; "srv"] "q7Zt_0-abc" true clock_after
              (fun fs => mk_FS (delete ["/"; "srv"; "q7"; "Zt_0-abc"] (files fs))
                           (dirs fs ∪ {[ ["/"; "srv"; "q7"; "Zt_0-abc"] ]})) fs_live
              (str_encode (helpers.PasteMeta_json paste_live) ++ LF :: list_byte_of_string "hello")
              paste_live) as (_ & H' & _);
    [simpl; lia | reflexivity | reflexivity | reflexivity |].
  destruct (H' eq_refl) as (_ & _ & _ & _ & _ & H3).
  split; [apply H1; eexists; reflexivity|]. split; [exact H2|].
  apply H3; reflexivity.
Defined.

(** What [get_paste_meta] raises: one of the two exceptions of the
    metadata, or what a parser of pydantic raises, other than
    [ValidationError]. *)
Lemma get_paste_meta_with_raises
    (parse_version : bytes -> pydantic.validated Z)
    (parse_meta : bytes -> pydantic.validated helpers.PasteMeta)
    (meta_line : bytes) (e : exn) :
  helpers.get_paste_meta_with parse_version parse_meta meta_line = Raise e ->
  e = PasteMetaUnprocessable "paste meta cannot be loaded"
  \/ (exists v, v <> CURRENT_PASTE_META_VERSION
                /\ e = PasteMetaVersionInvalid (version_invalid_message v))
  \/ raised_by_parser parse_version parse_meta meta_line e.
Proof.
  unfold helpers.get_paste_meta_with, raised_by_parser.
  destruct (parse_version meta_line) as [v| |e'];
    [|intros [= <-]; now left | intros [= <-]; right; right; now left].
  destruct (Z.eqb_spec v CURRENT_PASTE_META_VERSION) as [->|Hne]; cbn [negb].
  - destruct (parse_meta meta_line) as [m| |e'];
      [discriminate | intros [= <-]; now left | intros [= <-]; right; right; right; now split].
  - intros [= <-]. right. left. now exists v.
Qed.

(** X8. [parse_version] and [parse_meta] stand for the two parsers of
    pydantic, whatever they are. When the file of the paste is there
    and [get_paste_meta] raises on its first line, [try_get_paste]
    raises the same exception and leaves the file system as it was: the
    file is not removed. The exception is [PasteMetaUnprocessable] or
    [PasteMetaVersionInvalid], and then the wrapper of
    [handle_paste_exceptions] answers 500, or it is one that a parser
    of pydantic raises for itself. *)
Theorem try_get_paste_undecodable
    (parse_version : bytes -> pydantic.validated Z)
    (parse_meta : bytes -> pydantic.validated helpers.PasteMeta)
    (root : Path) (paste_id : str) (auto_remove : bool)
    (now : clock) (meanwhile : FS -> FS) (fs : FS) (stored : bytes) (e : exn) :
  (3 <= String.length paste_id)%nat ->
  files fs !! paste_path root paste_id = Some stored ->
  helpers.get_paste_meta_with parse_version parse_meta (readline stored).1 = Raise e ->
  let out :=
    helpers.try_get_paste_with parse_version parse_meta
      root paste_id auto_remove now meanwhile fs in
  out = (Raise e, fs)
  /\ ((is_PasteMetaException e = true /\ handle_paste_exceptions out.1 = Aborted 500)
      \/ raised_by_parser parse_version parse_meta (readline stored).1 e).
Proof.
  intros Hlen Hfile Hmeta out.
  assert (E : out = (Raise e, fs)).
  { subst out. unfold helpers.try_get_paste_with.
    rewrite create_paste_path_no_mkdir by exact Hlen.
    assert (Hisfile : isfile (paste_path root paste_id) fs = true).
    { unfold isfile. apply bool_decide_eq_true. rewrite Hfile. eauto. }
    rewrite Hisfile. cbn [negb].
    unfold helpers.read_paste_meta_with, helpers.open_rb. rewrite Hfile. cbn [bind].
    now rewrite Hmeta. }
  rewrite E. split; [reflexivity|]. cbn [fst].
  destruct (get_paste_meta_with_raises _ _ _ _ Hmeta) as [-> | [(v & _ & ->) | H]];
    [left; now split | left; now split | now right].
Qed.

Lemma try_get_paste_undecodable_witness :
  helpers.try_get_paste ["/"; "srv"] "abcdef" true clock_before id
    (mk_FS {[ ["/"; "srv"; "ab"; "cdef"] := list_byte_of_string "{version: 1" ]} ∅)
  = (Raise (PasteMetaUnprocessable "paste meta cannot be loaded"),
     mk_FS {[ ["/"; "srv"; "ab"; "cdef"] := list_byte_of_string "{version: 1" ]} ∅).
Proof.
  apply (try_get_paste_undecodable helpers.PasteMetaVersion_parse_raw helpers.PasteMeta_parse_raw
           ["/"; "srv"] "abcdef" true clock_before id
           (mk_FS {[ ["/"; "srv"; "ab"; "cdef"] := list_byte_of_string "{version: 1" ]} ∅)
           (list_byte_of_string "{version: 1"));
    [simpl; lia | reflexivity | reflexivity].
Defined.

(** X9. Left alone, [try_get_paste] creates no file and alters none:
    the directories and every file other than the one of the identifier
    are as they were, and that one is as it was or is gone. *)
Theorem try_get_paste_frame (root : Path) (paste_id : str) (auto_remove : bool)
    (now : clock) (fs : FS) :
  let fs' := (helpers.try_get_paste root paste_id auto_remove now id fs).2 in
  dirs fs' = dirs fs
  /\ (forall q, q <> paste_path root paste_id -> files fs' !! q = files fs !! q)
  /\ (files fs' !! paste_path root paste_id = files fs !! paste_path root paste_id
      \/ files fs' !! paste_path root paste_id = None).
Proof.
  rewrite try_get_paste_unfold.
  destruct (Nat.lt_ge_cases (String.length paste_id) 3) as [Hs|Hl];
    [rewrite create_paste_path_short by exact Hs; cbn; auto|].
  rewrite create_paste_path_no_mkdir by exact Hl.
  destruct (isfile (paste_path root paste_id) fs); cbn [negb]; [|cbn; auto].
  destruct (helpers.read_paste_meta (paste_path root paste_id) fs) as [m|e]; [|cbn; auto].
  destruct (helpers.is_expired m now) as [[|]|e]; [|cbn; auto..].
  destruct auto_remove; [|cbn; auto].
  destruct (remove_files (paste_path root paste_id) fs) as (Hf & Hd).
  unfold id. destruct (remove (paste_path root paste_id) fs) as [r fs'].
  cbn [fst snd] in *.
  assert (Hall : dirs fs' = dirs fs
                 /\ (forall q, q <> paste_path root paste_id -> files fs' !! q = files fs !! q)
                 /\ (files fs' !! paste_path root paste_id = files fs !! paste_path root paste_id
                     \/ files fs' !! paste_path root paste_id = None)).
  { rewrite Hf. repeat split; [exact Hd | | right; apply lookup_delete_eq].
    intros q Hq. now apply lookup_delete_ne. }
  destruct r as [[]|[]]; exact Hall.
Qed.

(** ** Writing and reading *)

(** X10. Creation, then access. When [write_paste] at the path of an
    identifier returns, with metadata of the current version, dates that
    are naive or have an offset of whole minutes, and no expiry yet,
    [try_get_paste] returns the path and the metadata, and leaves the
    file system as [write_paste] made it. *)
Theorem written_paste_is_fetched (root : Path) (paste_id : str) (auto_remove : bool)
    (now : clock) (meanwhile : FS -> FS) (fs : FS) (m : helpers.PasteMeta) (c : helpers.content) :
  (3 <= String.length paste_id)%nat ->
  valid_meta m ->
  helpers.is_expired m now = Return false ->
  (helpers.write_paste (paste_path root paste_id) m c fs).1 = Return tt ->
  helpers.try_get_paste root paste_id auto_remove now meanwhile
    (helpers.write_paste (paste_path root paste_id) m c fs).2
  = (Return (paste_path root paste_id, m),
     (helpers.write_paste (paste_path root paste_id) m c fs).2).
Proof.
  intros Hlen Hm Hlive Hret.
  rewrite (try_get_paste_stored _ _ _ _ _ _ _ m Hlen (write_paste_file _ m c fs Hret)).
  - now rewrite Hlive.
  - rewrite readline_header by apply PasteMeta_json_no_LF.
    apply get_paste_meta_json; [now right | exact Hm].
Qed.

Lemma written_paste_is_fetched_witness :
  helpers.try_get_paste ["/"; "srv"] "q7Zt_0-abc" true clock_before id fs_live
  = (Return (["/"; "srv"; "q7"; "Zt_0-abc"], paste_live), fs_live).
Proof.
  apply (written_paste_is_fetched ["/"; "srv"] "q7Zt_0-abc" true clock_before id fs_srv
           paste_live (helpers.Buffer (list_byte_of_string "hello")));
    [simpl; lia | repeat split; reflexivity | reflexivity | reflexivity].
Defined.

(** Writing at [p] changes what is at [p] alone. *)
Lemma write_paste_other (p q : Path) (m : helpers.PasteMeta) (c : helpers.content) (fs : FS) :
  q <> p ->
  files (helpers.write_paste p m c fs).2 !! q = files fs !! q
  /\ dirs (helpers.write_paste p m c fs).2 = dirs fs.
Proof.
  intros Hne. rewrite write_paste_unfold.
  destruct (helpers.open_wb p fs); cbn [fst snd files dirs]; [|now split].
  split; [|reflexivity]. apply lookup_insert_ne. congruence.
Qed.

Lemma walk_other (l : list Path) (fs fs' : FS) :
  (forall a, In a l -> isfile a fs' = isfile a fs /\ isdir a fs' = isdir a fs) ->
  walk l fs' = walk l fs.
Proof.
  induction l as [|a l IH]; intros H; [reflexivity|]. cbn [walk].
  destruct (H a (or_introl eq_refl)) as [-> ->].
  rewrite IH; [reflexivity|]. intros b Hb. apply H. now right.
Qed.

(** X11. [write_paste] at one path leaves every other file and every
    directory as it was. What [read_paste_meta] and [read_paste_content]
    give for another path [q] is the same after as before when a file
    is at [q], and when [p] is not above [q]; below a file that the
    write has made, the error for a missing file is another. *)
Theorem write_paste_elsewhere (p q : Path) (m : helpers.PasteMeta) (c : helpers.content) (fs : FS) :
  q <> p ->
  let fs' := (helpers.write_paste p m c fs).2 in
  files fs' !! q = files fs !! q
  /\ dirs fs' = dirs fs
  /\ (is_Some (files fs !! q) \/ ~ In p (ancestors (removelast q)) ->
      helpers.read_paste_meta q fs' = helpers.read_paste_meta q fs
      /\ helpers.read_paste_content q fs' = helpers.read_paste_content q fs).
Proof.
  intros Hne fs'. destruct (write_paste_other p q m c fs Hne) as [E Ed]. fold fs' in E, Ed.
  split; [exact E|]. split; [exact Ed|]. intros Hq.
  assert (Hopen : helpers.open_rb q fs' = helpers.open_rb q fs).
  { unfold helpers.open_rb. rewrite E.
    destruct (files fs !! q) as [b|] eqn:Eq; [reflexivity|].
    destruct Hq as [[x Hx]|Hq]; [discriminate Hx|].
    assert (Hsame : forall a, a <> p -> isfile a fs' = isfile a fs /\ isdir a fs' = isdir a fs).
    { intros a Ha. destruct (write_paste_other p a m c fs Ha) as [Ea Eda]. fold fs' in Ea, Eda.
      unfold isdir, isfile. now rewrite Ea, Eda. }
    f_equal. unfold no_file, resolve.
    rewrite (walk_other _ fs fs').
    - now destruct (Hsame q Hne) as [_ ->].
    - intros a Ha. apply Hsame. intros ->. contradiction. }
  rewrite !read_paste_meta_unfold. unfold helpers.read_paste_content. now rewrite Hopen.
Qed.

Lemma write_paste_elsewhere_witness :
  helpers.read_paste_meta ["/"; "srv"; "q7"; "Zt_0-abc"]
    (helpers.write_paste ["/"; "srv"; "q7"; "other"] paste_version_99
       (helpers.Buffer (list_byte_of_string "other")) fs_live).2
  = helpers.read_paste_meta ["/"; "srv"; "q7"; "Zt_0-abc"] fs_live.
Proof.
  apply (write_paste_elsewhere ["/"; "srv"; "q7"; "other"] ["/"; "srv"; "q7"; "Zt_0-abc"]
           paste_version_99 (helpers.Buffer (list_byte_of_string "other")) fs_live);
    [discriminate | left; eexists; reflexivity].
Defined.

(** X12. [write_paste] does not look at what is at the path: a second
    write replaces the first, and the outcome and the file system are
    the ones of the second write alone. *)
Theorem write_paste_overwrites (p : Path) (m1 m2 : helpers.PasteMeta) (c1 c2 : helpers.content)
    (fs : FS) :
  helpers.write_paste p m2 c2 (helpers.write_paste p m1 c1 fs).2 = helpers.write_paste p m2 c2 fs.
Proof.
  rewrite !write_paste_unfold.
  destruct (helpers.open_wb p fs) as [[]|e] eqn:E; cbn [fst snd]; [|now rewrite E].
  unfold helpers.open_wb. cbn [files dirs]. rewrite lookup_insert_eq.
  f_equal. f_equal. apply insert_insert_eq.
Qed.

(** X13. The chunks of a generator are written one after the other:
    the outcome and the file are the ones that the buffer of their
    concatenation gives, however the content is cut into chunks. *)
Theorem write_paste_generator_as_buffer (p : Path) (m : helpers.PasteMeta) (chunks : list bytes)
    (fs : FS) :
  helpers.write_paste p m (helpers.Generator chunks) fs
  = helpers.write_paste p m (helpers.Buffer (List.concat chunks)) fs.
Proof. now rewrite !write_paste_unfold. Qed.

Lemma readline_split (b : bytes) : b = (readline b).1 ++ (readline b).2.
Proof.
  induction b as [|x b IH]; [reflexivity|]. cbn [readline].
  destruct (Byte.eqb x LF); [reflexivity|].
  destruct (readline b) as [l r]. cbn [fst snd] in *. now rewrite IH at 1.
Qed.

Lemma readline_no_LF (b : bytes) : ~ In LF b -> readline b = (b, []).
Proof.
  induction b as [|x b IH]; [reflexivity|]. intros Hno. cbn [readline].
  destruct (Byte.eqb x LF) eqn:E.
  - apply Byte.byte_dec_bl in E. exfalso. apply Hno. now left.
  - rewrite IH; [reflexivity|]. intros H. apply Hno. now right.
Qed.

Lemma readlines_chunks (b : bytes) : Forall line_chunk (readlines b).
Proof.
  induction b as [|x b IH]; [constructor|]. cbn [readlines].
  destruct (Byte.eqb x LF) eqn:E.
  - constructor; [|exact IH]. split; [discriminate | exact (fun H => H)].
  - destruct (readlines b) as [|l ls].
    + constructor; [|constructor]. split; [discriminate | exact (fun H => H)].
    + apply Forall_cons_1 in IH as [[Hne Hno] IH]. constructor; [|exact IH].
      split; [discriminate|].
      destruct l as [|y l]; [contradiction|].
      change (removelast (x :: y :: l)) with (x :: removelast (y :: l)).
      intros [H|H]; [|now apply Hno].
      subst x. discriminate E.
Qed.

(** X14. When [read_paste_content] yields, the file is there; its
    first line and the chunks, one after the other, make up the file;
    and every chunk is a line: it is not empty and has no line feed
    before its last byte. *)
Theorem read_paste_content_chunks (p : Path) (fs : FS) (chunks : list bytes) :
  helpers.read_paste_content p fs = Return chunks ->
  exists stored,
    files fs !! p = Some stored
    /\ stored = (readline stored).1 ++ List.concat chunks
    /\ Forall line_chunk chunks.
Proof.
  unfold helpers.read_paste_content, helpers.open_rb.
  destruct (files fs !! p) as [stored|]; [|discriminate]. cbn [bind].
  pose proof (readline_split stored) as Hsplit.
  destruct (readline stored) as [l r] eqn:E. cbn [fst snd] in *.
  intros [= <-]. exists stored. rewrite E. cbn [fst]. repeat split.
  - now rewrite concat_readlines.
  - apply readlines_chunks.
Qed.

Lemma read_paste_content_chunks_witness :
  exists stored,
    files fs_live !! ["/"; "srv"; "q7"; "Zt_0-abc"] = Some stored
    /\ stored = (readline stored).1 ++ List.concat [list_byte_of_string "hello"]
    /\ Forall line_chunk [list_byte_of_string "hello"].
Proof.
  apply (read_paste_content_chunks ["/"; "srv"; "q7"; "Zt_0-abc"] fs_live [list_byte_of_string "hello"]).
  reflexivity.
Defined.

(** X15. A file with no line feed, as a file cut within its first
    line is, has no content: [read_paste_content] yields no chunk. *)
Theorem read_paste_content_of_header_only (p : Path) (fs : FS) (stored : bytes) :
  files fs !! p = Some stored ->
  ~ In LF stored ->
  helpers.read_paste_content p fs = Return [].
Proof.
  intros Hfile Hno. unfold helpers.read_paste_content, helpers.open_rb.
  rewrite Hfile. cbn [bind]. now rewrite readline_no_LF.
Qed.

Lemma read_paste_content_of_header_only_witness :
  helpers.read_paste_content ["/"; "srv"; "ab"; "cdef"]
    (mk_FS {[ ["/"; "srv"; "ab"; "cdef"] := list_byte_of_string "not a header" ]} ∅)
  = Return [].
Proof.
  apply (read_paste_content_of_header_only ["/"; "srv"; "ab"; "cdef"] _
           (list_byte_of_string "not a header")); [reflexivity|].
  simpl. intros H. repeat (destruct H as [H|H]; [discriminate H|]). exact H.
Defined.

(** ** The two decoders *)

Lemma parse_str_dumps {A} (validate : pydantic.dict -> option A) (o : pydantic.dict) (a : A) :
  validate o = Some a ->
  pydantic.parse_str validate (json.dumps (json.Obj o)) = pydantic.Valid a.
Proof.
  intros Ha. unfold pydantic.parse_str.
  rewrite <- (append_nil_r (json.dumps _)), loads_dumps by reflexivity. now rewrite Ha.
Qed.

(** [get_paste_meta] on the encoding of a dictionary that validates. *)
Lemma get_paste_meta_dumps (o : pydantic.dict) (m : helpers.PasteMeta) (w : bytes) :
  line_end w ->
  helpers.PasteMetaVersion_validate o = Some CURRENT_PASTE_META_VERSION ->
  helpers.PasteMeta_validate o = Some m ->
  helpers.get_paste_meta (str_encode (json.dumps (json.Obj o)) ++ w) = Return m.
Proof.
  intros Hw Hv Hm.
  unfold helpers.get_paste_meta, helpers.get_paste_meta_with,
    helpers.PasteMetaVersion_parse_raw, helpers.PasteMeta_parse_raw.
  now rewrite (parse_raw_dumps _ _ _ w Hw Hv), (parse_raw_dumps _ _ _ w Hw Hm).
Qed.

Lemma extract_from_line_dumps (o : pydantic.dict) (m : models.PasteMeta) (w : bytes) :
  line_end w ->
  models.PasteMetaVersion_validate o = Some CURRENT_PASTE_META_VERSION ->
  models.PasteMeta_validate o = Some m ->
  models.extract_from_line (models.LineStr (json.dumps (json.Obj o))) = Return m
  /\ models.extract_from_line (models.LineBytes (str_encode (json.dumps (json.Obj o)) ++ w))
     = Return m.
Proof.
  intros Hw Hv Hm.
  unfold models.extract_from_line, models.extract_from_line_with, models.parse_line.
  rewrite (parse_raw_dumps _ _ _ w Hw Hv), (parse_raw_dumps _ _ _ w Hw Hm).
  now rewrite (parse_str_dumps _ _ _ Hv), (parse_str_dumps _ _ _ Hm).
Qed.

(** The fields that the two records share, read from a dictionary. *)
Lemma shared_fields (o : pydantic.dict) (v : Z) (i : str) (c : datetime) (e : option datetime) :
  json.get "version" o = Some (json.Int v) ->
  json.get "paste_id" o = Some (json.Str i) ->
  json.get "creation_dt" o = Some (json.Str (iso.isoformat c)) ->
  json.get "expire_dt" o = Some (pydantic.optional_datetime_value e) ->
  minute_datetime c = true ->
  match e with Some e => minute_datetime e = true | None => True end ->
  pydantic.int_field o "version" CURRENT_PASTE_META_VERSION = Some v
  /\ pydantic.str_field o "paste_id" = Some i
  /\ pydantic.datetime_field o "creation_dt" = Some c
  /\ pydantic.optional_datetime_field o "expire_dt" = Some e.
Proof.
  intros G1 G2 G3 G4 Hc He.
  unfold pydantic.int_field, pydantic.str_field, pydantic.datetime_field,
    pydantic.optional_datetime_field.
  rewrite G1, G2, G3, G4, parse_datetime_isoformat by exact Hc.
  repeat split. destruct e as [e|]; cbn [pydantic.optional_datetime_value]; [|reflexivity].
  now rewrite parse_datetime_isoformat by exact He.
Qed.

Lemma optional_str_field_value (o : pydantic.dict) (k : string) (s : option string) :
  json.get k o = Some (pydantic.optional_str_value s) ->
  pydantic.optional_str_field o k = Some s.
Proof.
  intros G. unfold pydantic.optional_str_field. rewrite G. now destruct s.
Qed.

Lemma models_validate_dict (m : models.PasteMeta) :
  minute_datetime (models.creation_dt m) = true ->
  match models.expire_dt m with Some e => minute_datetime e = true | None => True end ->
  models.PasteMeta_validate (models_PasteMeta_dict m) = Some m
  /\ helpers.PasteMeta_validate (models_PasteMeta_dict m) = Some (older m)
  /\ models.PasteMetaVersion_validate (models_PasteMeta_dict m) = Some (models.version m)
  /\ helpers.PasteMetaVersion_validate (models_PasteMeta_dict m) = Some (models.version m).
Proof.
  intros Hc He. destruct m as [v i c e l t].
  cbn [models.version models.paste_id models.creation_dt models.expire_dt] in *.
  set (D := models_PasteMeta_dict (models.mk_PasteMeta v i c e l t)).
  destruct (shared_fields D v i c e) as (F1 & F2 & F3 & F4); try reflexivity; try assumption.
  assert (F5 : pydantic.optional_str_field D "lexer_name" = Some l)
    by now apply optional_str_field_value.
  assert (F6 : pydantic.optional_str_field D "title" = Some t)
    by now apply optional_str_field_value.
  unfold models.PasteMeta_validate, helpers.PasteMeta_validate,
    models.PasteMetaVersion_validate, helpers.PasteMetaVersion_validate.
  rewrite F1, F2, F3, F4, F5, F6. now repeat split.
Qed.

Lemma models_validate_older_dict (h : helpers.PasteMeta) :
  minute_datetime (helpers.creation_dt h) = true ->
  match helpers.expire_dt h with Some e => minute_datetime e = true | None => True end ->
  models.PasteMeta_validate (PasteMeta_dict h) = Some (newer h)
  /\ models.PasteMetaVersion_validate (PasteMeta_dict h) = Some (helpers.version h).
Proof.
  intros Hc He. destruct h as [v i c e].
  cbn [helpers.version helpers.paste_id helpers.creation_dt helpers.expire_dt] in *.
  set (D := PasteMeta_dict (helpers.mk_PasteMeta v i c e)).
  destruct (shared_fields D v i c e) as (F1 & F2 & F3 & F4); try reflexivity; try assumption.
  unfold models.PasteMeta_validate, models.PasteMetaVersion_validate.
  rewrite F1, F2, F3, F4. now split.
Qed.

(** X16. A line written by [core/models.py] is read by [helpers.py].
    For a record with the current version, dates that are naive or have
    an offset of whole minutes, and strings of characters up to U+00FF,
    [get_paste_meta] on the encoding of the larger record gives the
    record with the four fields that [helpers.py] knows, and ignores
    [lexer_name] and [title]. *)
Theorem helpers_reads_models_line (m : models.PasteMeta) (w : bytes) :
  line_end w -> models_valid_meta m ->
  helpers.get_paste_meta (str_encode (models_PasteMeta_json m) ++ w) = Return (older m).
Proof.
  intros Hw (Hv & Hc & He).
  destruct (models_validate_dict m Hc He) as (_ & Hold & _ & Hver).
  apply get_paste_meta_dumps; [exact Hw | now rewrite Hver, Hv | exact Hold].
Qed.

(** X17. A line written by [helpers.py] is read by [core/models.py].
    For a record with the current version, dates that are naive or have
    an offset of whole minutes, and an identifier of characters up to
    U+00FF, [extract_from_line] on the encoding of the smaller record
    gives the record with the same four fields, and [None] for
    [lexer_name] and for [title]. *)
Theorem models_reads_helpers_line (h : helpers.PasteMeta) (w : bytes) :
  line_end w -> valid_meta h ->
  models.extract_from_line (models.LineBytes (str_encode (helpers.PasteMeta_json h) ++ w))
  = Return (newer h)
  /\ models.extract_from_line (models.LineStr (helpers.PasteMeta_json h)) = Return (newer h).
Proof.
  intros Hw (Hv & Hc & He).
  destruct (models_validate_older_dict h Hc He) as (Hnew & Hver).
  destruct (extract_from_line_dumps (PasteMeta_dict h) (newer h) w Hw) as [H1 H2];
    [now rewrite Hver, Hv | exact Hnew |]. now split.
Qed.

(** X18. The codec of [core/models.py]. For a [PasteMeta] with the
    current version, dates that are naive or have an offset of whole
    minutes, and an identifier, a title and a lexer name of characters up
    to U+00FF, or no title or no lexer name, [extract_from_line] on
    [paste_meta.json()], as a string or encoded and with or without a
    line feed, gives the [PasteMeta] back; the encoding is made of
    printable ASCII characters. *)
Theorem models_codec_round_trip (m : models.PasteMeta) (w : bytes) :
  line_end w -> models_valid_meta m ->
  models.extract_from_line (models.LineStr (models_PasteMeta_json m)) = Return m
  /\ models.extract_from_line (models.LineBytes (str_encode (models_PasteMeta_json m) ++ w))
     = Return m
  /\ forallb_string printable (models_PasteMeta_json m) = true.
Proof.
  intros Hw (Hv & Hc & He).
  destruct (models_validate_dict m Hc He) as (Hfull & _ & Hver & _).
  destruct (extract_from_line_dumps (models_PasteMeta_dict m) m w Hw) as [H1 H2];
    [now rewrite Hver, Hv | exact Hfull |].
  repeat split; [exact H1 | exact H2 | apply printable_dumps].
Qed.

Lemma helpers_reads_models_line_witness :
  helpers.get_paste_meta (str_encode (models_PasteMeta_json paste_titled) ++ [LF])
  = Return (older paste_titled).
Proof.
  apply (helpers_reads_models_line paste_titled [LF]); [now right | repeat split; reflexivity].
Defined.

Lemma models_reads_helpers_line_witness :
  models.extract_from_line (models.LineBytes (str_encode (helpers.PasteMeta_json paste_sample) ++ [LF]))
  = Return (newer paste_sample).
Proof.
  apply (models_reads_helpers_line paste_sample [LF]); [now right | repeat split; reflexivity].
Defined.

Lemma models_codec_round_trip_witness :
  models.extract_from_line (models.LineStr (models_PasteMeta_json paste_titled))
  = Return paste_titled.
Proof.
  apply (models_codec_round_trip paste_titled []); [now left | repeat split; reflexivity].
Defined.

(** X19. [PasteMetaToCreate.into_meta] makes a [PasteMeta] with the
    current version, the identifier given and the time of the clock,
    naive, for [creation_dt]. For a clock reading in the range of
    [datetime], an expiry that is naive or has an offset of whole
    minutes, and strings of characters up to U+00FF,
    [extract_from_line] reads its encoding back. *)
Theorem into_meta_is_read_back (expire_dt : option datetime) (lexer_name title : option str)
    (paste_id : str) (now : clock) :
  minute_datetime (utcnow now) = true ->
  match expire_dt with Some e => minute_datetime e = true | None => True end ->
  let m := models.into_meta expire_dt lexer_name title paste_id now in
  models.version m = CURRENT_PASTE_META_VERSION
  /\ models.paste_id m = paste_id
  /\ models.creation_dt m = utcnow now
  /\ tzinfo (models.creation_dt m) = None
  /\ models.extract_from_line (models.LineStr (models_PasteMeta_json m)) = Return m.
Proof.
  intros Hnow He m. repeat split.
  destruct (models_validate_dict m Hnow He) as (Hfull & _ & Hver & _).
  now destruct (extract_from_line_dumps (models_PasteMeta_dict m) m [] (or_introl eq_refl) Hver Hfull).
Qed.

Lemma into_meta_is_read_back_witness :
  models.extract_from_line
    (models.LineStr (models_PasteMeta_json
       (models.into_meta None (Some "python") None "q7Zt_0-abc" clock_before)))
  = Return (models.into_meta None (Some "python") None "q7Zt_0-abc" clock_before).
Proof.
  apply (into_meta_is_read_back None (Some "python") None "q7Zt_0-abc" clock_before);
    [reflexivity | exact I].
Defined.

(** The version of a record that validates is the version that
    [PasteMetaVersion] reads. *)
Lemma helpers_validate_version (o : pydantic.dict) (m : helpers.PasteMeta) :
  helpers.PasteMeta_validate o = Some m ->
  helpers.PasteMetaVersion_validate o = Some (helpers.version m).
Proof.
  unfold helpers.PasteMeta_validate, helpers.PasteMetaVersion_validate.
  destruct (pydantic.int_field o "version" CURRENT_PASTE_META_VERSION) as [v|]; [|discriminate].
  destruct (pydantic.str_field o "paste_id"); [|discriminate].
  destruct (pydantic.datetime_field o "creation_dt"); [|discriminate].
  destruct (pydantic.optional_datetime_field o "expire_dt"); [|discriminate].
  now intros [= <-].
Qed.

Lemma models_validate_version (o : pydantic.dict) (m : models.PasteMeta) :
  models.PasteMeta_validate o = Some m ->
  models.PasteMetaVersion_validate o = Some (models.version m).
Proof.
  unfold models.PasteMeta_validate, models.PasteMetaVersion_validate.
  destruct (pydantic.int_field o "version" CURRENT_PASTE_META_VERSION) as [v|]; [|discriminate].
  destruct (pydantic.str_field o "paste_id"); [|discriminate].
  destruct (pydantic.datetime_field o "creation_dt"); [|discriminate].
  destruct (pydantic.optional_datetime_field o "expire_dt"); [|discriminate].
  destruct (pydantic.optional_str_field o "lexer_name"); [|discriminate].
  destruct (pydantic.optional_str_field o "title"); [|discriminate].
  now intros [= <-].
Qed.

Lemma parse_str_version {A} (validate : pydantic.dict -> option A) (version : A -> Z)
    (validate_version : pydantic.dict -> option Z) (s : string) (a : A) (v : Z) :
  (forall o x, validate o = Some x -> validate_version o = Some (version x)) ->
  pydantic.parse_str validate s = pydantic.Valid a ->
  pydantic.parse_str validate_version s = pydantic.Valid v ->
  version a = v.
Proof.
  intros Hrel. unfold pydantic.parse_str.
  destruct (json.loads s) as [[| | | | |o]|]; try discriminate.
  destruct (validate o) as [x|] eqn:E; [|discriminate]. rewrite (Hrel o x E).
  now intros [= <-] [= <-].
Qed.

Lemma parse_raw_version {A} (validate : pydantic.dict -> option A) (version : A -> Z)
    (validate_version : pydantic.dict -> option Z) (b : bytes) (a : A) (v : Z) :
  (forall o x, validate o = Some x -> validate_version o = Some (version x)) ->
  pydantic.parse_raw validate b = pydantic.Valid a ->
  pydantic.parse_raw validate_version b = pydantic.Valid v ->
  version a = v.
Proof.
  intros Hrel. unfold pydantic.parse_raw.
  destruct (bytes_decode b) as [s|]; [|discriminate]. now apply parse_str_version.
Qed.

(** X20. A [PasteMeta] that [get_paste_meta] returns has the current
    version, whatever the line; and so has one that
    [PasteMeta.extract_from_line] returns. *)
Theorem decoded_meta_has_current_version (meta_line : bytes) (h : helpers.PasteMeta)
    (l : models.line) (m : models.PasteMeta) :
  helpers.get_paste_meta meta_line = Return h ->
  models.extract_from_line l = Return m ->
  helpers.version h = CURRENT_PASTE_META_VERSION
  /\ models.version m = CURRENT_PASTE_META_VERSION.
Proof.
  intros Hh Hm. split.
  - revert Hh. unfold helpers.get_paste_meta, helpers.get_paste_meta_with.
    destruct (helpers.PasteMetaVersion_parse_raw meta_line) as [v| |e'] eqn:Ev; [|discriminate..].
    destruct (Z.eqb_spec v CURRENT_PASTE_META_VERSION) as [->|]; [|discriminate]. cbn [negb].
    destruct (helpers.PasteMeta_parse_raw meta_line) as [x| |e'] eqn:Ex; [|discriminate..].
    intros [= <-].
    exact (parse_raw_version _ helpers.version _ _ _ _ helpers_validate_version Ex Ev).
  - revert Hm. unfold models.extract_from_line, models.extract_from_line_with.
    destruct (models.parse_line models.PasteMetaVersion_validate l) as [v| |e'] eqn:Ev; [|discriminate..].
    destruct (Z.eqb_spec v CURRENT_PASTE_META_VERSION) as [->|]; [|discriminate]. cbn [negb].
    destruct (models.parse_line models.PasteMeta_validate l) as [x| |e'] eqn:Ex; [|discriminate..].
    intros [= <-]. unfold models.parse_line in *. destruct l as [s|b].
    + exact (parse_str_version _ models.version _ _ _ _ models_validate_version Ex Ev).
    + exact (parse_raw_version _ models.version _ _ _ _ models_validate_version Ex Ev).
Qed.

Lemma decoded_meta_has_current_version_witness :
  helpers.version paste_sample = CURRENT_PASTE_META_VERSION
  /\ models.version paste_titled = CURRENT_PASTE_META_VERSION.
Proof.
  apply (decoded_meta_has_current_version
           (str_encode (helpers.PasteMeta_json paste_sample) ++ [LF]) paste_sample
           (models.LineStr (models_PasteMeta_json paste_titled)) paste_titled);
    reflexivity.
Defined.

(** X21. A line with no version is read as a line of the current
    version: for dates that are naive or have an offset of whole
    minutes, [get_paste_meta] on the encoding of the other three fields
    gives the [PasteMeta] with the version 1. *)
Theorem get_paste_meta_without_version (m : helpers.PasteMeta) (w : bytes) :
  line_end w -> valid_meta m ->
  helpers.get_paste_meta
    (str_encode (json.dumps (json.Obj (PasteMeta_dict_without_version m))) ++ w)
  = Return m.
Proof.
  intros Hw (Hv & Hc & He). destruct m as [v i c e].
  cbn [helpers.version helpers.paste_id helpers.creation_dt helpers.expire_dt] in *. subst v.
  set (D := PasteMeta_dict_without_version _).
  assert (G2 : json.get "paste_id" D = Some (json.Str i)) by reflexivity.
  assert (G3 : json.get "creation_dt" D = Some (json.Str (iso.isoformat c))) by reflexivity.
  assert (G4 : json.get "expire_dt" D = Some (pydantic.optional_datetime_value e)) by reflexivity.
  apply get_paste_meta_dumps; [exact Hw | reflexivity |].
  unfold helpers.PasteMeta_validate, pydantic.str_field, pydantic.datetime_field,
    pydantic.optional_datetime_field.
  change (pydantic.int_field D "version" CURRENT_PASTE_META_VERSION)
    with (Some CURRENT_PASTE_META_VERSION).
  rewrite G2, G3, G4, parse_datetime_isoformat by exact Hc.
  destruct e as [e|]; cbn [pydantic.optional_datetime_value]; [|reflexivity].
  now rewrite parse_datetime_isoformat by exact He.
Qed.

Lemma get_paste_meta_without_version_witness :
  helpers.get_paste_meta
    (str_encode (json.dumps (json.Obj (PasteMeta_dict_without_version paste_sample))) ++ [LF])
  = Return paste_sample.
Proof.
  apply (get_paste_meta_without_version paste_sample [LF]);
    [now right | repeat split; reflexivity].
Defined.

(** ** Expiry and the clock *)

Lemma cmp_tuple_refl (a : list N) : cmp_tuple a a = Eq.
Proof. induction a as [|x a IH]; [reflexivity|]. cbn. now rewrite N.compare_refl. Qed.

Lemma cmp_tuple_lt_le (a b c : list N) :
  cmp_tuple a b = Lt -> cmp_tuple b c <> Gt -> cmp_tuple a c = Lt.
Proof.
  revert b c. induction a as [|x a IH]; intros [|y b] [|z c]; cbn; try congruence.
  destruct (N.compare_spec x y), (N.compare_spec y z), (N.compare_spec x z);
    try congruence; try lia; intros Hab Hbc; eauto.
Qed.

Lemma fields_replace_tzinfo (d : datetime) : fields (replace_tzinfo_None d) = fields d.
Proof. reflexivity. Qed.

Lemma fields_clock_of (d : datetime) : fields (utcnow (clock_of d)) = fields d.
Proof. reflexivity. Qed.

(** What [is_expired] of [core/models.py] computes. *)
Lemma models_is_expired_earlier (m : models.PasteMeta) (now : clock) :
  models.is_expired m now
  = Return match models.expire_dt m with
           | Some e => earlier (replace_tzinfo_None e) (utcnow now)
           | None => false
           end.
Proof.
  unfold models.is_expired. destruct (models.expire_dt m) as [e|]; [|reflexivity].
  unfold datetime_lt, earlier. cbn [tzinfo replace_tzinfo_None utcnow bind].
  match goal with |- context [cmp_tuple ?a ?b] => now destruct (cmp_tuple a b) end.
Qed.

(** X22. [is_expired] of [core/models.py] never raises. It looks at
    the fields of [expire_dt] and not at its offset from UTC: two pastes
    whose [expire_dt] have the same fields expire together, whatever
    their time zones; and at the instant that the fields name, the paste
    is not yet expired. *)
Theorem models_is_expired_reads_fields (m m' : models.PasteMeta) (e e' : datetime) (now : clock) :
  models.expire_dt m = Some e ->
  models.expire_dt m' = Some e' ->
  fields e = fields e' ->
  (exists b, models.is_expired m now = Return b)
  /\ models.is_expired m now = models.is_expired m' now
  /\ models.is_expired m (clock_of e) = Return false.
Proof.
  intros He He' Hf. rewrite !models_is_expired_earlier, He, He'. repeat split.
  - eauto.
  - unfold earlier. now rewrite !fields_replace_tzinfo, Hf.
  - unfold earlier. now rewrite fields_replace_tzinfo, fields_clock_of, cmp_tuple_refl.
Qed.

Lemma models_is_expired_reads_fields_witness :
  models.is_expired paste_titled clock_after
  = models.is_expired
      (models.mk_PasteMeta 1 "other" (mk_datetime 2022 9 1 12 0 0 0 None)
         (Some (mk_datetime 2022 10 1 0 0 0 0 (Some (minutes (-480))))) None None) clock_after.
Proof.
  apply (models_is_expired_reads_fields paste_titled
           (models.mk_PasteMeta 1 "other" (mk_datetime 2022 9 1 12 0 0 0 None)
              (Some (mk_datetime 2022 10 1 0 0 0 0 (Some (minutes (-480))))) None None)
           (mk_datetime 2022 10 1 0 0 0 0 (Some (minutes 330)))
           (mk_datetime 2022 10 1 0 0 0 0 (Some (minutes (-480)))) clock_after); reflexivity.
Defined.

Lemma earlier_later_clock (d : datetime) (now now' : clock) :
  earlier d (utcnow now) = true -> not_before now' now -> earlier d (utcnow now') = true.
Proof.
  unfold earlier, not_before. intros H Hle.
  destruct (cmp_tuple (fields d) (fields (utcnow now))) eqn:E; try discriminate.
  now rewrite (cmp_tuple_lt_le _ _ _ E Hle).
Qed.

(** X23. Expiry does not go back: a paste that [is_expired] finds
    expired at one reading of the clock is found expired at every later
    reading, in [helpers.py] and in [core/models.py]. *)
Theorem is_expired_stays_expired (h : helpers.PasteMeta) (m : models.PasteMeta)
    (now now' : clock) :
  helpers.is_expired h now = Return true ->
  models.is_expired m now = Return true ->
  not_before now' now ->
  helpers.is_expired h now' = Return true /\ models.is_expired m now' = Return true.
Proof.
  intros Hh Hm Hle. split.
  - revert Hh. unfold helpers.is_expired. destruct (helpers.expire_dt h) as [e|]; [|discriminate].
    unfold datetime_lt. cbn [tzinfo utcnow]. destruct (tzinfo e); [discriminate|].
    cbn [bind]. fold (utcnow now) (utcnow now') (earlier e (utcnow now)) (earlier e (utcnow now')).
    destruct (earlier e (utcnow now)) eqn:E; [|discriminate]. intros _.
    now rewrite (earlier_later_clock e now now' E Hle).
  - revert Hm. rewrite !models_is_expired_earlier.
    destruct (models.expire_dt m) as [e|]; [|discriminate].
    intros [= E]. now rewrite (earlier_later_clock _ now now' E Hle).
Qed.

Lemma is_expired_stays_expired_witness :
  helpers.is_expired paste_live (mk_clock 2030 1 1 0 0 0 0) = Return true
  /\ models.is_expired paste_titled (mk_clock 2030 1 1 0 0 0 0) = Return true.
Proof.
  apply (is_expired_stays_expired paste_live paste_titled clock_after (mk_clock 2030 1 1 0 0 0 0));
    [reflexivity | reflexivity | discriminate].
Defined.

(** ** The aware [expire_dt], in general *)

(** X24. A stored paste whose [expire_dt] is aware makes
    [try_get_paste] raise a [TypeError], at every reading of the clock
    and with or without [auto_remove]; the file system is left as it was,
    and the wrapper of [handle_paste_exceptions] catches nothing: the
    [TypeError] goes through it. *)
Theorem try_get_paste_aware_expire_dt (root : Path) (paste_id : str) (auto_remove : bool)
    (now : clock) (meanwhile : FS -> FS) (fs : FS) (stored : bytes) (m : helpers.PasteMeta)
    (e : datetime) (off : Z) :
  (3 <= String.length paste_id)%nat ->
  files fs !! paste_path root paste_id = Some stored ->
  helpers.get_paste_meta (readline stored).1 = Return m ->
  helpers.expire_dt m = Some e ->
  tzinfo e = Some off ->
  helpers.try_get_paste root paste_id auto_remove now meanwhile fs
  = (Raise (TypeError "can't compare offset-naive and offset-aware datetimes"), fs)
  /\ handle_paste_exceptions (helpers.try_get_paste root paste_id auto_remove now meanwhile fs).1
     = Uncaught (TypeError "can't compare offset-naive and offset-aware datetimes").
Proof.
  intros Hlen Hfile Hmeta He Htz.
  rewrite (try_get_paste_stored _ _ _ _ _ _ stored m) by assumption.
  rewrite (helpers_is_expired_aware m e off now He Htz). now split.
Qed.

Lemma try_get_paste_aware_expire_dt_witness :
  handle_paste_exceptions
    (helpers.try_get_paste ["/"; "data"] "abcdef" false clock_before id fs_expired_aware).1
  = Uncaught (TypeError "can't compare offset-naive and offset-aware datetimes").
Proof.
  apply (try_get_paste_aware_expire_dt ["/"; "data"] "abcdef" false clock_before id fs_expired_aware
           (str_encode (helpers.PasteMeta_json paste_expired_aware) ++ LF :: list_byte_of_string "hello")
           paste_expired_aware y2k_utc 0%Z);
    [simpl; lia | reflexivity | reflexivity | reflexivity | reflexivity].
Defined.

(** ** The response *)

(** X25. When [write_paste] at the path of an identifier returns, with
    metadata of the current version, dates that are naive or have an
    offset of whole minutes, and no expiry yet,
    [try_get_paste_with_content_response] returns a response of type
    [text/plain]. Its body is not read yet: sent while the file is as
    written, it yields chunks that make up the content; sent when no
    file is at the path any more, it raises the error of the opening,
    [FileNotFoundError] where the directory is still there and the path
    is not one of a directory. *)
Theorem written_paste_response (root : Path) (paste_id : str) (auto_remove : bool)
    (now : clock) (meanwhile : FS -> FS) (fs : FS) (m : helpers.PasteMeta) (c : helpers.content) :
  (3 <= String.length paste_id)%nat ->
  valid_meta m ->
  helpers.is_expired m now = Return false ->
  (helpers.write_paste (paste_path root paste_id) m c fs).1 = Return tt ->
  let written := (helpers.write_paste (paste_path root paste_id) m c fs).2 in
  exists response,
    try_get_paste_with_content_response root paste_id auto_remove now meanwhile written
    = (Return (paste_path root paste_id, m, response), written)
    /\ mimetype response = "text/plain"
    /\ (exists chunks, body response written = Return chunks
                       /\ List.concat chunks = helpers.content_bytes c)
    /\ (forall later, files later !! paste_path root paste_id = None ->
          body response later = Raise (no_file (paste_path root paste_id) later))
    /\ (forall later, files later !! paste_path root paste_id = None ->
          resolve (paste_path root paste_id) later = None ->
          isdir (paste_path root paste_id) later = false ->
          body response later = Raise (FileNotFoundError "No such file or directory")).
Proof.
  intros Hlen Hm Hlive Hret written. subst written.
  unfold try_get_paste_with_content_response.
  rewrite (try_get_paste_stored _ _ _ _ _ _ _ m Hlen (write_paste_file _ m c fs Hret)).
  2:{ rewrite readline_header by apply PasteMeta_json_no_LF.
      apply get_paste_meta_json; [now right | exact Hm]. }
  rewrite Hlive. eexists. split; [reflexivity|]. cbn [mimetype body make_response].
  split; [reflexivity|]. split; [|split].
  - exists (readlines (helpers.content_bytes c)).
    split; [now apply read_paste_content_written | apply concat_readlines].
  - intros later Hgone. unfold helpers.read_paste_content, helpers.open_rb. now rewrite Hgone.
  - intros later Hgone Hr Hd. unfold helpers.read_paste_content, helpers.open_rb, no_file.
    now rewrite Hgone, Hr, Hd.
Qed.

Lemma written_paste_response_witness :
  exists response,
    try_get_paste_with_content_response ["/"; "srv"] "q7Zt_0-abc" true clock_before id fs_live
    = (Return (["/"; "srv"; "q7"; "Zt_0-abc"], paste_live, response), fs_live)
    /\ mimetype response = "text/plain"
    /\ (exists chunks, body response fs_live = Return chunks
                       /\ List.concat chunks = list_byte_of_string "hello")
    /\ (forall later, files later !! ["/"; "srv"; "q7"; "Zt_0-abc"] = None ->
          body response later = Raise (no_file ["/"; "srv"; "q7"; "Zt_0-abc"] later))
    /\ (forall later, files later !! ["/"; "srv"; "q7"; "Zt_0-abc"] = None ->
          resolve ["/"; "srv"; "q7"; "Zt_0-abc"] later = None ->
          isdir ["/"; "srv"; "q7"; "Zt_0-abc"] later = false ->
          body response later = Raise (FileNotFoundError "No such file or directory")).
Proof.
  apply (written_paste_response ["/"; "srv"] "q7Zt_0-abc" true clock_before id fs_srv
           paste_live (helpers.Buffer (list_byte_of_string "hello")));
    [simpl; lia | repeat split; reflexivity | reflexivity | reflexivity].
Defined.

(** ** The directory of the shard *)

(** X26. With [mkdir], [create_paste_path] makes the directory of the
    shard, with [parents] and [exist_ok]. No file changes and every
    directory that was there still is. The call returns the path
    returned without [mkdir], and then the shard is a directory and a
    second call changes nothing; or it raises an [OSError] of the
    making of the directory. Where a regular file is at the shard it
    raises [FileExistsError] and makes nothing; where the shard is a
    directory already it returns and makes nothing. *)
Theorem create_paste_path_mkdir (root : Path) (paste_id : str) (fs : FS) :
  (3 <= String.length paste_id)%nat ->
  let shard := root // slice_to 2 paste_id in
  let out := helpers.create_paste_path root paste_id true fs in
  files out.2 = files fs
  /\ dirs fs ⊆ dirs out.2
  /\ ((out.1 = Return (paste_path root paste_id)
       /\ out.1 = (helpers.create_paste_path root paste_id false fs).1
       /\ isdir shard out.2 = true
       /\ helpers.create_paste_path root paste_id true out.2 = out)
      \/ exists e, out.1 = Raise e /\ is_OSError e = true)
  /\ (isfile shard fs = true -> out = (Raise (FileExistsError "File exists"), fs))
  /\ (isdir shard fs = true -> out = (Return (paste_path root paste_id), fs)).
Proof.
  intros Hlen shard out. subst shard out.
  rewrite !create_paste_path_with_mkdir, create_paste_path_no_mkdir by exact Hlen.
  destruct (mkdir_parents_makes_dir (root // slice_to 2 paste_id) fs) as (Hf & Hd & Hret & He).
  split; [|split; [|split; [|split]]].
  - now destruct (mkdir_parents (root // slice_to 2 paste_id) fs) as [[[]|e] fs'].
  - now destruct (mkdir_parents (root // slice_to 2 paste_id) fs) as [[[]|e] fs'].
  - destruct (mkdir_parents (root // slice_to 2 paste_id) fs) as [[[]|e] fs'] eqn:E;
      cbn [fst snd] in *.
    + left. split; [reflexivity|]. split; [reflexivity|].
      specialize (Hret eq_refl). split; [exact Hret|].
      now rewrite (mkdir_parents_dir _ _ Hret).
    + right. exists e. split; [reflexivity | now apply He].
  - intros Hfile. now rewrite (mkdir_parents_file _ _ Hfile).
  - intros Hdir. now rewrite (mkdir_parents_dir _ _ Hdir).
Qed.

Lemma create_paste_path_mkdir_witness :
  isdir ["/"; "srv"; "q7"]
    (helpers.create_paste_path ["/"; "srv"] "q7Zt_0-abc" true (mk_FS ∅ {[ ["/"; "srv"] ]})).2 = true
  /\ helpers.create_paste_path ["/"; "srv"] "abcdef" true
       (mk_FS {[ ["/"; "srv"; "ab"] := [] ]} {[ ["/"; "srv"] ]})
     = (Raise (FileExistsError "File exists"),
        mk_FS {[ ["/"; "srv"; "ab"] := [] ]} {[ ["/"; "srv"] ]}).
Proof.
  split.
  - destruct (create_paste_path_mkdir ["/"; "srv"] "q7Zt_0-abc" (mk_FS ∅ {[ ["/"; "srv"] ]}))
      as (_ & _ & [(_ & _ & H & _)|(e & He & _)] & _); [simpl; lia | exact H | discriminate He].
  - destruct (create_paste_path_mkdir ["/"; "srv"] "abcdef"
                (mk_FS {[ ["/"; "srv"; "ab"] := [] ]} {[ ["/"; "srv"] ]}))
      as (_ & _ & _ & H & _); [simpl; lia | apply H; reflexivity].
Defined.

(** ** Identifiers and the random source *)

Section base64_injective.
Local Open Scope N_scope.

Lemma b64_index_nth (n : nat) :
  (n < 64)%nat -> b64_index (nth n urlsafe_alphabet "A"%byte) = N.of_nat n.
Proof.
  intros H. do 64 (destruct n as [|n]; [reflexivity|]). lia.
Qed.

Lemma b64_char_inj (i j : N) : i < 64 -> j < 64 -> b64_char i = b64_char j -> i = j.
Proof.
  intros Hi Hj H. apply (f_equal b64_index) in H. unfold b64_char in H.
  rewrite !b64_index_nth in H by lia. lia.
Qed.

(** The parts of a byte that the encoding takes. *)
Lemma byte_parts (a : byte) :
  let A := Byte.to_N a in
  (A = 4 * N.shiftr A 2 + N.land A 3 /\ N.shiftr A 2 < 64 /\ N.land A 3 < 4)
  /\ (A = 16 * N.shiftr A 4 + N.land A 15 /\ N.shiftr A 4 < 16 /\ N.land A 15 < 16)
  /\ (A = 64 * N.shiftr A 6 + N.land A 63 /\ N.shiftr A 6 < 4 /\ N.land A 63 < 64).
Proof. destruct a; vm_compute; repeat split; reflexivity. Qed.

Lemma lor_shiftl_4 (x y : N) : x < 4 -> y < 16 -> N.lor (N.shiftl x 4) y = 16 * x + y.
Proof.
  intros Hx Hy.
  assert (Ex : x = 0 \/ x = 1 \/ x = 2 \/ x = 3) by lia.
  assert (Ey : y = 0 \/ y = 1 \/ y = 2 \/ y = 3 \/ y = 4 \/ y = 5 \/ y = 6 \/ y = 7 \/ y = 8
               \/ y = 9 \/ y = 10 \/ y = 11 \/ y = 12 \/ y = 13 \/ y = 14 \/ y = 15) by lia.
  repeat (destruct Ex as [->|Ex]); try subst x;
    repeat (destruct Ey as [->|Ey]); try subst y; reflexivity.
Qed.

Lemma lor_shiftl_2 (x y : N) : x < 16 -> y < 4 -> N.lor (N.shiftl x 2) y = 4 * x + y.
Proof.
  intros Hx Hy.
  assert (Ey : y = 0 \/ y = 1 \/ y = 2 \/ y = 3) by lia.
  assert (Ex : x = 0 \/ x = 1 \/ x = 2 \/ x = 3 \/ x = 4 \/ x = 5 \/ x = 6 \/ x = 7 \/ x = 8
               \/ x = 9 \/ x = 10 \/ x = 11 \/ x = 12 \/ x = 13 \/ x = 14 \/ x = 15) by lia.
  repeat (destruct Ex as [->|Ex]); try subst x;
    repeat (destruct Ey as [->|Ey]); try subst y; reflexivity.
Qed.

Lemma to_N_inj (a b : byte) : Byte.to_N a = Byte.to_N b -> a = b.
Proof.
  intros H. apply (f_equal Byte.of_N) in H. rewrite !Byte.of_to_N in H. congruence.
Qed.

(** The four characters of three bytes determine the bytes. *)
Lemma group_inj (a b c a' b' c' : byte) :
  b64_char (N.shiftr (Byte.to_N a) 2) = b64_char (N.shiftr (Byte.to_N a') 2) ->
  b64_char (N.lor (N.shiftl (N.land (Byte.to_N a) 3) 4) (N.shiftr (Byte.to_N b) 4))
  = b64_char (N.lor (N.shiftl (N.land (Byte.to_N a') 3) 4) (N.shiftr (Byte.to_N b') 4)) ->
  b64_char (N.lor (N.shiftl (N.land (Byte.to_N b) 15) 2) (N.shiftr (Byte.to_N c) 6))
  = b64_char (N.lor (N.shiftl (N.land (Byte.to_N b') 15) 2) (N.shiftr (Byte.to_N c') 6)) ->
  b64_char (N.land (Byte.to_N c) 63) = b64_char (N.land (Byte.to_N c') 63) ->
  a = a' /\ b = b' /\ c = c'.
Proof.
  destruct (byte_parts a) as ((A1 & A2 & A3) & _ & _), (byte_parts a') as ((A1' & A2' & A3') & _ & _).
  destruct (byte_parts b) as (_ & (B1 & B2 & B3) & _), (byte_parts b') as (_ & (B1' & B2' & B3') & _).
  destruct (byte_parts c) as (_ & _ & (C1 & C2 & C3)), (byte_parts c') as (_ & _ & (C1' & C2' & C3')).
  rewrite !lor_shiftl_4, !lor_shiftl_2 by assumption.
  intros H1 H2 H3 H4.
  apply b64_char_inj in H1, H2, H3, H4; try lia.
  repeat split; apply to_N_inj; lia.
Qed.

Lemma shiftl_4_lor (x : N) : N.shiftl x 4 = N.lor (N.shiftl x 4) 0.
Proof. now rewrite N.lor_0_r. Qed.

Lemma shiftl_2_lor (x : N) : N.shiftl x 2 = N.lor (N.shiftl x 2) 0.
Proof. now rewrite N.lor_0_r. Qed.

Lemma rstrip_byte_b64_char (i : N) (l : bytes) :
  rstrip_byte pad_char (b64_char i :: l) = b64_char i :: rstrip_byte pad_char l.
Proof. apply rstrip_byte_cons, alphabet_not_pad, b64_char_in_alphabet. Qed.

(** The unpadded encodings of two byte strings of one length differ
    when the byte strings do. *)
Lemma urlsafe_b64encode_unpadded_inj (s : bytes) :
  forall s' : bytes,
  length s = length s' ->
  rstrip_byte pad_char (urlsafe_b64encode s) = rstrip_byte pad_char (urlsafe_b64encode s') ->
  s = s'.
Proof.
  induction s as [|a|a b|a b c s IH] using list_ind3; intros s' Hlen.
  - destruct s'; [reflexivity | discriminate Hlen].
  - destruct s' as [|a' [|]]; try discriminate Hlen.
    cbn [urlsafe_b64encode].
    rewrite !rstrip_byte_b64_char.
    intros H. injection H as H1 H2.
    destruct (byte_parts a) as ((A1 & A2 & A3) & _ & _),
             (byte_parts a') as ((A1' & A2' & A3') & _ & _).
    rewrite (shiftl_4_lor (N.land (Byte.to_N a) 3)),
            (shiftl_4_lor (N.land (Byte.to_N a') 3)) in H2.
    rewrite !lor_shiftl_4 in H2 by (assumption || lia).
    apply b64_char_inj in H1, H2; try lia.
    f_equal. apply to_N_inj. lia.
  - destruct s' as [|a' [|b' [|]]]; try discriminate Hlen.
    cbn [urlsafe_b64encode].
    rewrite !rstrip_byte_b64_char.
    intros H. injection H as H1 H2 H3.
    destruct (byte_parts a) as ((A1 & A2 & A3) & _ & _),
             (byte_parts a') as ((A1' & A2' & A3') & _ & _).
    destruct (byte_parts b) as (_ & (B1 & B2 & B3) & _),
             (byte_parts b') as (_ & (B1' & B2' & B3') & _).
    rewrite (shiftl_2_lor (N.land (Byte.to_N b) 15)),
            (shiftl_2_lor (N.land (Byte.to_N b') 15)) in H3.
    rewrite !lor_shiftl_4 in H2 by assumption.
    rewrite !lor_shiftl_2 in H3 by (assumption || lia).
    apply b64_char_inj in H1, H2, H3; try lia.
    f_equal; [|f_equal]; apply to_N_inj; lia.
  - destruct s' as [|a' [|b' [|c' s']]]; try discriminate Hlen.
    cbn [urlsafe_b64encode].
    rewrite !rstrip_byte_b64_char.
    intros H. injection H as H1 H2 H3 H4 H5.
    destruct (group_inj a b c a' b' c' H1 H2 H3 H4) as (-> & -> & ->).
    do 3 f_equal. apply IH; [|exact H5]. simpl in Hlen. lia.
Qed.

End base64_injective.

Lemma string_of_list_byte_inj (l l' : bytes) :
  string_of_list_byte l = string_of_list_byte l' -> l = l'.
Proof.
  intros H. apply (f_equal list_byte_of_string) in H.
  now rewrite !list_byte_of_string_of_list_byte in H.
Qed.

Lemma token_bytes_nth (rng rng' : nat -> byte) (n : nat) :
  token_bytes rng n = token_bytes rng' n -> forall i, (i < n)%nat -> rng i = rng' i.
Proof.
  unfold token_bytes. intros H i Hi.
  apply (f_equal (fun l => nth i l (rng 0%nat))) in H.
  rewrite (nth_indep (List.map rng' (seq 0 n)) (rng 0%nat) (rng' 0%nat)) in H
    by (rewrite length_map, length_seq; exact Hi).
  rewrite !map_nth, seq_nth in H by exact Hi. exact H.
Qed.

Lemma token_urlsafe_inj (rng rng' : nat -> byte) (n : nat) :
  token_urlsafe rng n = token_urlsafe rng' n -> forall i, (i < n)%nat -> rng i = rng' i.
Proof.
  unfold token_urlsafe. intros H. apply string_of_list_byte_inj in H.
  apply urlsafe_b64encode_unpadded_inj in H.
  - now apply token_bytes_nth.
  - unfold token_bytes. now rewrite !length_map, !length_seq.
Qed.

(** X27. An identifier determines the random bytes it was made from:
    [create_paste_id] gives the same identifier for two random sources
    only when they agree on all the bytes it draws, 30 for a long
    identifier and 7 for a short one.  No randomness is lost between
    [secrets.token_urlsafe] and the identifier. *)
Theorem create_paste_id_determines_bytes (long : bool) (rng rng' : nat -> byte) :
  helpers.create_paste_id long rng = helpers.create_paste_id long rng' ->
  forall i, (i < if long then 30 else 7)%nat -> rng i = rng' i.
Proof.
  unfold helpers.create_paste_id. destruct long; apply token_urlsafe_inj.
Qed.

Lemma create_paste_id_determines_bytes_witness :
  (if (6 <? 7)%nat then "a"%byte else "b"%byte) = "a"%byte.
Proof.
  apply (create_paste_id_determines_bytes false
           (fun i => if (i <? 7)%nat then "a"%byte else "b"%byte) (fun _ => "a"%byte)
           eq_refl 6%nat).
  simpl; lia.
Defined.

(** ** From creation to access *)
























